(** * Patient tracker: GPS decoding, geofence evaluation and alerting

    A shallow embedding of the tracking engine of the repository
    ([tracker.py], [patient_tracker.py], [patient_tracker_new.py],
    [web_dashboard.py]) and the properties its specification states.

    Conventions.
    - Python [float]s are idealised: the geofence arithmetic is carried out
      over the real numbers [R] ([math.sin], [math.cos], [math.asin],
      [math.sqrt] are the real functions, with the domain errors Python
      raises written out), and the decimal fields read by [float()] in
      [tracker.py] are exact rationals extended with [inf] and [nan].
    - Text is ASCII text (what [decode('ascii', errors='ignore')] yields).
    - A Python call either returns a value or raises: [py_result]; methods
      that mutate the tracker thread it explicitly and keep the mutations
      made before an exception, as Python does.
    - [pynmea2] is an external library: it is an explicit argument
      ([Pynmea2.lib]) of everything that calls it. *)

From Stdlib Require Import Reals Lra Lia ZArith QArith String Ascii List Bool.
From Stdlib Require Lqa.
From stdpp Require Import base gmap strings list.
Import ListNotations.

(** ** Python values and exceptions *)

Module Py.

Inductive exn : Type :=
| KeyError
| TypeError
| ValueError
| AttributeError
| ParseError      (* pynmea2.ParseError and its subclasses *)
| OtherError.     (* any other subclass of Exception *)

Inductive py_result (A : Type) : Type :=
| Return (a : A)
| Raise (e : exn).
Arguments Return {A} a.
Arguments Raise {A} e.

Definition bind {A B : Type} (m : py_result A) (k : A -> py_result B) : py_result B :=
  match m with
  | Return a => k a
  | Raise e => Raise e
  end.

(** [try: m  except Exception: h] *)
Definition try_except {A : Type} (m : py_result A) (h : exn -> py_result A) : py_result A :=
  match m with
  | Return a => Return a
  | Raise e => h e
  end.

(** The values that occur in location dicts, configuration and messages. *)
Inductive pyval : Type :=
| PyNone
| PyBool (b : bool)
| PyInt (z : Z)
| PyFloat (r : R)
| PyStr (s : string)
| PyDatetime (t : Z).

(** A dict with string keys, e.g. the location dict built by the decoder. *)
Abbreviation dict := (gmap string pyval).

(** [d[k]] *)
Definition getitem (d : dict) (k : string) : py_result pyval :=
  match d !! k with
  | Some v => Return v
  | None => Raise KeyError
  end.

(** [d.get(k)] *)
Definition get (d : dict) (k : string) : pyval :=
  match d !! k with
  | Some v => v
  | None => PyNone
  end.

(** [bool(d)] for a dict: non-empty. *)
Definition dict_truthy (d : dict) : bool := negb (Nat.eqb (size d) 0).

(** [bool(v)] *)
Definition truthy (v : pyval) : bool :=
  match v with
  | PyNone => false
  | PyBool b => b
  | PyInt z => negb (Z.eqb z 0)
  | PyFloat r => if Req_dec_T r 0 then false else true
  | PyStr s => negb (String.eqb s "")
  | PyDatetime _ => true
  end.

(** [float(v)] for a value that is already a number; [TypeError] otherwise
    (the conversion [math.radians] and the arithmetic operators apply). *)
Definition as_real (v : pyval) : py_result R :=
  match v with
  | PyFloat r => Return r
  | PyInt z => Return (IZR z)
  | PyBool b => Return (if b then 1%R else 0%R)
  | _ => Raise TypeError
  end.

(** [math.radians(v)] *)
Definition radians_of (r : R) : R := (r * PI / 180)%R.
Definition radians (v : pyval) : py_result R :=
  bind (as_real v) (fun r => Return (radians_of r)).

(** [math.sqrt(x)]: [ValueError] (math domain error) below zero. *)
Definition math_sqrt (x : R) : py_result R :=
  if Rlt_dec x 0 then Raise ValueError else Return (sqrt x).

(** [math.asin(x)]: [ValueError] outside [-1, 1]. *)
Definition math_asin (x : R) : py_result R :=
  if Rlt_dec x (-1) then Raise ValueError
  else if Rlt_dec 1 x then Raise ValueError
  else Return (asin x).

(** [x > v] for a float [x]: [TypeError] when [v] is not a number. *)
Definition float_gt (x : R) (v : pyval) : py_result bool :=
  bind (as_real v) (fun r => Return (if Rgt_dec x r then true else false)).

(** [v >= 1] *)
Definition ge_one (v : pyval) : py_result bool :=
  bind (as_real v) (fun r => Return (if Rge_dec r 1 then true else false)).

(** [v * 1.852] *)
Definition mul_float (v : pyval) (x : R) : py_result pyval :=
  bind (as_real v) (fun r => Return (PyFloat (r * x))).

(** [f"{v:.6f}"] and the like: formatting with a fixed-point format
    specification.  Numbers format; [None] raises [TypeError], a string
    raises [ValueError]; a datetime treats the specification as a strftime
    pattern and formats. *)
Definition format_f (v : pyval) : py_result unit :=
  match v with
  | PyFloat _ | PyInt _ | PyBool _ | PyDatetime _ => Return tt
  | PyNone => Raise TypeError
  | PyStr _ => Raise ValueError
  end.

(** Stateful methods: the state reached is kept when an exception escapes. *)
Definition py (S A : Type) : Type := S -> py_result A * S.

Definition ret {S A : Type} (a : A) : py S A := fun s => (Return a, s).
Definition throw {S A : Type} (e : exn) : py S A := fun s => (Raise e, s).
Definition lift {S A : Type} (m : py_result A) : py S A := fun s => (m, s).
Definition modify {S : Type} (f : S -> S) : py S unit := fun s => (Return tt, f s).
Definition gets {S A : Type} (f : S -> A) : py S A := fun s => (Return (f s), s).

Definition sbind {S A B : Type} (m : py S A) (k : A -> py S B) : py S B :=
  fun s =>
    match m s with
    | (Return a, s') => k a s'
    | (Raise e, s') => (Raise e, s')
    end.

(** [try: m  except Exception: h] for a stateful block. *)
Definition catch {S A : Type} (m : py S A) (h : exn -> py S A) : py S A :=
  fun s =>
    match m s with
    | (Return a, s') => (Return a, s')
    | (Raise e, s') => h e s'
    end.

End Py.
Import Py.

Declare Scope py_scope.
Delimit Scope py_scope with py.
Notation "x <- m ;; k" := (bind m (fun x => k))
  (at level 200, m at level 99, k at level 200, right associativity) : py_scope.
Notation "x <~ m ;; k" := (sbind m (fun x => k))
  (at level 200, m at level 99, k at level 200, right associativity) : py_scope.
Notation "m ;;; k" := (sbind m (fun _ => k))
  (at level 200, k at level 200, right associativity) : py_scope.
Open Scope py_scope.

(** ** String operations of the Python text type *)

Module Str.

(** [s.split(sep)] for a one-character separator. *)
Fixpoint split (sep : ascii) (s : string) : list string :=
  match s with
  | EmptyString => [EmptyString]
  | String c s' =>
      if Ascii.eqb c sep then EmptyString :: split sep s'
      else match split sep s' with
           | [] => [String c EmptyString]
           | w :: ws => String c w :: ws
           end
  end.

(** [c.isspace()] on ASCII: tab, LF, VT, FF, CR, FS, GS, RS, US, space. *)
Definition is_space (c : ascii) : bool :=
  let n := nat_of_ascii c in
  ((9 <=? n)%nat && (n <=? 13)%nat) || ((28 <=? n)%nat && (n <=? 32)%nat).

Fixpoint lstrip (s : string) : string :=
  match s with
  | EmptyString => EmptyString
  | String c s' => if is_space c then lstrip s' else s
  end.

Fixpoint rstrip (s : string) : string :=
  match s with
  | EmptyString => EmptyString
  | String c s' =>
      match rstrip s' with
      | EmptyString => if is_space c then EmptyString else String c EmptyString
      | r => String c r
      end
  end.

(** [s.strip()] *)
Definition strip (s : string) : string := rstrip (lstrip s).

(** [s.startswith(p)] *)
Fixpoint startswith (s p : string) : bool :=
  match p with
  | EmptyString => true
  | String a p' =>
      match s with
      | EmptyString => false
      | String b s' => Ascii.eqb a b && startswith s' p'
      end
  end.

(** [bool(s)] *)
Definition nonempty (s : string) : bool := negb (String.eqb s "").

(** [s[:n]] and [s[n:]] *)
Fixpoint take (n : nat) (s : string) : string :=
  match n, s with
  | O, _ => EmptyString
  | S n', String c s' => String c (take n' s')
  | S _, EmptyString => EmptyString
  end.

Fixpoint drop (n : nat) (s : string) : string :=
  match n, s with
  | O, _ => s
  | S n', String _ s' => drop n' s'
  | S _, EmptyString => EmptyString
  end.

End Str.

(** ** [tracker.py]: the hand-written position-fix decoder *)

Module Tracker.

(** A Python float read from text: an exact decimal, an infinity or nan. *)
Inductive pyfloat : Type :=
| FFin (q : Q)
| FInf (negative : bool)
| FNan.

Definition fadd (x y : pyfloat) : pyfloat :=
  match x, y with
  | FNan, _ | _, FNan => FNan
  | FInf a, FInf b => if Bool.eqb a b then FInf a else FNan
  | FInf a, FFin _ => FInf a
  | FFin _, FInf b => FInf b
  | FFin p, FFin q => FFin (p + q)
  end.

(** [x / 60] *)
Definition fdiv60 (x : pyfloat) : pyfloat :=
  match x with
  | FFin p => FFin (p / 60)
  | FInf a => FInf a
  | FNan => FNan
  end.

Definition fneg (x : pyfloat) : pyfloat :=
  match x with
  | FFin p => FFin (- p)
  | FInf a => FInf (negb a)
  | FNan => FNan
  end.

(** [lo <= x <= hi] on floats: false for nan and the infinities. *)
Definition in_range (lo hi : Q) (x : pyfloat) : Prop :=
  match x with
  | FFin p => (lo <= p /\ p <= hi)%Q
  | _ => False
  end.

(** *** [float(s)] on text

    floatvalue ::= [sign] (floatnumber | "inf" | "infinity" | "nan"),
    floatnumber ::= number [exponent],
    number ::= [digitpart] "." digitpart | digitpart ["."],
    digitpart ::= digit (["_"] digit)*,
    exponent ::= ("e" | "E") [sign] digitpart,
    surrounded by optional whitespace; anything else is a [ValueError]. *)

Definition digit_val (c : ascii) : option Z :=
  let n := nat_of_ascii c in
  if ((48 <=? n)%nat && (n <=? 57)%nat) then Some (Z.of_nat n - 48)%Z else None.

(** The digits after the first one of a digitpart: the value so far, the
    number of digits so far, and then what is left of the text. *)
Fixpoint digits_tail (acc n : Z) (s : list ascii) : Z * Z * list ascii :=
  match s with
  | [] => (acc, n, [])
  | c :: s' =>
      match digit_val c with
      | Some d => digits_tail (10 * acc + d) (n + 1) s'
      | None =>
          if Ascii.eqb c "_" then
            match s' with
            | c2 :: s'' =>
                match digit_val c2 with
                | Some d => digits_tail (10 * acc + d) (n + 1) s''
                | None => (acc, n, s)
                end
            | [] => (acc, n, s)
            end
          else (acc, n, s)
      end
  end.

Definition digitpart (acc n : Z) (s : list ascii) : option (Z * Z * list ascii) :=
  match s with
  | c :: s' =>
      match digit_val c with
      | Some d => Some (digits_tail (10 * acc + d) (n + 1) s')
      | None => None
      end
  | [] => None
  end.

(** number: the digits as one integer, the count of fraction digits, the rest. *)
Definition number (s : list ascii) : option (Z * Z * list ascii) :=
  match digitpart 0 0 s with
  | Some (i, _, rest) =>
      match rest with
      | c :: rest' =>
          if Ascii.eqb c "." then
            match digitpart i 0 rest' with
            | Some r => Some r
            | None => Some (i, 0%Z, rest')
            end
          else Some (i, 0%Z, rest)
      | [] => Some (i, 0%Z, [])
      end
  | None =>
      match s with
      | c :: rest' => if Ascii.eqb c "." then digitpart 0 0 rest' else None
      | [] => None
      end
  end.

(** An optional sign: whether it is a minus, and the rest. *)
Definition sign (s : list ascii) : bool * list ascii :=
  match s with
  | c :: s' =>
      if Ascii.eqb c "-" then (true, s')
      else if Ascii.eqb c "+" then (false, s')
      else (false, s)
  | [] => (false, [])
  end.

(** The exponent that may follow a number; [None] is a malformed tail. *)
Definition exponent (s : list ascii) : option Z :=
  match s with
  | [] => Some 0%Z
  | c :: s' =>
      if Ascii.eqb c "e" || Ascii.eqb c "E" then
        let '(neg, s'') := sign s' in
        match digitpart 0 0 s'' with
        | Some (e, _, []) => Some (if neg then (- e)%Z else e)
        | _ => None
        end
      else None
  end.

Definition lower (c : ascii) : ascii :=
  let n := nat_of_ascii c in
  if ((65 <=? n)%nat && (n <=? 90)%nat) then ascii_of_nat (n + 32) else c.

Definition lower_string (s : list ascii) : string :=
  string_of_list_ascii (map lower s).

Definition py_float (text : string) : py_result pyfloat :=
  let '(neg, s) := sign (list_ascii_of_string (Str.strip text)) in
  let w := lower_string s in
  if String.eqb w "inf" || String.eqb w "infinity" then Return (FInf neg)
  else if String.eqb w "nan" then Return FNan
  else
    match number s with
    | Some (m, k, rest) =>
        match exponent rest with
        | Some e =>
            let q := (inject_Z m * Qpower 10 (e - k))%Q in
            Return (FFin (if neg then (- q)%Q else q))
        | None => Raise ValueError
        end
    | None => Raise ValueError
    end.

(** *** [parse_nmea] *)

(** The dict [{'lat': .., 'lon': .., 'time': datetime.now()}]. *)
Record location : Type := Location { lat : pyfloat; lon : pyfloat; time : Z }.

(** [parts[i]], used only below the length test. *)
Definition part (parts : list string) (i : nat) : string := nth i parts EmptyString.

(** [float(f[:n]) + float(f[n:]) / 60], negated in the given hemisphere. *)
Definition coordinate (n : nat) (field hemi neg_hemi : string) : py_result pyfloat :=
  d <- py_float (Str.take n field) ;;
  m <- py_float (Str.drop n field) ;;
  let v := fadd d (fdiv60 m) in
  Return (if String.eqb hemi neg_hemi then fneg v else v).

(** The body of the [for] loop over the lines; [now] is [datetime.now()]. *)
Fixpoint parse_nmea_lines (now : Z) (lines : list string) : py_result (option location) :=
  match lines with
  | [] => Return None
  | line :: rest =>
      if Str.startswith line "$GPGGA" then
        let parts := Str.split "," line in
        if (5 <? length parts)%nat && Str.nonempty (part parts 2)
           && Str.nonempty (part parts 4) then
          la <- coordinate 2 (part parts 2) (part parts 3) "S" ;;
          lo <- coordinate 3 (part parts 4) (part parts 5) "W" ;;
          Return (Some (Location la lo now))
        else parse_nmea_lines now rest
      else parse_nmea_lines now rest
  end.

(** [parse_nmea(data)]: the bare [except] turns any exception into [None]. *)
Definition parse_nmea (now : Z) (data : string) : py_result (option location) :=
  try_except (parse_nmea_lines now (Str.split "010" data)) (fun _ => Return None).

End Tracker.


(** ** The [pynmea2] library, as the trackers use it *)

Module Pynmea2.

(** A parsed sentence: reading an attribute yields a value or raises
    (a malformed coordinate field raises when [latitude] is read; an
    attribute the sentence type lacks raises [AttributeError]). *)
Definition message : Type := string -> py_result pyval.

(** [pynmea2.parse(line)]: a message, or [ParseError] (bad structure, bad
    checksum, unknown sentence type). *)
Definition lib : Type := string -> py_result message.

(** [getattr(msg, name, default)] *)
Definition getattr (msg : message) (name : string) (default : pyval) : py_result pyval :=
  match msg name with
  | Raise AttributeError => Return default
  | r => r
  end.

End Pynmea2.

(** ** The tables of [patient_tracking.db] *)

Module Db.

(** What [calculate_distance] returns: meters, or [float('inf')]. *)
Inductive distance : Type :=
| Meters (r : R)
| Infinite.

(** The alert texts, by their f-string:
    [f"Patient left safe area. Distance: {distance:.1f}m from center"]
    ([{distance:.2f}m] in [patient_tracker.py]) and
    [f"GPS signal lost for {n} seconds"]. *)
Inductive alert_message : Type :=
| LeftSafeArea (d : distance)
| GpsLost (seconds : Z).

(** A row of [alerts]; [sms_sent] and [resolved] default to 0. *)
Record alert : Type := Alert {
  rowid : Z;
  alert_patient_id : string;
  alert_type : string;
  message : alert_message;
  latitude : pyval;
  longitude : pyval;
  timestamp : Z;
  sms_sent : bool;
  resolved : bool
}.

(** A row of [locations]. *)
Record location_row : Type := LocationRow {
  loc_patient_id : string;
  loc_latitude : pyval;
  loc_longitude : pyval;
  loc_altitude : pyval;
  loc_speed : pyval;
  loc_timestamp : pyval;
  loc_satellites : pyval;
  loc_accuracy : pyval
}.

(** A row of [system_status]. *)
Record status_row : Type := StatusRow {
  component : string;
  status : string;
  status_message : alert_message;
  status_timestamp : Z
}.

(** The id an [INTEGER PRIMARY KEY AUTOINCREMENT] column gives the next
    row: one more than the largest id in the table (rows are never
    deleted by the trackers). *)
Definition next_rowid (rows : list alert) : Z :=
  (1 + fold_right Z.max 0 (map rowid rows))%Z.

Definition set_sms_sent (b : bool) (a : alert) : alert :=
  Alert (rowid a) (alert_patient_id a) (alert_type a) (message a)
        (latitude a) (longitude a) (timestamp a) b (resolved a).

Definition set_resolved (b : bool) (a : alert) : alert :=
  Alert (rowid a) (alert_patient_id a) (alert_type a) (message a)
        (latitude a) (longitude a) (timestamp a) (sms_sent a) b.

(** [UPDATE alerts SET sms_sent = ? WHERE id = ?] *)
Definition update_sms_sent (i : Z) (b : bool) (rows : list alert) : list alert :=
  map (fun a => if Z.eqb (rowid a) i then set_sms_sent b a else a) rows.

(** [SELECT * FROM alerts WHERE resolved = 0] *)
Definition open_alerts (rows : list alert) : list alert :=
  List.filter (fun a => negb (resolved a)) rows.

(** The rows of one alert type. *)
Definition of_type (ty : string) (rows : list alert) : list alert :=
  List.filter (fun a => String.eqb (alert_type a) ty) rows.

End Db.

(** ** [web_dashboard.py] *)

Module Dashboard.
Import Db.

(** [mark_alert_resolved]: [UPDATE alerts SET resolved = 1 WHERE id = ?];
    [alert_id] is [request.json.get('alert_id')], [None] when absent. *)
Definition mark_alert_resolved (alert_id : option Z) (rows : list alert) : list alert :=
  match alert_id with
  | Some i => map (fun a => if Z.eqb (rowid a) i then set_resolved true a else a) rows
  | None => rows
  end.

End Dashboard.

(** ** [patient_tracker_new.py] *)

Module New.
Import Db.

(** The attributes of [PatientTracker] the engine reads and writes, with
    the three tables of the database connection.  [gsm_serial] is the
    modem: [None] when it is not available, else whether the modem
    acknowledges ([+CMGS:]) a message sent to a number. *)
Record tracker : Type := Tracker {
  patient_id : string;
  emergency_contacts : list string;
  update_interval : Z;
  geofence_enabled : bool;
  geofence_lat : R;
  geofence_lon : R;
  geofence_radius : R;
  gsm_serial : option (string -> bool);
  current_location : option dict;
  locations : list location_row;
  alerts : list alert;
  system_status : list status_row;
  sms_attempts : list (string * alert_message)
}.

Definition set_current_location (l : option dict) (t : tracker) : tracker :=
  Tracker (patient_id t) (emergency_contacts t) (update_interval t)
          (geofence_enabled t) (geofence_lat t) (geofence_lon t) (geofence_radius t)
          (gsm_serial t) l (locations t) (alerts t) (system_status t) (sms_attempts t).

Definition set_locations (l : list location_row) (t : tracker) : tracker :=
  Tracker (patient_id t) (emergency_contacts t) (update_interval t)
          (geofence_enabled t) (geofence_lat t) (geofence_lon t) (geofence_radius t)
          (gsm_serial t) (current_location t) l (alerts t) (system_status t) (sms_attempts t).

Definition set_alerts (l : list alert) (t : tracker) : tracker :=
  Tracker (patient_id t) (emergency_contacts t) (update_interval t)
          (geofence_enabled t) (geofence_lat t) (geofence_lon t) (geofence_radius t)
          (gsm_serial t) (current_location t) (locations t) l (system_status t) (sms_attempts t).

Definition set_system_status (l : list status_row) (t : tracker) : tracker :=
  Tracker (patient_id t) (emergency_contacts t) (update_interval t)
          (geofence_enabled t) (geofence_lat t) (geofence_lon t) (geofence_radius t)
          (gsm_serial t) (current_location t) (locations t) (alerts t) l (sms_attempts t).

Definition set_sms_attempts (l : list (string * alert_message)) (t : tracker) : tracker :=
  Tracker (patient_id t) (emergency_contacts t) (update_interval t)
          (geofence_enabled t) (geofence_lat t) (geofence_lon t) (geofence_radius t)
          (gsm_serial t) (current_location t) (locations t) (alerts t) (system_status t) l.

(** The configuration [__init__] sets, on empty tables. *)
Definition default (gsm : option (string -> bool)) : tracker :=
  Tracker "PATIENT001" ["+918848776875"; "+9175929912412"] 10
          true (407128 / 10000)%R (- (740060 / 10000))%R 100%R
          gsm None [] [] [] [].

(** *** [parse_gps_data] *)

(** The dict built from a [$GPGGA] sentence. *)
Definition gga_location (nmea : Pynmea2.lib) (now : Z) (line : string) : py_result dict :=
  msg <- nmea line ;;
  la <- msg "latitude" ;;
  lo <- msg "longitude" ;;
  altitude <- msg "altitude" ;;
  num_sats <- msg "num_sats" ;;
  gps_qual <- msg "gps_qual" ;;
  hdop <- Pynmea2.getattr msg "hdop" PyNone ;;
  Return (<["latitude" := la]> (<["longitude" := lo]> (<["altitude" := altitude]>
         (<["timestamp" := PyDatetime now]> (<["satellites" := num_sats]>
         (<["fix_quality" := gps_qual]> (<["hdop" := hdop]> ∅))))))).

(** The dict built from a [$GPRMC] sentence; the speed is
    [msg.spd_over_grnd * 1.852 if msg.spd_over_grnd else 0]. *)
Definition rmc_location (nmea : Pynmea2.lib) (now : Z) (line : string) : py_result dict :=
  msg <- nmea line ;;
  la <- msg "latitude" ;;
  lo <- msg "longitude" ;;
  spd <- msg "spd_over_grnd" ;;
  speed <- (if truthy spd
            then (spd' <- msg "spd_over_grnd" ;; mul_float spd' (1852 / 1000)%R)
            else Return (PyInt 0)) ;;
  is_valid <- msg "is_valid" ;;
  Return (<["latitude" := la]> (<["longitude" := lo]> (<["speed" := speed]>
         (<["timestamp" := PyDatetime now]> (<["fix_valid" := is_valid]> ∅))))).

(** The inner [try] block on one stripped [$]-line: [Some] is the
    [return] of a dict, [None] falls through to the next line. *)
Definition decode_line (nmea : Pynmea2.lib) (now : Z) (line : string) : py_result (option dict) :=
  if Str.startswith line "$GPGGA" then (d <- gga_location nmea now line ;; Return (Some d))
  else if Str.startswith line "$GPRMC" then (d <- rmc_location nmea now line ;; Return (Some d))
  else Return None.

(** The [for] loop: blank lines and lines without [$] are skipped;
    [except pynmea2.ParseError: continue]; other exceptions escape. *)
Fixpoint parse_lines (nmea : Pynmea2.lib) (now : Z) (lines : list string) : py_result (option dict) :=
  match lines with
  | [] => Return None
  | raw_line :: rest =>
      let line := Str.strip raw_line in
      if negb (Str.nonempty line) || negb (Str.startswith line "$")
      then parse_lines nmea now rest
      else
        match decode_line nmea now line with
        | Return (Some d) => Return (Some d)
        | Return None => parse_lines nmea now rest
        | Raise ParseError => parse_lines nmea now rest
        | Raise e => Raise e
        end
  end.

(** [parse_gps_data]: the outer [except Exception] makes it return [None]. *)
Definition parse_gps_data (nmea : Pynmea2.lib) (now : Z) (raw_data : string)
  : py_result (option dict) :=
  try_except (parse_lines nmea now (Str.split "010" raw_data)) (fun _ => Return None).

(** What the serial port gives in one poll: nothing waiting (or no port),
    the decoded text, or a failing read. *)
Inductive gps_input : Type :=
| NoBytes
| Bytes (raw_data : string)
| ReadError.

(** [get_gps_location] *)
Definition get_gps_location (nmea : Pynmea2.lib) (now : Z) (input : gps_input)
  : py tracker (option dict) :=
  catch
    (match input with
     | Bytes raw_data =>
         location <~ lift (parse_gps_data nmea now raw_data) ;;
         match location with
         | Some d =>
             if dict_truthy d
             then (modify (set_current_location (Some d)) ;;; ret (Some d))
             else ret None
         | None => ret None
         end
     | NoBytes => ret None
     | ReadError => throw OtherError
     end)
    (fun _ => ret None).

(** [store_location]: one [INSERT INTO locations]. *)
Definition store_location (location : dict) : py tracker unit :=
  modify (fun self =>
    set_locations (locations self ++
      [LocationRow (patient_id self) (get location "latitude") (get location "longitude")
         (get location "altitude") (get location "speed") (get location "timestamp")
         (get location "satellites") (get location "hdop")]) self).

(** *** [calculate_distance] *)

(** [2 * asin(sqrt(a))] of the haversine formula, on radians. *)
Definition central_angle (lat1 lon1 lat2 lon2 : R) : py_result R :=
  let dlat := (lat2 - lat1)%R in
  let dlon := (lon2 - lon1)%R in
  let a := (sin (dlat / 2) ^ 2 + cos lat1 * cos lat2 * sin (dlon / 2) ^ 2)%R in
  s <- math_sqrt a ;;
  c <- math_asin s ;;
  Return (2 * c)%R.

Definition calculate_distance (lat1 lon1 lat2 lon2 : pyval) : distance :=
  match (lat1_rad <- radians lat1 ;;
         lon1_rad <- radians lon1 ;;
         lat2_rad <- radians lat2 ;;
         lon2_rad <- radians lon2 ;;
         c <- central_angle lat1_rad lon1_rad lat2_rad lon2_rad ;;
         Return (c * 6371000)%R)
  with
  | Return d => Meters d
  | Raise _ => Infinite
  end.

(** [distance > self.geofence_radius] *)
Definition exceeds (d : distance) (radius : R) : bool :=
  match d with
  | Meters r => if Rgt_dec r radius then true else false
  | Infinite => true
  end.

(** *** [trigger_alert] *)

(** [log_system_status]: one [INSERT INTO system_status]. *)
Definition log_system_status (now : Z) (comp st : string) (msg : alert_message)
  : py tracker unit :=
  modify (fun self =>
    set_system_status (system_status self ++ [StatusRow comp st msg now]) self).

(** The numbers of [emergency_contacts] the modem acknowledges. *)
Definition sms_sent_count (modem : string -> bool) (numbers : list string) : nat :=
  length (List.filter (fun n => modem n) numbers).

Definition trigger_alert (now : Z) (ty : string) (msg : alert_message)
    (la lo : pyval) : py tracker unit :=
  catch
    (lift (format_f la) ;;;
     lift (format_f lo) ;;;
     (* INSERT INTO alerts *)
     i <~ gets (fun self => next_rowid (alerts self)) ;;
     modify (fun self =>
       set_alerts (alerts self ++
         [Alert i (patient_id self) ty msg la lo now false false]) self) ;;;
     (* one SMS per emergency contact, when the modem is there *)
     modem <~ gets gsm_serial ;;
     numbers <~ gets emergency_contacts ;;
     count <~ match modem with
              | Some m =>
                  modify (fun self =>
                    set_sms_attempts
                      (sms_attempts self ++ map (fun n => (n, msg)) numbers) self) ;;;
                  ret (sms_sent_count m numbers)
              | None => ret 0%nat
              end ;;
     (* UPDATE alerts SET sms_sent = ? WHERE id = last_insert_rowid() *)
     modify (fun self =>
       set_alerts (update_sms_sent i (0 <? count)%nat (alerts self)) self) ;;;
     log_system_status now "ALERT" ty msg)
    (fun _ => ret tt).

(** *** [check_geofence] *)

Definition check_geofence (now : Z) (location : dict) : py tracker bool :=
  fun self =>
    if negb (geofence_enabled self) then (Return true, self)
    else
      catch
        (la <~ lift (getitem location "latitude") ;;
         lo <~ lift (getitem location "longitude") ;;
         let d := calculate_distance la lo (PyFloat (geofence_lat self))
                                     (PyFloat (geofence_lon self)) in
         if exceeds d (geofence_radius self) then
           la' <~ lift (getitem location "latitude") ;;
           lo' <~ lift (getitem location "longitude") ;;
           trigger_alert now "GEOFENCE_BREACH" (LeftSafeArea d) la' lo' ;;;
           ret false
         else ret true)
        (fun _ => ret true)
        self.

(** *** [tracking_loop] *)

(** The tracker with the two local counters of [tracking_loop]. *)
Record loop_state : Type := LoopState {
  self : tracker;
  update_count : Z;
  consecutive_failures : Z
}.

(** Run a method of the tracker inside the loop. *)
Definition on_self {A : Type} (m : py tracker A) : py loop_state A :=
  fun st =>
    let '(r, t) := m (self st) in
    (r, LoopState t (update_count st) (consecutive_failures st)).

Definition set_update_count (n : Z) (st : loop_state) : loop_state :=
  LoopState (self st) n (consecutive_failures st).

Definition set_consecutive_failures (n : Z) (st : loop_state) : loop_state :=
  LoopState (self st) (update_count st) n.

(** The prints of the fix: the coordinates, then altitude and speed when
    truthy, each with a fixed-point format; the satellites print cannot
    raise; the fix quality is compared with 1. *)
Definition display (location : dict) : py_result unit :=
  la <- getitem location "latitude" ;;
  _ <- format_f la ;;
  lo <- getitem location "longitude" ;;
  _ <- format_f lo ;;
  _ <- (if truthy (get location "altitude")
        then (v <- getitem location "altitude" ;; format_f v) else Return tt) ;;
  _ <- (if truthy (get location "speed")
        then (v <- getitem location "speed" ;; format_f v) else Return tt) ;;
  _ <- (if truthy (get location "fix_quality")
        then (v <- getitem location "fix_quality" ;; _ <- ge_one v ;; Return tt)
        else Return tt) ;;
  Return tt.

(** [self.current_location[k] if self.current_location else 0] *)
Definition last_known (t : tracker) (k : string) : py_result pyval :=
  match current_location t with
  | Some d => if dict_truthy d then getitem d k else Return (PyInt 0)
  | None => Return (PyInt 0)
  end.

(** The body of the [while] loop, inside its [try]. *)
Definition cycle_body (nmea : Pynmea2.lib) (now : Z) (input : gps_input)
  : py loop_state unit :=
  modify (fun st => set_update_count (update_count st + 1) st) ;;;
  location <~ on_self (get_gps_location nmea now input) ;;
  match location with
  | Some d =>
      modify (set_consecutive_failures 0) ;;;
      lift (display d) ;;;
      on_self (store_location d) ;;;
      enabled <~ gets (fun st => geofence_enabled (self st)) ;;
      if enabled then
        geofence_status <~ on_self (check_geofence now d) ;;
        if geofence_status then
          (* the distance is computed again and printed *)
          _ <~ lift (getitem d "latitude") ;;
          _ <~ lift (getitem d "longitude") ;;
          ret tt
        else ret tt
      else ret tt
  | None =>
      modify (fun st => set_consecutive_failures (consecutive_failures st + 1) st) ;;;
      n <~ gets consecutive_failures ;;
      if (6 <=? n)%Z then
        interval <~ gets (fun st => update_interval (self st)) ;;
        la <~ (fun st => (last_known (self st) "latitude", st)) ;;
        lo <~ (fun st => (last_known (self st) "longitude", st)) ;;
        on_self (trigger_alert now "GPS_LOST" (GpsLost (n * interval)) la lo)
      else ret tt
  end.

(** One iteration: [except Exception] logs and the loop goes on. *)
Definition cycle (nmea : Pynmea2.lib) (now : Z) (input : gps_input)
    (st : loop_state) : loop_state :=
  snd (catch (cycle_body nmea now input) (fun _ => ret tt) st).

(** The loop over the polls that happen while [is_tracking] holds; each
    poll comes with its clock reading. *)
Definition tracking_loop (nmea : Pynmea2.lib) (polls : list (Z * gps_input))
    (st : loop_state) : loop_state :=
  fold_left (fun st p => cycle nmea (fst p) (snd p) st) polls st.

(** [tracking_loop] starts with both counters at 0. *)
Definition start (t : tracker) : loop_state := LoopState t 0 0.

End New.

(** ** [patient_tracker.py] (and [patient_tracker_fixed.py], whose
    [check_geofence] has the same body) *)

Module Old.
Import Db.

(** [config['geofence']], as loaded from [config.json]. *)
Record geofence : Type := Geofence {
  enabled : bool;
  latitude : pyval;
  longitude : pyval;
  radius : pyval
}.

Record tracker : Type := Tracker {
  patient_id : string;
  emergency_numbers : list string;
  config_geofence : geofence;
  alerts : list alert;
  sms_attempts : list (string * alert_message)
}.

(** The default configuration [load_config] writes, on an empty table. *)
Definition default : tracker :=
  Tracker "PATIENT001" ["+918848776875"; "+9175929912412"]
          (Geofence true (PyFloat (407128 / 10000)) (PyFloat (- (740060 / 10000))) (PyInt 100))
          [] [].

(** [parse_gps_data]: no line is stripped or skipped on error; any
    exception ends the scan and the result is [None]. *)
Definition gga_location (nmea : Pynmea2.lib) (now : Z) (line : string) : py_result dict :=
  msg <- nmea line ;;
  la <- msg "latitude" ;;
  lo <- msg "longitude" ;;
  altitude <- msg "altitude" ;;
  gps_qual <- msg "gps_qual" ;;
  num_sats <- msg "num_sats" ;;
  Return (<["latitude" := la]> (<["longitude" := lo]> (<["altitude" := altitude]>
         (<["timestamp" := PyDatetime now]> (<["fix_quality" := gps_qual]>
         (<["satellites" := num_sats]> ∅)))))).

Definition rmc_location (nmea : Pynmea2.lib) (now : Z) (line : string) : py_result dict :=
  msg <- nmea line ;;
  la <- msg "latitude" ;;
  lo <- msg "longitude" ;;
  speed <- msg "spd_over_grnd" ;;
  is_valid <- msg "is_valid" ;;
  Return (<["latitude" := la]> (<["longitude" := lo]> (<["speed" := speed]>
         (<["timestamp" := PyDatetime now]> (<["fix_valid" := is_valid]> ∅))))).

(** One line of the [for] loop: [Some] is the [return] of a dict. *)
Definition decode_line (nmea : Pynmea2.lib) (now : Z) (line : string) : py_result (option dict) :=
  if Str.startswith line "$GPGGA" then (d <- gga_location nmea now line ;; Return (Some d))
  else if Str.startswith line "$GPRMC" then (d <- rmc_location nmea now line ;; Return (Some d))
  else Return None.

Fixpoint parse_lines (nmea : Pynmea2.lib) (now : Z) (lines : list string) : py_result (option dict) :=
  match lines with
  | [] => Return None
  | line :: rest =>
      r <- decode_line nmea now line ;;
      match r with
      | Some d => Return (Some d)
      | None => parse_lines nmea now rest
      end
  end.

Definition parse_gps_data (nmea : Pynmea2.lib) (now : Z) (gps_data : string)
  : py_result (option dict) :=
  try_except (parse_lines nmea now (Str.split "010" gps_data)) (fun _ => Return None).

(** [trigger_alert]: the row is inserted, then one SMS goes to each
    emergency number ([send_sms_alert] handles its own errors). *)
Definition trigger_alert (now : Z) (ty : string) (msg : alert_message)
    (la lo : pyval) : py tracker unit :=
  modify (fun self =>
    Tracker (patient_id self) (emergency_numbers self) (config_geofence self)
            (alerts self ++
               [Alert (next_rowid (alerts self)) (patient_id self) ty msg la lo now false false])
            (sms_attempts self ++ map (fun n => (n, msg)) (emergency_numbers self))).

(** The [try] block of [check_geofence]: the haversine distance in
    meters ([c * r * 1000] with [r = 6371]) against the configured radius. *)
Definition distance_to_center (location : dict) (g : geofence) : py_result R :=
  la <- getitem location "latitude" ;;
  lat1 <- radians la ;;
  lo <- getitem location "longitude" ;;
  lon1 <- radians lo ;;
  lat2 <- radians (latitude g) ;;
  lon2 <- radians (longitude g) ;;
  let dlat := (lat2 - lat1)%R in
  let dlon := (lon2 - lon1)%R in
  let a := (sin (dlat / 2) ^ 2 + cos lat1 * cos lat2 * sin (dlon / 2) ^ 2)%R in
  s <- math_sqrt a ;;
  as_ <- math_asin s ;;
  let c := (2 * as_)%R in
  let r := 6371%R in
  Return (c * r * 1000)%R.

Definition check_geofence_try (now : Z) (location : dict) : py tracker bool :=
  g <~ gets config_geofence ;;
  distance <~ lift (distance_to_center location g) ;;
  outside <~ lift (float_gt distance (radius g)) ;;
  if outside then
    la <~ lift (getitem location "latitude") ;;
    lo <~ lift (getitem location "longitude") ;;
    trigger_alert now "GEOFENCE_BREACH" (LeftSafeArea (Meters distance)) la lo ;;;
    ret false
  else ret true.

Definition check_geofence (now : Z) (location : dict) : py tracker bool :=
  fun self =>
    if negb (enabled (config_geofence self)) then (Return true, self)
    else catch (check_geofence_try now location) (fun _ => ret true) self.

End Old.

(** ** The specification's formulas *)

Module Spec.

(** The haversine great-circle distance in meters between two points
    given in degrees, with Earth radius 6 371 000 m:
    [2 R asin (sqrt (sin^2 (dphi / 2) + cos phi1 cos phi2 sin^2 (dlambda / 2)))]. *)
Definition earth_radius : R := 6371000%R.

Definition hav (phi1 lambda1 phi2 lambda2 : R) : R :=
  (sin ((phi2 - phi1) / 2) ^ 2
   + cos phi1 * cos phi2 * sin ((lambda2 - lambda1) / 2) ^ 2)%R.

Definition distanceMeters (fixLat fixLon centerLat centerLon : R) : R :=
  (2 * earth_radius
   * asin (sqrt (hav (radians_of fixLat) (radians_of fixLon)
                     (radians_of centerLat) (radians_of centerLon))))%R.


End Spec.

(** ** Scenarios: inputs and runs the properties are stated on *)

Module Scenario.
Import Db.

(** A location dict with numeric coordinates [x], [y] (degrees). *)
Definition located (location : dict) (x y : R) : Prop :=
  exists la lo,
    location !! "latitude" = Some la /\ location !! "longitude" = Some lo
    /\ as_real la = Return x /\ as_real lo = Return y.

(** The smallest such dict. *)
Definition fix_at (x y : R) : dict :=
  <["latitude" := PyFloat x]> (<["longitude" := PyFloat y]> ∅).

(** The latitude of the point [d] meters due south of latitude [centerLat]. *)
Definition south_of (centerLat d : R) : R :=
  (centerLat - d / Spec.earth_radius * (180 / PI))%R.

(** The geofence center of the default configuration. *)
Definition center_lat : R := (407128 / 10000)%R.
Definition center_lon : R := (- (740060 / 10000))%R.

Definition fix_center : dict := fix_at center_lat center_lon.
Definition fix_1000m_south : dict := fix_at (south_of center_lat 1000) center_lon.

(** A dict without the latitude key. *)
Definition fix_no_latitude : dict := <["longitude" := PyFloat center_lon]> ∅.

(** The default tracker with the geofence switched off. *)
Definition geofence_off (t : New.tracker) : New.tracker :=
  New.Tracker (New.patient_id t) (New.emergency_contacts t) (New.update_interval t)
    false (New.geofence_lat t) (New.geofence_lon t) (New.geofence_radius t)
    (New.gsm_serial t) (New.current_location t) (New.locations t) (New.alerts t)
    (New.system_status t) (New.sms_attempts t).

(** Whether at least one SMS of an alert is acknowledged. *)
Definition sms_acknowledged (t : New.tracker) : bool :=
  match New.gsm_serial t with
  | Some m => (0 <? New.sms_sent_count m (New.emergency_contacts t))%nat
  | None => false
  end.

(** The tracker after an alert has gone through: one row more in
    [alerts], one in [system_status], the SMS attempts recorded. *)
Definition after_alert (now : Z) (ty : string) (msg : alert_message) (la lo : pyval)
    (t : New.tracker) : New.tracker :=
  New.Tracker (New.patient_id t) (New.emergency_contacts t) (New.update_interval t)
    (New.geofence_enabled t) (New.geofence_lat t) (New.geofence_lon t)
    (New.geofence_radius t) (New.gsm_serial t) (New.current_location t)
    (New.locations t)
    (New.alerts t ++
       [Alert (next_rowid (New.alerts t)) (New.patient_id t) ty msg la lo now
              (sms_acknowledged t) false])
    (New.system_status t ++ [StatusRow "ALERT" ty msg now])
    (New.sms_attempts t ++
       match New.gsm_serial t with
       | Some _ => map (fun n => (n, msg)) (New.emergency_contacts t)
       | None => []
       end).



(** The tracker after [store_location]. *)
Definition after_store (location : dict) (t : New.tracker) : New.tracker :=
  New.set_locations
    (New.locations t ++
       [LocationRow (New.patient_id t) (get location "latitude") (get location "longitude")
          (get location "altitude") (get location "speed") (get location "timestamp")
          (get location "satellites") (get location "hdop")]) t.

(** A poll of the tracking loop that decodes to a fix: the port has
    text, the text decodes to a dict with numeric coordinates [x], [y],
    and the prints of the fix go through. *)
Definition poll_decodes (nmea : Pynmea2.lib) (p : Z * New.gps_input)
    (d : dict) (x y : R) : Prop :=
  exists raw_data,
    snd p = New.Bytes raw_data
    /\ New.parse_gps_data nmea (fst p) raw_data = Return (Some d)
    /\ New.display d = Return tt
    /\ located d x y.


(** A poll of the tracking loop whose fix lies within the fence of [t]. *)
Definition within_poll (nmea : Pynmea2.lib) (t : New.tracker)
    (p : Z * New.gps_input) : Prop :=
  exists d x y,
    poll_decodes nmea p d x y
    /\ (Spec.distanceMeters x y (New.geofence_lat t) (New.geofence_lon t)
        <= New.geofence_radius t)%R.

(** The sentence parser reports coordinates as numbers (as [pynmea2]
    does: [latitude] and [longitude] are floats when they do not raise). *)
Definition numeric_coordinates (nmea : Pynmea2.lib) : Prop :=
  forall line msg v,
    nmea line = Return msg ->
    msg "latitude" = Return v \/ msg "longitude" = Return v ->
    exists x, as_real v = Return x.

(** The last known location is absent or has numeric coordinates. *)
Definition current_location_ok (t : New.tracker) : Prop :=
  match New.current_location t with
  | Some d => dict_truthy d = true -> exists x y, located d x y
  | None => True
  end.

(** A poll in which decoding yields no fix. *)
Definition no_fix (nmea : Pynmea2.lib) (poll : Z * New.gps_input) : Prop :=
  match snd poll with
  | New.Bytes raw_data => New.parse_gps_data nmea (fst poll) raw_data = Return None
  | _ => True
  end.

(** A line of the batch decodes: it reaches the inner [try] of
    [parse_gps_data] and a dict is returned there. *)
Definition decodes (nmea : Pynmea2.lib) (now : Z) (raw_line : string) (d : dict) : Prop :=
  let line := Str.strip raw_line in
  Str.nonempty line = true /\ Str.startswith line "$" = true
  /\ New.decode_line nmea now line = Return (Some d).

(** A line [parse_gps_data] passes over: blank, not a sentence, of
    another sentence type, or one on which [pynmea2] raises [ParseError]. *)
Definition passed_over (nmea : Pynmea2.lib) (now : Z) (raw_line : string) : Prop :=
  let line := Str.strip raw_line in
  Str.nonempty line = false \/ Str.startswith line "$" = false
  \/ New.decode_line nmea now line = Return None
  \/ New.decode_line nmea now line = Raise ParseError.

(** *** Sentences and what [pynmea2] makes of them *)

Definition sample_gga : string :=
  "$GPGGA,123519,4807.038,N,01131.000,E,1,08,0.9,545.4,M,46.9,M,,*47".
Definition sample_rmc : string :=
  "$GPRMC,123519,A,4807.038,N,01131.000,E,022.4,084.4,230394,003.1,W*6A".
(** The position-fix sentence with a wrong checksum. *)
Definition corrupt_gga : string :=
  "$GPGGA,123519,4807.038,N,01131.000,E,1,08,0.9,545.4,M,46.9,M,,*48".
(** A sentence with a valid checksum and a malformed latitude field. *)
Definition badfield_gga : string :=
  "$GPGGA,123519,48x7.038,N,01131.000,E,1,08,0.9,545.4,M,46.9,M,,*0F".

Definition sample_gga_msg : Pynmea2.message := fun attr =>
  if String.eqb attr "latitude" then Return (PyFloat (48 + 7038 / 1000 / 60))
  else if String.eqb attr "longitude" then Return (PyFloat (11 + 31 / 60))
  else if String.eqb attr "altitude" then Return (PyFloat (5454 / 10))
  else if String.eqb attr "num_sats" then Return (PyStr "08")
  else if String.eqb attr "gps_qual" then Return (PyInt 1)
  else Raise AttributeError.

Definition sample_rmc_msg : Pynmea2.message := fun attr =>
  if String.eqb attr "latitude" then Return (PyFloat (48 + 7038 / 1000 / 60))
  else if String.eqb attr "longitude" then Return (PyFloat (11 + 31 / 60))
  else if String.eqb attr "spd_over_grnd" then Return (PyFloat (224 / 10))
  else if String.eqb attr "is_valid" then Return (PyBool true)
  else Raise AttributeError.

Definition badfield_gga_msg : Pynmea2.message := fun attr =>
  if String.eqb attr "latitude" then Raise ValueError
  else sample_gga_msg attr.

(** A finite stand-in for [pynmea2.parse]: what the library answers on
    the sentences above, [ParseError] on the wrong checksum; on every other
    text it answers [ParseError] as well (no other sentence is parsed in
    the statements below). *)
Definition sample_nmea : Pynmea2.lib := fun line =>
  if String.eqb line sample_gga then Return sample_gga_msg
  else if String.eqb line sample_rmc then Return sample_rmc_msg
  else if String.eqb line badfield_gga then Return badfield_gga_msg
  else Raise ParseError.

Definition newline : string := String "010" EmptyString.

End Scenario.
Import Scenario.

(** ** [patient_tracker.py]: the polling loop *)

Module OldLoop.
Import Db.

(** A row of [locations] as [patient_tracker.py] creates the table
    (no [satellites] column). *)
Record location_row : Type := LocationRow {
  loc_patient_id : string;
  loc_latitude : pyval;
  loc_longitude : pyval;
  loc_altitude : pyval;
  loc_speed : pyval;
  loc_timestamp : pyval;
  loc_accuracy : pyval
}.

(** The tracker with what the loop writes besides the alerts:
    [self.current_location] and the [locations] table. *)
Record state : Type := State {
  self : Old.tracker;
  current_location : option dict;
  locations : list location_row
}.

(** [d.get(k, default)] *)
Definition get_default (d : dict) (k : string) (default : pyval) : pyval :=
  match d !! k with
  | Some v => v
  | None => default
  end.

(** Run a method of the tracker on the state. *)
Definition on_self {A : Type} (m : py Old.tracker A) : py state A :=
  fun st =>
    let '(r, t) := m (self st) in
    (r, State t (current_location st) (locations st)).

(** [get_gps_location]: a failing read or decode of the bytes is caught. *)
Definition get_gps_location (nmea : Pynmea2.lib) (now : Z) (input : New.gps_input)
  : py state (option dict) :=
  catch
    (match input with
     | New.Bytes gps_data =>
         location <~ lift (Old.parse_gps_data nmea now gps_data) ;;
         match location with
         | Some d =>
             if dict_truthy d
             then (modify (fun st => State (self st) (Some d) (locations st)) ;;;
                   ret (Some d))
             else ret None
         | None => ret None
         end
     | New.NoBytes => ret None
     | New.ReadError => throw OtherError
     end)
    (fun _ => ret None).

(** [store_location]: one [INSERT INTO locations]; the accuracy is
    [location.get('accuracy', 10.0)]. *)
Definition store_location (location : dict) : py state unit :=
  modify (fun st =>
    State (self st) (current_location st)
      (locations st ++
         [LocationRow (Old.patient_id (self st)) (get location "latitude")
            (get location "longitude") (get location "altitude") (get location "speed")
            (get location "timestamp") (get_default location "accuracy" (PyFloat 10))])).

(** The body of the [while] loop.  [upload_to_server] posts the fix and
    handles its own errors: it changes nothing here.  The last statement
    logs the coordinates with a fixed-point format. *)
Definition cycle_body (nmea : Pynmea2.lib) (now : Z) (input : New.gps_input)
  : py state unit :=
  location <~ get_gps_location nmea now input ;;
  match location with
  | Some d =>
      store_location d ;;;
      _ <~ on_self (Old.check_geofence now d) ;;
      la <~ lift (getitem d "latitude") ;;
      _ <~ lift (format_f la) ;;
      lo <~ lift (getitem d "longitude") ;;
      _ <~ lift (format_f lo) ;;
      ret tt
  | None => ret tt
  end.

(** One iteration: [except Exception] logs and the loop goes on. *)
Definition cycle (nmea : Pynmea2.lib) (now : Z) (input : New.gps_input)
    (st : state) : state :=
  snd (catch (cycle_body nmea now input) (fun _ => ret tt) st).

Definition tracking_loop (nmea : Pynmea2.lib) (polls : list (Z * New.gps_input))
    (st : state) : state :=
  fold_left (fun st p => cycle nmea (fst p) (snd p) st) polls st.

End OldLoop.

(** ** [web_dashboard.py]: distance and geofence status *)

Module DashboardApi.
Import Db.

(** [math.atan2(y, x)] *)
Definition math_atan2 (y x : R) : R :=
  if Rlt_dec 0 x then atan (y / x)
  else if Rlt_dec x 0 then
    (if Rle_dec 0 y then atan (y / x) + PI else atan (y / x) - PI)%R
  else if Rlt_dec 0 y then (PI / 2)%R
  else if Rlt_dec y 0 then (- (PI / 2))%R
  else 0%R.

(** [b - a] on two values: numbers only. *)
Definition sub (b a : pyval) : py_result R :=
  x <- as_real b ;;
  y <- as_real a ;;
  Return (x - y)%R.

(** [calculate_distance]: the haversine formula with [atan2]; nothing is
    caught here. *)
Definition calculate_distance (lat1 lon1 lat2 lon2 : pyval) : py_result R :=
  let R_ := 6371000%R in
  lat1_rad <- radians lat1 ;;
  lat2_rad <- radians lat2 ;;
  dlat <- sub lat2 lat1 ;;
  let delta_lat := radians_of dlat in
  dlon <- sub lon2 lon1 ;;
  let delta_lon := radians_of dlon in
  let a := (sin (delta_lat / 2) ^ 2
            + cos lat1_rad * cos lat2_rad * sin (delta_lon / 2) ^ 2)%R in
  s <- math_sqrt a ;;
  s' <- math_sqrt (1 - a) ;;
  let c := (2 * math_atan2 s s')%R in
  Return (R_ * c)%R.

(** [x <= v] for a float [x]: [TypeError] when [v] is not a number. *)
Definition float_le (x : R) (v : pyval) : py_result bool :=
  r <- as_real v ;;
  Return (if Rle_dec x r then true else false).

(** The JSON answers of [/api/geofence_status]. *)
Inductive geofence_status : Type :=
| StatusDisabled                  (* {'enabled': False} *)
| StatusUnknown                   (* {'enabled': True, 'status': 'unknown'} *)
| StatusKnown (within : bool) (distance : R) (radius center_lat center_lon : pyval).

(** [get_geofence_status], on the geofence of [config.json] and the row
    its query for the latest location returns ([None] on an empty table). *)
Definition get_geofence_status (g : Old.geofence) (location : option OldLoop.location_row)
  : py_result geofence_status :=
  if negb (Old.enabled g) then Return StatusDisabled
  else
    match location with
    | None => Return StatusUnknown
    | Some row =>
        distance <- calculate_distance (OldLoop.loc_latitude row) (OldLoop.loc_longitude row)
                      (Old.latitude g) (Old.longitude g) ;;
        within_geofence <- float_le distance (Old.radius g) ;;
        Return (StatusKnown within_geofence distance (Old.radius g)
                            (Old.latitude g) (Old.longitude g))
    end.


End DashboardApi.

(** ** Effects of one step, as the properties below state them *)

Module Behaviour.
Import Db.

(** Whether [f"{v:.6f}"] goes through. *)
Definition formattable (v : pyval) : bool :=
  match format_f v with
  | Return _ => true
  | Raise _ => false
  end.

(** The configuration attributes of the tracker are the same. *)
Definition same_config (t t' : New.tracker) : Prop :=
  New.patient_id t' = New.patient_id t
  /\ New.emergency_contacts t' = New.emergency_contacts t
  /\ New.update_interval t' = New.update_interval t
  /\ New.geofence_enabled t' = New.geofence_enabled t
  /\ New.geofence_lat t' = New.geofence_lat t
  /\ New.geofence_lon t' = New.geofence_lon t
  /\ New.geofence_radius t' = New.geofence_radius t
  /\ New.gsm_serial t' = New.gsm_serial t.

(** The alert table after a step: as before, or with one new unresolved
    row at the end, with a fresh id, stamped [now], of one of the two types
    (a breach only with the geofence enabled). *)
Definition alerts_step (now : Z) (t t' : New.tracker) : Prop :=
  New.alerts t' = New.alerts t
  \/ exists a,
       New.alerts t' = New.alerts t ++ [a]
       /\ rowid a = next_rowid (New.alerts t)
       /\ resolved a = false
       /\ timestamp a = now
       /\ (alert_type a = "GPS_LOST"%string
           \/ (alert_type a = "GEOFENCE_BREACH"%string /\ New.geofence_enabled t = true)).

(** The location table after a step: as before, or with one new row. *)
Definition locations_step (t t' : New.tracker) : Prop :=
  New.locations t' = New.locations t
  \/ exists row, New.locations t' = New.locations t ++ [row].

(** What one iteration of the loop may do to the tracker. *)
Definition cycle_step (now : Z) (t t' : New.tracker) : Prop :=
  same_config t t' /\ alerts_step now t t' /\ locations_step t t'.

(** A position-fix sentence whose altitude field does not convert: the
    sentence parser hands the field back as text. *)
Definition bad_altitude_gga : string :=
  "$GPGGA,123519,4807.038,N,01131.000,E,1,08,0.9,54x.4,M,46.9,M,,".

Definition bad_altitude_msg : Pynmea2.message := fun attr =>
  if String.eqb attr "altitude" then Return (PyStr "54x.4")
  else sample_gga_msg attr.

Definition bad_altitude_nmea : Pynmea2.lib := fun line =>
  if String.eqb line bad_altitude_gga then Return bad_altitude_msg
  else sample_nmea line.

(** What the loop of [patient_tracker.py] may have done between two
    states: the configuration is the same; the alerts table has grown by
    breach alerts only, each with one SMS attempt per emergency number, in
    the order of the numbers; the locations table has grown by rows with
    the default accuracy that lack the altitude or the speed, at least one
    row per alert. *)
Definition old_breach_alert (a : alert) : Prop :=
  alert_type a = "GEOFENCE_BREACH"%string /\ sms_sent a = false /\ resolved a = false
  /\ exists dist, message a = LeftSafeArea (Meters dist).

Definition old_stored_row (t : Old.tracker) (row : OldLoop.location_row) : Prop :=
  OldLoop.loc_patient_id row = Old.patient_id t
  /\ OldLoop.loc_accuracy row = PyFloat 10
  /\ (OldLoop.loc_altitude row = PyNone \/ OldLoop.loc_speed row = PyNone).

Definition old_grows (st st' : OldLoop.state) : Prop :=
  let t := OldLoop.self st in
  let t' := OldLoop.self st' in
  Old.patient_id t' = Old.patient_id t
  /\ Old.emergency_numbers t' = Old.emergency_numbers t
  /\ Old.config_geofence t' = Old.config_geofence t
  /\ exists added rows,
       Old.alerts t' = Old.alerts t ++ added
       /\ Forall old_breach_alert added
       /\ Old.sms_attempts t'
          = Old.sms_attempts t
            ++ flat_map (fun a => map (fun n => (n, message a)) (Old.emergency_numbers t))
                 added
       /\ (Old.enabled (Old.config_geofence t) = false -> added = [])
       /\ OldLoop.locations st' = OldLoop.locations st ++ rows
       /\ Forall (old_stored_row t) rows
       /\ (length added <= length rows)%nat.

(** The test [parse_nmea] of [tracker.py] makes on a line before it
    converts anything: a [$GPGGA] sentence of more than five fields with a
    latitude and a longitude field that are not empty. *)
Definition has_position (line : string) : bool :=
  let parts := Str.split "," line in
  Str.startswith line "$GPGGA"
  && ((5 <? length parts)%nat && Str.nonempty (Tracker.part parts 2)
      && Str.nonempty (Tracker.part parts 4)).

(** A position-fix sentence sent before the receiver has a position. *)
Definition searching_gga : string := "$GPGGA,123519,,,,,0,00,,,M,,M,,*6B".

(** The ids of a table increase strictly from row to row. *)
Fixpoint increasing (ids : list Z) : Prop :=
  match ids with
  | [] => True
  | i :: rest => Forall (fun j => (i < j)%Z) rest /\ increasing rest
  end.

End Behaviour.
Import Behaviour.

(** * Properties *)

(** ** The haversine term stays in the domain of [sqrt] and [asin] *)

Section Haversine.
Local Open Scope R_scope.

Lemma sin_half_sq (x : R) : sin (x / 2) ^ 2 = (1 - cos x) / 2.
Proof.
  replace (cos x) with (cos (2 * (x / 2))) by (f_equal; field).
  rewrite cos_2a_sin. field.
Qed.

Lemma hav_bounds (p1 l1 p2 l2 : R) : 0 <= Spec.hav p1 l1 p2 l2 <= 1.
Proof.
  unfold Spec.hav. rewrite !sin_half_sq, cos_minus.
  pose proof (sin2_cos2 p1) as H1. pose proof (sin2_cos2 p2) as H2.
  pose proof (COS_bound (l2 - l1)) as [Hl Hu].
  unfold Rsqr in H1, H2.
  set (s1 := sin p1) in *. set (c1 := cos p1) in *.
  set (s2 := sin p2) in *. set (c2 := cos p2) in *.
  set (cl := cos (l2 - l1)) in *.
  assert (Hsq : 0 <= c2 * c2 * (1 - cl * cl)).
  { apply Rmult_le_pos; nra. }
  pose proof (pow2_ge_0 (s1 - s2)). pose proof (pow2_ge_0 (c1 - c2 * cl)).
  pose proof (pow2_ge_0 (s1 + s2)). pose proof (pow2_ge_0 (c1 + c2 * cl)).
  assert (Em : (s1 - s2) ^ 2 + (c1 - c2 * cl) ^ 2 + c2 * c2 * (1 - cl * cl)
               = (s1 * s1 + c1 * c1) + (s2 * s2 + c2 * c2)
                 - 2 * (s1 * s2 + c1 * c2 * cl)) by ring.
  assert (Ep : (s1 + s2) ^ 2 + (c1 + c2 * cl) ^ 2 + c2 * c2 * (1 - cl * cl)
               = (s1 * s1 + c1 * c1) + (s2 * s2 + c2 * c2)
                 + 2 * (s1 * s2 + c1 * c2 * cl)) by ring.
  rewrite H1, H2 in Em, Ep.
  split; lra.
Qed.

Lemma math_sqrt_hav (p1 l1 p2 l2 : R) :
  math_sqrt (Spec.hav p1 l1 p2 l2) = Return (sqrt (Spec.hav p1 l1 p2 l2)).
Proof.
  unfold math_sqrt. destruct (Rlt_dec _ 0) as [H|H]; [|reflexivity].
  pose proof (hav_bounds p1 l1 p2 l2). lra.
Qed.

Lemma math_asin_sqrt_hav (p1 l1 p2 l2 : R) :
  math_asin (sqrt (Spec.hav p1 l1 p2 l2)) = Return (asin (sqrt (Spec.hav p1 l1 p2 l2))).
Proof.
  pose proof (hav_bounds p1 l1 p2 l2) as [H0 H1].
  pose proof (sqrt_pos (Spec.hav p1 l1 p2 l2)) as Hp.
  assert (Hle : sqrt (Spec.hav p1 l1 p2 l2) <= 1).
  { rewrite <- sqrt_1. apply sqrt_le_1_alt. exact H1. }
  unfold math_asin.
  destruct (Rlt_dec _ (-1)) as [H|H]; [lra|].
  destruct (Rlt_dec 1 _) as [H'|H']; [lra|reflexivity].
Qed.

Lemma central_angle_eq (p1 l1 p2 l2 : R) :
  New.central_angle p1 l1 p2 l2 = Return (2 * asin (sqrt (Spec.hav p1 l1 p2 l2))).
Proof.
  unfold New.central_angle.
  change (sin ((p2 - p1) / 2) ^ 2 + cos p1 * cos p2 * sin ((l2 - l1) / 2) ^ 2)
    with (Spec.hav p1 l1 p2 l2).
  rewrite math_sqrt_hav. simpl. rewrite math_asin_sqrt_hav. reflexivity.
Qed.

End Haversine.

(** ** Distances of concrete points *)

Section Distances.
Local Open Scope R_scope.

(** The point [d] meters due south of a center is [d] meters away,
    up to half the circumference. *)
Lemma distance_south_of (centerLat centerLon d : R) :
  0 <= d <= Spec.earth_radius * PI ->
  Spec.distanceMeters (south_of centerLat d) centerLon centerLat centerLon = d.
Proof.
  intros [Hd0 Hd1].
  assert (HR : Spec.earth_radius = 6371000) by reflexivity.
  assert (Hpi : 0 < PI) by apply PI_RGT_0.
  unfold Spec.distanceMeters, Spec.hav.
  replace ((radians_of centerLon - radians_of centerLon) / 2) with 0 by field.
  replace ((radians_of centerLat - radians_of (south_of centerLat d)) / 2)
    with (d / (2 * Spec.earth_radius)).
  2:{ unfold radians_of, south_of. rewrite HR. field. lra. }
  rewrite sin_0.
  replace (sin (d / (2 * Spec.earth_radius)) ^ 2
           + cos (radians_of (south_of centerLat d)) * cos (radians_of centerLat) * 0 ^ 2)
    with (sin (d / (2 * Spec.earth_radius)) ^ 2) by ring.
  assert (Hx0 : 0 <= d / (2 * Spec.earth_radius)).
  { rewrite HR. apply Rmult_le_pos; [lra|]. left. apply Rinv_0_lt_compat. lra. }
  assert (Hx1 : d / (2 * Spec.earth_radius) <= PI / 2).
  { rewrite HR in *. apply Rmult_le_reg_r with (2 * 6371000); [lra|].
    replace (d / (2 * 6371000) * (2 * 6371000)) with d by (field).
    lra. }
  rewrite sqrt_pow2.
  2:{ apply sin_ge_0; lra. }
  rewrite asin_sin by lra.
  rewrite HR. field.
Qed.

Lemma distance_center (centerLat centerLon : R) :
  Spec.distanceMeters centerLat centerLon centerLat centerLon = 0.
Proof.
  pose proof (distance_south_of centerLat centerLon 0) as H.
  replace (south_of centerLat 0) with centerLat in H.
  - apply H. unfold Spec.earth_radius. pose proof PI_RGT_0. nra.
  - unfold south_of. unfold Rdiv. ring.
Qed.

Lemma distance_1000m_south :
  Spec.distanceMeters (south_of center_lat 1000) center_lon center_lat center_lon = 1000.
Proof.
  apply distance_south_of. unfold Spec.earth_radius. pose proof PI2_1. lra.
Qed.

End Distances.

(** ** [trigger_alert] and [check_geofence] of [patient_tracker_new.py] *)

Section NewGeofence.
Import Db.

Lemma rowid_le_max (rows : list alert) (a : alert) :
  In a rows -> (rowid a <= fold_right Z.max 0 (map rowid rows))%Z.
Proof.
  induction rows as [|b rows IH]; simpl; [tauto|].
  intros [->|H]; [lia|]. specialize (IH H). lia.
Qed.

Lemma update_sms_sent_fresh (rows : list alert) (b : bool) :
  update_sms_sent (next_rowid rows) b rows = rows.
Proof.
  unfold update_sms_sent.
  rewrite <- (map_id rows) at 2. apply map_ext_in. intros a Ha.
  apply rowid_le_max in Ha. unfold next_rowid.
  destruct (Z.eqb_spec (rowid a) (1 + fold_right Z.max 0 (map rowid rows))%Z); [lia|reflexivity].
Qed.

Lemma update_sms_sent_last (rows : list alert) (b : bool) pid ty msg la lo now :
  update_sms_sent (next_rowid rows) b
    (rows ++ [Alert (next_rowid rows) pid ty msg la lo now false false])
  = rows ++ [Alert (next_rowid rows) pid ty msg la lo now b false].
Proof.
  unfold update_sms_sent at 1. rewrite map_app.
  fold (update_sms_sent (next_rowid rows) b rows). rewrite update_sms_sent_fresh.
  simpl. rewrite Z.eqb_refl. reflexivity.
Qed.

Lemma format_f_number (v : pyval) (x : R) : as_real v = Return x -> format_f v = Return tt.
Proof. destruct v; simpl; intros H; try discriminate; reflexivity. Qed.

(** An alert with numeric coordinates goes through. *)
Lemma trigger_alert_numbers now ty msg la lo x y (t : New.tracker) :
  as_real la = Return x -> as_real lo = Return y ->
  New.trigger_alert now ty msg la lo t = (Return tt, after_alert now ty msg la lo t).
Proof.
  intros Hla Hlo.
  unfold New.trigger_alert, catch, sbind, lift, gets, modify, ret, New.log_system_status.
  rewrite (format_f_number _ _ Hla), (format_f_number _ _ Hlo).
  unfold after_alert, sms_acknowledged.
  destruct t as [pid contacts interval en glat glon grad gsm cur locs als sys sms].
  simpl. destruct gsm as [m|]; simpl.
  - rewrite update_sms_sent_last. reflexivity.
  - rewrite update_sms_sent_last, app_nil_r. reflexivity.
Qed.

(** On numeric coordinates [calculate_distance] is the haversine distance. *)
Lemma calculate_distance_numbers la lo x y cx cy :
  as_real la = Return x -> as_real lo = Return y ->
  New.calculate_distance la lo (PyFloat cx) (PyFloat cy)
  = Meters (Spec.distanceMeters x y cx cy).
Proof.
  intros Hla Hlo. unfold New.calculate_distance, radians.
  rewrite Hla, Hlo. simpl. rewrite central_angle_eq. simpl.
  f_equal. unfold Spec.distanceMeters, Spec.earth_radius. ring.
Qed.

(** A fix beyond the radius: the check reports it and one alert goes through. *)
Lemma check_geofence_outside now location x y (t : New.tracker) :
  New.geofence_enabled t = true ->
  located location x y ->
  (Spec.distanceMeters x y (New.geofence_lat t) (New.geofence_lon t) > New.geofence_radius t)%R ->
  exists la lo,
    location !! "latitude" = Some la /\ location !! "longitude" = Some lo /\
    New.check_geofence now location t
    = (Return false,
       after_alert now "GEOFENCE_BREACH"
         (LeftSafeArea
            (Meters (Spec.distanceMeters x y (New.geofence_lat t) (New.geofence_lon t))))
         la lo t).
Proof.
  intros Hen (la & lo & Hla & Hlo & Hx & Hy) Hd.
  exists la, lo. split; [exact Hla|]. split; [exact Hlo|].
  unfold New.check_geofence. rewrite Hen. simpl.
  unfold catch, sbind, lift, getitem. rewrite Hla, Hlo.
  rewrite (calculate_distance_numbers _ _ _ _ _ _ Hx Hy).
  unfold New.exceeds. destruct (Rgt_dec _ _) as [_|Hn]; [|contradiction].
  rewrite (trigger_alert_numbers _ _ _ _ _ _ _ _ Hx Hy). reflexivity.
Qed.

(** A fix within the radius: the check returns [True] and changes nothing. *)
Lemma check_geofence_within now location x y (t : New.tracker) :
  New.geofence_enabled t = true ->
  located location x y ->
  (Spec.distanceMeters x y (New.geofence_lat t) (New.geofence_lon t) <= New.geofence_radius t)%R ->
  New.check_geofence now location t = (Return true, t).
Proof.
  intros Hen (la & lo & Hla & Hlo & Hx & Hy) Hd.
  unfold New.check_geofence. rewrite Hen. simpl.
  unfold catch, sbind, lift, getitem. rewrite Hla, Hlo.
  rewrite (calculate_distance_numbers _ _ _ _ _ _ Hx Hy).
  unfold New.exceeds. destruct (Rgt_dec _ _) as [Hn|_]; [lra|reflexivity].
Qed.

Lemma located_fix_at (x y : R) : located (fix_at x y) x y.
Proof. exists (PyFloat x), (PyFloat y). repeat split; reflexivity. Qed.

End NewGeofence.

(** ** One poll of the tracking loop with a fix *)

Section Polls.
Import Db.

Lemma located_truthy (d : dict) x y : located d x y -> dict_truthy d = true.
Proof.
  intros (la & lo & Hla & _). unfold dict_truthy.
  destruct (Nat.eqb_spec (size d) 0) as [H|H]; [|reflexivity].
  apply map_size_empty_iff in H. subst d. rewrite lookup_empty in Hla. discriminate.
Qed.

Lemma get_gps_location_fix nmea now raw_data d x y (t : New.tracker) :
  New.parse_gps_data nmea now raw_data = Return (Some d) ->
  located d x y ->
  New.get_gps_location nmea now (New.Bytes raw_data) t
  = (Return (Some d), New.set_current_location (Some d) t).
Proof.
  intros Hparse Hloc. unfold New.get_gps_location, catch, sbind, lift.
  rewrite Hparse, (located_truthy _ _ _ Hloc). reflexivity.
Qed.


(** A poll with a fix within the fence: the fix is stored, nothing else. *)
Lemma cycle_within nmea now input (st : New.loop_state) :
  New.geofence_enabled (New.self st) = true ->
  within_poll nmea (New.self st) (now, input) ->
  exists d,
    New.cycle nmea now input st
    = New.LoopState (after_store d (New.set_current_location (Some d) (New.self st)))
                    (New.update_count st + 1) 0.
Proof.
  intros Hen (d & x & y & (raw & Hin & Hparse & Hdisp & Hloc) & Hd).
  simpl in Hin, Hparse. subst input.
  set (t1 := after_store d (New.set_current_location (Some d) (New.self st))).
  pose proof (check_geofence_within now d x y t1 Hen Hloc Hd) as Hrun.
  exists d.
  unfold New.cycle, catch, New.cycle_body.
  unfold sbind at 1. unfold modify at 1.
  unfold sbind at 1. unfold New.on_self at 1. simpl New.self.
  rewrite (get_gps_location_fix _ _ _ _ _ _ _ Hparse Hloc).
  unfold sbind at 1. unfold modify at 1.
  unfold sbind at 1. unfold lift at 1. rewrite Hdisp.
  unfold sbind at 1. unfold New.on_self at 1, New.store_location, modify at 1.
  cbn [New.self New.set_consecutive_failures New.update_count New.consecutive_failures
       New.set_update_count].
  change (New.set_locations _ _) with t1.
  unfold sbind at 1, gets at 1.
  cbn [New.self]. change (New.geofence_enabled t1) with (New.geofence_enabled (New.self st)).
  rewrite Hen.
  unfold sbind at 1. unfold New.on_self at 1. cbn [New.self].
  rewrite Hrun.
  destruct Hloc as (la & lo & Hla & Hlo & _).
  unfold sbind, lift, getitem. rewrite Hla, Hlo. reflexivity.
Qed.


End Polls.

(** ** C1: alerting on perimeter breaches *)

Section EdgeTriggering.
Import Db.





End EdgeTriggering.

(** ** C3: what happens to an alert when the condition clears *)

Section Clearing.
Import Db.

(** C3, as the code has it: there is no automatic resolution.  A poll
    whose fix is within the fence returns [True] and leaves the tracker,
    hence every alert record, unchanged, whether or not a breach alert is
    open (the iteration of [tracking_loop] only stores the fix); an alert is
    marked resolved only through [mark_alert_resolved], which sets the flag
    on the rows with the given id and leaves every other row as it is. *)
Theorem C3_no_automatic_resolution :
  (forall now location x y (t : New.tracker),
      New.geofence_enabled t = true ->
      located location x y ->
      (Spec.distanceMeters x y (New.geofence_lat t) (New.geofence_lon t)
       <= New.geofence_radius t)%R ->
      New.check_geofence now location t = (Return true, t))
  /\ (forall nmea now input (st : New.loop_state),
      New.geofence_enabled (New.self st) = true ->
      within_poll nmea (New.self st) (now, input) ->
      New.alerts (New.self (New.cycle nmea now input st)) = New.alerts (New.self st))
  /\ (forall (i : Z) (rows : list alert) (k : nat) (a : alert),
      nth_error rows k = Some a ->
      nth_error (Dashboard.mark_alert_resolved (Some i) rows) k
      = Some (if Z.eqb (rowid a) i then set_resolved true a else a))
  /\ (forall rows, Dashboard.mark_alert_resolved None rows = rows).
Proof.
  split; [|split; [|split]].
  - intros. eapply check_geofence_within; eassumption.
  - intros nmea now input st Hen Hp.
    destruct (cycle_within nmea now input st Hen Hp) as (d & ->). reflexivity.
  - intros i rows k a H. unfold Dashboard.mark_alert_resolved.
    apply (map_nth_error (fun a => if Z.eqb (rowid a) i then set_resolved true a else a)).
    exact H.
  - reflexivity.
Qed.

Lemma default_center_within gsm :
  (Spec.distanceMeters center_lat center_lon
     (New.geofence_lat (New.default gsm)) (New.geofence_lon (New.default gsm))
   <= New.geofence_radius (New.default gsm))%R.
Proof.
  change (New.geofence_lat (New.default gsm)) with center_lat.
  change (New.geofence_lon (New.default gsm)) with center_lon.
  rewrite distance_center. simpl. lra.
Qed.

Lemma C3_no_automatic_resolution_witness :
  New.check_geofence 2 fix_center (New.default None) = (Return true, New.default None)
  /\ nth_error
       (Dashboard.mark_alert_resolved (Some 1%Z)
          [Alert 1 "PATIENT001" "GEOFENCE_BREACH" (GpsLost 0) PyNone PyNone 0 false false]) 0
     = Some (Alert 1 "PATIENT001" "GEOFENCE_BREACH" (GpsLost 0) PyNone PyNone 0 false true).
Proof.
  destruct C3_no_automatic_resolution as (Hwithin & _ & Hmark & _). split.
  - apply (Hwithin 2%Z fix_center center_lat center_lon (New.default None)).
    + reflexivity.
    + apply located_fix_at.
    + apply default_center_within.
  - exact (Hmark 1%Z
             [Alert 1 "PATIENT001" "GEOFENCE_BREACH" (GpsLost 0) PyNone PyNone 0 false false]
             0%nat _ eq_refl).
Defined.

(** C3 as stated fails: under the default configuration a breach poll
    followed by a poll at the exact center (within the fence) leaves the
    one GEOFENCE_BREACH alert unresolved. *)
Lemma C3_breach_alert_stays_open :
  let r1 := New.check_geofence 1 fix_1000m_south (New.default None) in
  let r2 := New.check_geofence 2 fix_center (snd r1) in
  fst r1 = Return false /\ fst r2 = Return true
  /\ map resolved (of_type "GEOFENCE_BREACH" (New.alerts (snd r2))) = [false]
  /\ map rowid (open_alerts (New.alerts (snd r2))) = [1%Z].
Proof.
  destruct (check_geofence_outside 1 fix_1000m_south _ _ (New.default None)
              eq_refl (located_fix_at _ _)) as (la & lo & _ & _ & H1).
  { change (New.geofence_lat (New.default None)) with center_lat.
    change (New.geofence_lon (New.default None)) with center_lon.
    rewrite distance_1000m_south. simpl. lra. }
  cbv zeta. rewrite H1. simpl fst. simpl snd.
  set (t1 := after_alert _ _ _ _ _ _).
  rewrite (check_geofence_within 2 fix_center center_lat center_lon t1 eq_refl
             (located_fix_at _ _) (default_center_within None)).
  repeat split; reflexivity.
Qed.

End Clearing.

(** ** C4: the disabled geofence *)

Section Disabled.

Lemma new_check_geofence_disabled now location (t : New.tracker) :
  New.geofence_enabled t = false ->
  New.check_geofence now location t = (Return true, t).
Proof. intros H. unfold New.check_geofence. rewrite H. reflexivity. Qed.

Lemma old_check_geofence_disabled now location (t : Old.tracker) :
  Old.enabled (Old.config_geofence t) = false ->
  Old.check_geofence now location t = (Return true, t).
Proof. intros H. unfold Old.check_geofence. rewrite H. reflexivity. Qed.

(** C4, as the code has it: with the geofence disabled [check_geofence]
    returns [True] at once, for every location dict, without computing a
    distance and without touching the tracker. *)
Theorem C4_disabled_returns_true_only :
  (forall now location (t : New.tracker),
      New.geofence_enabled t = false ->
      New.check_geofence now location t = (Return true, t))
  /\ (forall now location (t : Old.tracker),
      Old.enabled (Old.config_geofence t) = false ->
      Old.check_geofence now location t = (Return true, t)).
Proof.
  split; intros now location t H.
  - apply new_check_geofence_disabled, H.
  - apply old_check_geofence_disabled, H.
Qed.

Lemma C4_disabled_returns_true_only_witness :
  New.check_geofence 0 fix_1000m_south (geofence_off (New.default None))
  = (Return true, geofence_off (New.default None)).
Proof.
  apply (proj1 C4_disabled_returns_true_only). reflexivity.
Defined.

(** C4 as stated fails: with the geofence disabled the result of the
    evaluation does not carry the distance.  No function of the result
    gives the distance from the center: the fix at the center (0 m) and the
    fix 1000 m south of it produce the same result. *)
Lemma C4_disabled_result_has_no_distance :
  ~ exists distance_of : py_result bool * New.tracker -> R,
      forall x y,
        distance_of (New.check_geofence 0 (fix_at x y) (geofence_off (New.default None)))
        = Spec.distanceMeters x y center_lat center_lon.
Proof.
  intros [distance_of H].
  pose proof (H center_lat center_lon) as H0.
  pose proof (H (south_of center_lat 1000) center_lon) as H1.
  rewrite distance_center in H0. rewrite distance_1000m_south in H1.
  rewrite new_check_geofence_disabled in H0 by reflexivity.
  rewrite new_check_geofence_disabled in H1 by reflexivity.
  rewrite H0 in H1. lra.
Qed.

End Disabled.

(** ** [check_geofence] of [patient_tracker.py] *)

Section OldGeofence.
Import Db.

Lemma old_distance_to_center location x y (g : Old.geofence) cx cy :
  located location x y ->
  as_real (Old.latitude g) = Return cx ->
  as_real (Old.longitude g) = Return cy ->
  Old.distance_to_center location g = Return (Spec.distanceMeters x y cx cy).
Proof.
  intros (la & lo & Hla & Hlo & Hx & Hy) Hcx Hcy.
  unfold Old.distance_to_center, getitem, radians.
  rewrite Hla. cbn [bind]. rewrite Hx. cbn [bind].
  rewrite Hlo. cbn [bind]. rewrite Hy. cbn [bind].
  rewrite Hcx. cbn [bind]. rewrite Hcy. cbn [bind].
  change (sin ((radians_of cx - radians_of x) / 2) ^ 2
          + cos (radians_of x) * cos (radians_of cx)
            * sin ((radians_of cy - radians_of y) / 2) ^ 2)%R
    with (Spec.hav (radians_of x) (radians_of y) (radians_of cx) (radians_of cy)).
  rewrite math_sqrt_hav. cbn [bind]. rewrite math_asin_sqrt_hav. cbn [bind].
  f_equal. unfold Spec.distanceMeters, Spec.earth_radius. ring.
Qed.

(** The value [check_geofence] returns on numeric input. *)
Lemma old_check_geofence_value now location x y (t : Old.tracker) cx cy r :
  Old.enabled (Old.config_geofence t) = true ->
  located location x y ->
  as_real (Old.latitude (Old.config_geofence t)) = Return cx ->
  as_real (Old.longitude (Old.config_geofence t)) = Return cy ->
  as_real (Old.radius (Old.config_geofence t)) = Return r ->
  fst (Old.check_geofence now location t)
  = Return (if Rgt_dec (Spec.distanceMeters x y cx cy) r then false else true).
Proof.
  intros Hen Hloc Hcx Hcy Hr.
  unfold Old.check_geofence. rewrite Hen. simpl.
  unfold catch, Old.check_geofence_try, sbind, gets, lift.
  rewrite (old_distance_to_center _ _ _ _ _ _ Hloc Hcx Hcy).
  unfold float_gt. rewrite Hr. simpl.
  destruct Hloc as (la & lo & Hla & Hlo & _ & _).
  destruct (Rgt_dec _ r); [|reflexivity].
  unfold getitem. rewrite Hla, Hlo. reflexivity.
Qed.

Lemma new_check_geofence_value now location x y (t : New.tracker) :
  New.geofence_enabled t = true ->
  located location x y ->
  fst (New.check_geofence now location t)
  = Return (if Rgt_dec (Spec.distanceMeters x y (New.geofence_lat t) (New.geofence_lon t))
                       (New.geofence_radius t)
            then false else true).
Proof.
  intros Hen Hloc. destruct (Rgt_dec _ _) as [H|H].
  - destruct (check_geofence_outside now location x y t Hen Hloc H)
      as (la & lo & _ & _ & ->). reflexivity.
  - rewrite (check_geofence_within now location x y t Hen Hloc); [reflexivity|].
    apply Rnot_gt_le, H.
Qed.

End OldGeofence.

(** ** C5: the distance formula and the fence test *)

Section Fence.
Import Db.
Local Open Scope R_scope.

(** C5 (Python floats read as real numbers): the distance both trackers
    compute is the haversine great-circle distance with Earth radius
    6 371 000 m; with the geofence enabled the check returns [True] exactly
    when that distance does not exceed the radius; under the default
    configuration (center (40.7128, -74.0060), radius 100 m) the fix at
    the center is within the fence and every fix 1000 m away is not. *)
Theorem C5_haversine_and_fence :
  (forall la lo x y cx cy,
      as_real la = Return x -> as_real lo = Return y ->
      New.calculate_distance la lo (PyFloat cx) (PyFloat cy)
      = Meters (Spec.distanceMeters x y cx cy))
  /\ (forall now location x y (t : New.tracker),
      New.geofence_enabled t = true -> located location x y ->
      (fst (New.check_geofence now location t) = Return true
       <-> Spec.distanceMeters x y (New.geofence_lat t) (New.geofence_lon t)
           <= New.geofence_radius t))
  /\ (forall now location x y (t : Old.tracker) cx cy r,
      Old.enabled (Old.config_geofence t) = true -> located location x y ->
      as_real (Old.latitude (Old.config_geofence t)) = Return cx ->
      as_real (Old.longitude (Old.config_geofence t)) = Return cy ->
      as_real (Old.radius (Old.config_geofence t)) = Return r ->
      Old.distance_to_center location (Old.config_geofence t)
      = Return (Spec.distanceMeters x y cx cy)
      /\ (fst (Old.check_geofence now location t) = Return true
          <-> Spec.distanceMeters x y cx cy <= r))
  /\ (forall now gsm,
      fst (New.check_geofence now fix_center (New.default gsm)) = Return true
      /\ fst (Old.check_geofence now fix_center Old.default) = Return true)
  /\ (forall now gsm location x y,
      located location x y ->
      Spec.distanceMeters x y center_lat center_lon = 1000 ->
      fst (New.check_geofence now location (New.default gsm)) = Return false
      /\ fst (Old.check_geofence now location Old.default) = Return false).
Proof.
  split; [|split; [|split; [|split]]].
  - intros. apply calculate_distance_numbers; assumption.
  - intros now location x y t Hen Hloc.
    rewrite (new_check_geofence_value now location x y t Hen Hloc).
    destruct (Rgt_dec _ _) as [H|H]; split; intros H'; try reflexivity.
    + discriminate.
    + lra.
    + lra.
  - intros now location x y t cx cy r Hen Hloc Hcx Hcy Hr. split.
    + apply old_distance_to_center; assumption.
    + rewrite (old_check_geofence_value now location x y t cx cy r Hen Hloc Hcx Hcy Hr).
      destruct (Rgt_dec _ _) as [H|H]; split; intros H'; try reflexivity.
      * discriminate.
      * lra.
      * lra.
  - intros now gsm. split.
    + rewrite (new_check_geofence_value now fix_center center_lat center_lon
                 (New.default gsm) eq_refl (located_fix_at _ _)).
      change (New.geofence_lat (New.default gsm)) with center_lat.
      change (New.geofence_lon (New.default gsm)) with center_lon.
      rewrite distance_center. simpl.
      destruct (Rgt_dec 0 100); [lra|reflexivity].
    + rewrite (old_check_geofence_value now fix_center center_lat center_lon
                 Old.default center_lat center_lon 100 eq_refl (located_fix_at _ _)
                 eq_refl eq_refl eq_refl).
      rewrite distance_center. destruct (Rgt_dec 0 100); [lra|reflexivity].
  - intros now gsm location x y Hloc Hd. split.
    + rewrite (new_check_geofence_value now location x y (New.default gsm) eq_refl Hloc).
      change (New.geofence_lat (New.default gsm)) with center_lat.
      change (New.geofence_lon (New.default gsm)) with center_lon.
      rewrite Hd. simpl. destruct (Rgt_dec 1000 100); [reflexivity|lra].
    + rewrite (old_check_geofence_value now location x y Old.default
                 center_lat center_lon 100 eq_refl Hloc eq_refl eq_refl eq_refl).
      rewrite Hd. destruct (Rgt_dec 1000 100); [reflexivity|lra].
Qed.

Lemma C5_haversine_and_fence_witness :
  fst (New.check_geofence 0 fix_1000m_south (New.default None)) = Return false
  /\ fst (Old.check_geofence 0 fix_1000m_south Old.default) = Return false.
Proof.
  destruct C5_haversine_and_fence as (_ & _ & _ & _ & H).
  apply (H 0%Z None fix_1000m_south (south_of center_lat 1000) center_lon).
  - apply located_fix_at.
  - apply distance_1000m_south.
Defined.

End Fence.

(** ** C2: the position-lost threshold *)

Section PositionLost.
Import Db.

Lemma get_gps_location_no_fix nmea now input (t : New.tracker) :
  no_fix nmea (now, input) ->
  New.get_gps_location nmea now input t = (Return None, t).
Proof.
  unfold no_fix, New.get_gps_location, catch. simpl.
  destruct input as [|raw|]; intros H; try reflexivity.
  unfold sbind, lift. rewrite H. reflexivity.
Qed.

Lemma last_known_numbers (t : New.tracker) :
  current_location_ok t ->
  exists la lo x y,
    New.last_known t "latitude" = Return la /\ New.last_known t "longitude" = Return lo
    /\ as_real la = Return x /\ as_real lo = Return y.
Proof.
  unfold current_location_ok, New.last_known.
  destruct (New.current_location t) as [d|].
  - destruct (dict_truthy d).
    + intros H. destruct (H eq_refl) as (x & y & la & lo & Hla & Hlo & Hx & Hy).
      exists la, lo, x, y. unfold getitem. rewrite Hla, Hlo. auto.
    + intros _. exists (PyInt 0), (PyInt 0), 0%R, 0%R. auto.
  - intros _. exists (PyInt 0), (PyInt 0), 0%R, 0%R. auto.
Qed.

Lemma cycle_no_fix_below nmea now input (st : New.loop_state) :
  no_fix nmea (now, input) ->
  (New.consecutive_failures st + 1 < 6)%Z ->
  New.cycle nmea now input st
  = New.LoopState (New.self st) (New.update_count st + 1) (New.consecutive_failures st + 1).
Proof.
  intros Hno Hlt. unfold New.cycle, catch, New.cycle_body.
  unfold sbind at 1. unfold modify at 1.
  unfold sbind at 1. unfold New.on_self at 1. simpl New.self.
  rewrite (get_gps_location_no_fix _ _ _ _ Hno).
  unfold sbind at 1. unfold modify at 1.
  unfold sbind at 1. unfold gets at 1. simpl.
  destruct (Z.leb_spec 6 (New.consecutive_failures st + 1)); [lia|reflexivity].
Qed.

Lemma cycle_no_fix_threshold nmea now input (st : New.loop_state) :
  no_fix nmea (now, input) ->
  (6 <= New.consecutive_failures st + 1)%Z ->
  current_location_ok (New.self st) ->
  exists la lo,
    New.cycle nmea now input st
    = New.LoopState
        (after_alert now "GPS_LOST"
           (GpsLost ((New.consecutive_failures st + 1) * New.update_interval (New.self st)))
           la lo (New.self st))
        (New.update_count st + 1) (New.consecutive_failures st + 1).
Proof.
  intros Hno Hge Hok.
  destruct (last_known_numbers _ Hok) as (la & lo & x & y & Hla & Hlo & Hx & Hy).
  exists la, lo.
  unfold New.cycle, catch, New.cycle_body.
  unfold sbind at 1. unfold modify at 1.
  unfold sbind at 1. unfold New.on_self at 1. simpl New.self.
  rewrite (get_gps_location_no_fix _ _ _ _ Hno).
  unfold sbind at 1. unfold modify at 1.
  unfold sbind at 1. unfold gets at 1. simpl.
  destruct (Z.leb_spec 6 (New.consecutive_failures st + 1)); [|lia].
  unfold sbind, gets. simpl. rewrite Hla, Hlo.
  unfold New.on_self. simpl.
  rewrite (trigger_alert_numbers _ _ _ _ _ _ _ _ Hx Hy). reflexivity.
Qed.

Lemma cycle_fix_resets nmea now input (st : New.loop_state) d t' :
  New.get_gps_location nmea now input (New.self st) = (Return (Some d), t') ->
  New.consecutive_failures (New.cycle nmea now input st) = 0%Z.
Proof.
  intros H. unfold New.cycle, catch, New.cycle_body.
  unfold sbind at 1. unfold modify at 1.
  unfold sbind at 1. unfold New.on_self at 1. simpl New.self. rewrite H.
  unfold sbind at 1. unfold modify at 1.
  unfold sbind at 1. unfold lift at 1.
  destruct (New.display d) as [[]|e]; [|reflexivity].
  unfold sbind at 1. unfold New.on_self at 1, New.store_location, modify at 1.
  simpl.
  unfold sbind at 1, gets at 1. simpl.
  destruct (New.geofence_enabled t'); [|reflexivity].
  unfold sbind at 1. unfold New.on_self at 1. simpl.
  destruct (New.check_geofence now d _) as [[b|e] t''].
  - destruct b; [|reflexivity].
    unfold sbind, lift. destruct (getitem d "latitude"); [|reflexivity].
    destruct (getitem d "longitude"); reflexivity.
  - reflexivity.
Qed.

Lemma tracking_loop_no_fix_below nmea (polls : list (Z * New.gps_input)) (st : New.loop_state) :
  Forall (no_fix nmea) polls ->
  (New.consecutive_failures st + Z.of_nat (length polls) < 6)%Z ->
  New.tracking_loop nmea polls st
  = New.LoopState (New.self st) (New.update_count st + Z.of_nat (length polls))
                  (New.consecutive_failures st + Z.of_nat (length polls)).
Proof.
  revert st. induction polls as [|[now input] polls IH]; intros st Hall Hlt.
  - simpl. destruct st. simpl. f_equal; lia.
  - inversion Hall as [|? ? Hp Hps]; subst.
    change (New.tracking_loop nmea ((now, input) :: polls) st)
      with (New.tracking_loop nmea polls (New.cycle nmea now input st)).
    simpl length in *.
    rewrite (cycle_no_fix_below nmea now input st Hp) by lia.
    rewrite IH; [|exact Hps|simpl; lia].
    simpl. f_equal; lia.
Qed.

(** C2: starting with the failure counter at 0 (as [tracking_loop] does,
    and as every poll with a fix leaves it), five consecutive polls in which
    decoding yields no fix add no alert, and the sixth adds exactly one
    unresolved GPS_LOST alert (for 6 times the update interval: 60 s under
    the default configuration); a poll that yields a fix leaves the counter
    at 0. *)
Theorem C2_position_lost_after_six_polls nmea (t : New.tracker)
    (polls : list (Z * New.gps_input)) :
  current_location_ok t ->
  Forall (no_fix nmea) polls ->
  (length polls = 5%nat ->
   New.tracking_loop nmea polls (New.start t) = New.LoopState t 5 5)
  /\ (length polls = 6%nat ->
      exists a,
        New.alerts (New.self (New.tracking_loop nmea polls (New.start t)))
        = New.alerts t ++ [a]
        /\ alert_type a = "GPS_LOST"%string
        /\ message a = GpsLost (6 * New.update_interval t)
        /\ resolved a = false
        /\ New.consecutive_failures (New.tracking_loop nmea polls (New.start t)) = 6%Z)
  /\ (forall now input (st : New.loop_state) d t',
      New.get_gps_location nmea now input (New.self st) = (Return (Some d), t') ->
      New.consecutive_failures (New.cycle nmea now input st) = 0%Z).
Proof.
  intros Hok Hall. split; [|split].
  - intros Hlen.
    rewrite (tracking_loop_no_fix_below nmea polls (New.start t) Hall); rewrite Hlen.
    + reflexivity.
    + simpl. lia.
  - intros Hlen.
    destruct (exists_last (l := polls)) as (first & [now input] & ->).
    { intros ->. discriminate. }
    rewrite length_app in Hlen. simpl in Hlen.
    apply Forall_app in Hall. destruct Hall as [Hfirst Hlast].
    inversion Hlast as [|? ? Hp _]; subst.
    unfold New.tracking_loop. rewrite fold_left_app.
    fold (New.tracking_loop nmea first (New.start t)).
    rewrite (tracking_loop_no_fix_below nmea first (New.start t) Hfirst)
      by (simpl; lia).
    replace (length first) with 5%nat by lia.
    change (New.LoopState (New.self (New.start t))
              (New.update_count (New.start t) + Z.of_nat 5)
              (New.consecutive_failures (New.start t) + Z.of_nat 5))
      with (New.LoopState t 5 5).
    destruct (cycle_no_fix_threshold nmea now input (New.LoopState t 5 5) Hp)
      as (la & lo & Hcycle); [simpl; lia|exact Hok|].
    cbn [fold_left fst snd]. rewrite Hcycle. simpl.
    eexists. repeat split.
  - intros now input st d t' H. eapply cycle_fix_resets, H.
Qed.

Lemma C2_position_lost_after_six_polls_witness :
  exists a,
    New.alerts (New.self (New.tracking_loop sample_nmea
       [(10, New.NoBytes); (20, New.NoBytes); (30, New.ReadError);
        (40, New.Bytes ""); (50, New.NoBytes); (60, New.NoBytes)]%Z
       (New.start (New.default None))))
    = New.alerts (New.default None) ++ [a]
    /\ alert_type a = "GPS_LOST"%string
    /\ message a = GpsLost (6 * New.update_interval (New.default None))
    /\ resolved a = false
    /\ New.consecutive_failures (New.tracking_loop sample_nmea
         [(10, New.NoBytes); (20, New.NoBytes); (30, New.ReadError);
          (40, New.Bytes ""); (50, New.NoBytes); (60, New.NoBytes)]%Z
         (New.start (New.default None))) = 6%Z.
Proof.
  apply (C2_position_lost_after_six_polls sample_nmea (New.default None)
           [(10, New.NoBytes); (20, New.NoBytes); (30, New.ReadError);
            (40, New.Bytes ""); (50, New.NoBytes); (60, New.NoBytes)]%Z).
  - exact I.
  - repeat constructor.
  - reflexivity.
Defined.

End PositionLost.

(** ** C10: exceptions inside the geofence check *)

Section FailOpen.
Import Db.

(** Whatever raises inside the [try] block of [check_geofence] does so
    before [trigger_alert] is reached: the tracker is still as it was. *)
Lemma old_check_geofence_try_raises now location (t t' : Old.tracker) e :
  Old.check_geofence_try now location t = (Raise e, t') -> t' = t.
Proof.
  unfold Old.check_geofence_try, sbind, gets, lift.
  destruct (Old.distance_to_center location (Old.config_geofence t)) as [d|e1];
    [|intros [= _ <-]; reflexivity].
  destruct (float_gt d (Old.radius (Old.config_geofence t))) as [outside|e2];
    [|intros [= _ <-]; reflexivity].
  destruct outside; [|discriminate].
  destruct (getitem location "latitude") as [la|e3]; [|intros [= _ <-]; reflexivity].
  destruct (getitem location "longitude") as [lo|e4]; [|intros [= _ <-]; reflexivity].
  discriminate.
Qed.

(** C10: with the geofence enabled, if anything raises inside the [try]
    block of [check_geofence] (of [patient_tracker.py] and
    [patient_tracker_fixed.py]), the check returns [True] and the tracker,
    hence the alert table and the SMS attempts, is unchanged: no breach
    alert is created. *)
Theorem C10_check_geofence_fails_open now location (t t' : Old.tracker) e :
  Old.enabled (Old.config_geofence t) = true ->
  Old.check_geofence_try now location t = (Raise e, t') ->
  Old.check_geofence now location t = (Return true, t)
  /\ Old.alerts (snd (Old.check_geofence now location t)) = Old.alerts t
  /\ Old.sms_attempts (snd (Old.check_geofence now location t)) = Old.sms_attempts t.
Proof.
  intros Hen Hraise.
  assert (Hrun : Old.check_geofence now location t = (Return true, t)).
  { pose proof (old_check_geofence_try_raises _ _ _ _ _ Hraise) as ->.
    unfold Old.check_geofence, catch. rewrite Hen, Hraise. reflexivity. }
  rewrite Hrun. repeat split.
Qed.

(** A fix record without the latitude field, under the default configuration. *)
Lemma C10_check_geofence_fails_open_witness :
  Old.check_geofence 0 fix_no_latitude Old.default = (Return true, Old.default)
  /\ Old.alerts (snd (Old.check_geofence 0 fix_no_latitude Old.default)) = []
  /\ Old.sms_attempts (snd (Old.check_geofence 0 fix_no_latitude Old.default)) = [].
Proof.
  apply (C10_check_geofence_fails_open 0 fix_no_latitude Old.default Old.default KeyError).
  - reflexivity.
  - reflexivity.
Defined.

End FailOpen.

(** ** The decoders *)

Section Decoders.
Import Db.

Lemma startswith_dollar (s p : string) :
  Str.startswith s (String "$" p) = true -> Str.startswith s "$" = true.
Proof.
  destruct s as [|c s]; cbn [Str.startswith]; [intros H; exact H|].
  destruct (Ascii.eqb "$" c); cbn [andb]; [intros _; destruct s; reflexivity|intros H; exact H].
Qed.

(** The loop of [parse_gps_data] returns a dict only from a line that decodes. *)
Lemma new_parse_lines_some nmea now lines d :
  New.parse_lines nmea now lines = Return (Some d) ->
  exists line, In line lines /\ decodes nmea now line d.
Proof.
  induction lines as [|line lines IH]; simpl; [discriminate|].
  destruct (Str.nonempty (Str.strip line)) eqn:Hne; simpl.
  2:{ intros H. destruct (IH H) as (l & Hin & Hd). exists l. auto. }
  destruct (Str.startswith (Str.strip line) "$") eqn:Hst; simpl.
  2:{ intros H. destruct (IH H) as (l & Hin & Hd). exists l. auto. }
  destruct (New.decode_line nmea now (Str.strip line)) as [[d'|]|e] eqn:Hdec; simpl.
  - intros [= ->]. exists line. split; [left; reflexivity|].
    unfold decodes. auto.
  - intros H. destruct (IH H) as (l & Hin & Hd). exists l. auto.
  - destruct e; try discriminate.
    intros H. destruct (IH H) as (l & Hin & Hd). exists l. auto.
Qed.

(** Lines that are passed over do not end the scan. *)
Lemma new_parse_lines_passed_over nmea now before lines :
  Forall (passed_over nmea now) before ->
  New.parse_lines nmea now (before ++ lines) = New.parse_lines nmea now lines.
Proof.
  induction 1 as [|line before Hline _ IH]; [reflexivity|].
  simpl. unfold passed_over in Hline. simpl in Hline.
  destruct (Str.nonempty (Str.strip line)); simpl; [|exact IH].
  destruct (Str.startswith (Str.strip line) "$"); simpl; [|exact IH].
  destruct Hline as [H|[H|[H|H]]]; try discriminate; rewrite H; exact IH.
Qed.

Lemma new_parse_lines_decodes nmea now line rest d :
  decodes nmea now line d ->
  New.parse_lines nmea now (line :: rest) = Return (Some d).
Proof.
  intros (Hne & Hst & Hdec). simpl. rewrite Hne, Hst, Hdec. reflexivity.
Qed.

Lemma new_parse_gps_data_total nmea now raw_data :
  exists r, New.parse_gps_data nmea now raw_data = Return r.
Proof.
  unfold New.parse_gps_data, try_except.
  destruct (New.parse_lines nmea now _) as [r|e]; eexists; reflexivity.
Qed.

Lemma new_parse_gps_data_none nmea now raw_data :
  (forall line d, In line (Str.split "010" raw_data) -> ~ decodes nmea now line d) ->
  New.parse_gps_data nmea now raw_data = Return None.
Proof.
  intros H. unfold New.parse_gps_data, try_except.
  destruct (New.parse_lines nmea now _) as [[d|]|e] eqn:Hrun; try reflexivity.
  destruct (new_parse_lines_some _ _ _ _ Hrun) as (line & Hin & Hd).
  exfalso. exact (H line d Hin Hd).
Qed.

Lemma tracker_parse_nmea_lines_no_gga now lines :
  (forall line, In line lines -> Str.startswith line "$GPGGA" = false) ->
  Tracker.parse_nmea_lines now lines = Return None.
Proof.
  induction lines as [|line lines IH]; intros H; [reflexivity|].
  simpl. rewrite (H line) by (left; reflexivity).
  apply IH. intros l Hl. apply H. right. exact Hl.
Qed.

(** C9: decoding is total and never raises.  [parse_gps_data] returns
    a value for every text and every behaviour of the sentence parser; it
    returns [None] whenever no line of the batch decodes, in particular
    when no line begins with [$] and on the empty text.  The same holds for
    [parse_nmea] of [tracker.py]. *)
Theorem C9_decode_is_total :
  (forall nmea now raw_data, exists r, New.parse_gps_data nmea now raw_data = Return r)
  /\ (forall nmea now raw_data,
      (forall line d, In line (Str.split "010" raw_data) -> ~ decodes nmea now line d) ->
      New.parse_gps_data nmea now raw_data = Return None)
  /\ (forall nmea now raw_data,
      (forall line, In line (Str.split "010" raw_data) ->
                    Str.startswith (Str.strip line) "$" = false) ->
      New.parse_gps_data nmea now raw_data = Return None)
  /\ (forall nmea now, New.parse_gps_data nmea now "" = Return None)
  /\ (forall now data, exists r, Tracker.parse_nmea now data = Return r)
  /\ (forall now data,
      (forall line, In line (Str.split "010" data) -> Str.startswith line "$" = false) ->
      Tracker.parse_nmea now data = Return None)
  /\ (forall now, Tracker.parse_nmea now "" = Return None).
Proof.
  split; [|split; [|split; [|split; [|split; [|split]]]]].
  - apply new_parse_gps_data_total.
  - apply new_parse_gps_data_none.
  - intros nmea now raw_data H. apply new_parse_gps_data_none.
    intros line d Hin (_ & Hst & _). rewrite (H line Hin) in Hst. discriminate.
  - reflexivity.
  - intros now data. unfold Tracker.parse_nmea, try_except.
    destruct (Tracker.parse_nmea_lines now _) as [r|e]; eexists; reflexivity.
  - intros now data H. unfold Tracker.parse_nmea.
    rewrite tracker_parse_nmea_lines_no_gga; [reflexivity|].
    intros line Hin. specialize (H line Hin).
    destruct (Str.startswith line "$GPGGA") eqn:Hg; [|reflexivity].
    apply startswith_dollar in Hg. congruence.
  - reflexivity.
Qed.

Lemma C9_decode_is_total_witness :
  New.parse_gps_data sample_nmea 0 "no sentence here" = Return None
  /\ Tracker.parse_nmea 0 "no sentence here" = Return None.
Proof.
  destruct C9_decode_is_total as (_ & _ & Hnew & _ & _ & Htracker & _). split.
  - apply Hnew. intros line [<-|[]]. reflexivity.
  - apply Htracker. intros line [<-|[]]. reflexivity.
Defined.


(** *** C6: a corrupt sentence before a valid one *)

Lemma old_parse_lines_none_before nmea now before lines :
  Forall (fun l => Old.decode_line nmea now l = Return None) before ->
  Old.parse_lines nmea now (before ++ lines) = Old.parse_lines nmea now lines.
Proof.
  induction 1 as [|line before Hline _ IH]; [reflexivity|].
  simpl. rewrite Hline. simpl. exact IH.
Qed.

(** C6, as the code has it.  In [patient_tracker_new.py] a line on which
    the sentence parser raises [ParseError] is passed over like a blank or
    foreign line, and the decode returns the Fix of the first line that
    decodes.  [patient_tracker.py] has no handling per line: an exception
    on any line it reaches ends the decode with no fix. *)
Theorem C6_parse_error_lines_are_skipped :
  (forall nmea now raw_data before line rest d,
      Str.split "010" raw_data = before ++ line :: rest ->
      Forall (passed_over nmea now) before ->
      decodes nmea now line d ->
      New.parse_gps_data nmea now raw_data = Return (Some d))
  /\ (forall nmea now gps_data before line rest e,
      Str.split "010" gps_data = before ++ line :: rest ->
      Forall (fun l => Old.decode_line nmea now l = Return None) before ->
      Old.decode_line nmea now line = Raise e ->
      Old.parse_gps_data nmea now gps_data = Return None).
Proof.
  split.
  - intros nmea now raw_data before line rest d Hsplit Hbefore Hdec.
    unfold New.parse_gps_data. rewrite Hsplit.
    rewrite (new_parse_lines_passed_over _ _ _ _ Hbefore).
    rewrite (new_parse_lines_decodes _ _ _ rest _ Hdec). reflexivity.
  - intros nmea now gps_data before line rest e Hsplit Hbefore Hraise.
    unfold Old.parse_gps_data. rewrite Hsplit.
    rewrite (old_parse_lines_none_before _ _ _ _ Hbefore).
    simpl. rewrite Hraise. reflexivity.
Qed.

Lemma sample_gga_decodes :
  exists d, decodes sample_nmea 0 sample_gga d.
Proof. eexists. repeat split. Qed.

Lemma C6_parse_error_lines_are_skipped_witness :
  exists d,
    New.parse_gps_data sample_nmea 0 (corrupt_gga ++ newline ++ sample_gga)%string
    = Return (Some d).
Proof.
  destruct sample_gga_decodes as [d Hd]. exists d.
  apply (proj1 C6_parse_error_lines_are_skipped sample_nmea 0%Z _
           [corrupt_gga] sample_gga [] d).
  - reflexivity.
  - constructor; [|constructor]. right. right. right. reflexivity.
  - exact Hd.
Defined.

(** C6 as stated fails.  In [patient_tracker.py] a position-fix sentence
    with a wrong checksum before a valid one makes the whole decode return
    no fix, although the valid sentence alone decodes; in
    [patient_tracker_new.py] the same happens when the first sentence has
    a malformed latitude field, which raises when the field is read. *)
Lemma C6_corrupt_line_loses_the_batch :
  (exists d, Old.parse_gps_data sample_nmea 0 sample_gga = Return (Some d))
  /\ Old.parse_gps_data sample_nmea 0 (corrupt_gga ++ newline ++ sample_gga)%string
     = Return None
  /\ (exists d, New.parse_gps_data sample_nmea 0 sample_gga = Return (Some d))
  /\ New.parse_gps_data sample_nmea 0 (badfield_gga ++ newline ++ sample_gga)%string
     = Return None.
Proof.
  split; [|split; [|split]].
  - eexists. reflexivity.
  - reflexivity.
  - eexists. reflexivity.
  - reflexivity.
Qed.

(** *** C7: the unit of the speed field *)





Lemma old_parse_lines_some nmea now lines d :
  Old.parse_lines nmea now lines = Return (Some d) ->
  exists line, In line lines /\ Old.decode_line nmea now line = Return (Some d).
Proof.
  induction lines as [|line lines IH]; simpl; [discriminate|].
  destruct (Old.decode_line nmea now line) as [[d'|]|e] eqn:Hdec; simpl.
  - intros [= ->]. exists line. auto.
  - intros H. destruct (IH H) as (l & Hin & Hd). exists l. auto.
  - discriminate.
Qed.






(** *** C8: the coordinates of a Fix *)

Lemma nonempty_true (s : string) : Str.nonempty s = true -> s <> EmptyString.
Proof. intros H ->. discriminate. Qed.

(** [parse_nmea] returns a Fix only from a position-fix line with both
    coordinate fields non-empty. *)
Lemma tracker_parse_nmea_lines_some now lines loc :
  Tracker.parse_nmea_lines now lines = Return (Some loc) ->
  exists line,
    In line lines /\ Str.startswith line "$GPGGA" = true
    /\ (5 < length (Str.split "," line))%nat
    /\ Tracker.part (Str.split "," line) 2 <> EmptyString
    /\ Tracker.part (Str.split "," line) 4 <> EmptyString
    /\ Tracker.coordinate 2 (Tracker.part (Str.split "," line) 2)
         (Tracker.part (Str.split "," line) 3) "S" = Return (Tracker.lat loc)
    /\ Tracker.coordinate 3 (Tracker.part (Str.split "," line) 4)
         (Tracker.part (Str.split "," line) 5) "W" = Return (Tracker.lon loc).
Proof.
  induction lines as [|line lines IH]; [discriminate|].
  cbn [Tracker.parse_nmea_lines].
  destruct (Str.startswith line "$GPGGA") eqn:Hst.
  2:{ intros H. destruct (IH H) as (l & Hin & Hl). exists l. split; [right; exact Hin|exact Hl]. }
  destruct (5 <? length (Str.split "," line))%nat eqn:Hlen; cbn [andb].
  2:{ intros H. destruct (IH H) as (l & Hin & Hl). exists l. split; [right; exact Hin|exact Hl]. }
  destruct (Str.nonempty (Tracker.part (Str.split "," line) 2)) eqn:H2; cbn [andb].
  2:{ intros H. destruct (IH H) as (l & Hin & Hl). exists l. split; [right; exact Hin|exact Hl]. }
  destruct (Str.nonempty (Tracker.part (Str.split "," line) 4)) eqn:H4.
  2:{ intros H. destruct (IH H) as (l & Hin & Hl). exists l. split; [right; exact Hin|exact Hl]. }
  destruct (Tracker.coordinate 2 _ _ "S") as [la|] eqn:Hla; [cbn [bind]|discriminate].
  destruct (Tracker.coordinate 3 _ _ "W") as [lo|] eqn:Hlo; [cbn [bind]|discriminate].
  intros [= <-]. exists line.
  split; [left; reflexivity|]. split; [exact Hst|].
  split; [apply Nat.ltb_lt, Hlen|].
  split; [apply nonempty_true, H2|]. split; [apply nonempty_true, H4|].
  split; [exact Hla|exact Hlo].
Qed.

(** A coordinate is degrees plus minutes/60, negated in one hemisphere:
    it stays within the bound when the degrees are below it and the
    minutes below 60. *)
Lemma tracker_coordinate_range n field hemi neg_hemi d m bound v :
  Tracker.py_float (Str.take n field) = Return (Tracker.FFin d) ->
  Tracker.py_float (Str.drop n field) = Return (Tracker.FFin m) ->
  (0 <= d)%Q -> (d + 1 <= bound)%Q -> (0 <= m)%Q -> (m < 60)%Q ->
  Tracker.coordinate n field hemi neg_hemi = Return v ->
  Tracker.in_range (- bound) bound v.
Proof.
  intros Hd Hm Hd0 Hd1 Hm0 Hm1. unfold Tracker.coordinate.
  rewrite Hd, Hm. cbn [bind Tracker.fdiv60 Tracker.fadd].
  destruct (String.eqb hemi neg_hemi); intros [= <-];
    cbn [Tracker.fneg Tracker.in_range];
    unfold Qdiv; change (/ 60)%Q with (1 # 60)%Q; split; Lqa.lra.
Qed.

(** [parse_gps_data] takes both coordinates as the sentence parser reports them. *)
Lemma new_decode_line_coordinates nmea now line d :
  New.decode_line nmea now line = Return (Some d) ->
  exists msg la lo,
    nmea line = Return msg /\ msg "latitude" = Return la /\ msg "longitude" = Return lo
    /\ d !! "latitude" = Some la /\ d !! "longitude" = Some lo.
Proof.
  unfold New.decode_line.
  destruct (Str.startswith line "$GPGGA").
  - unfold New.gga_location, Pynmea2.getattr.
    destruct (nmea line) as [msg|] eqn:Hn; [cbn [bind]|discriminate].
    destruct (msg "latitude") as [la|] eqn:Hla; [cbn [bind]|discriminate].
    destruct (msg "longitude") as [lo|] eqn:Hlo; [cbn [bind]|discriminate].
    destruct (msg "altitude"); [cbn [bind]|discriminate].
    destruct (msg "num_sats"); [cbn [bind]|discriminate].
    destruct (msg "gps_qual"); [cbn [bind]|discriminate].
    destruct (msg "hdop") as [|[]]; cbn [bind]; try discriminate;
      intros [= <-]; exists msg, la, lo; repeat split; assumption.
  - destruct (Str.startswith line "$GPRMC"); [|discriminate].
    unfold New.rmc_location.
    destruct (nmea line) as [msg|] eqn:Hn; [cbn [bind]|discriminate].
    destruct (msg "latitude") as [la|] eqn:Hla; [cbn [bind]|discriminate].
    destruct (msg "longitude") as [lo|] eqn:Hlo; [cbn [bind]|discriminate].
    destruct (msg "spd_over_grnd") as [spd|]; [cbn [bind]|discriminate].
    destruct (if truthy spd then _ else _); [cbn [bind]|discriminate].
    destruct (msg "is_valid"); [cbn [bind]|discriminate].
    intros [= <-]; exists msg, la, lo; repeat split; assumption.
Qed.

Lemma new_parse_gps_data_coordinates nmea now raw_data d :
  New.parse_gps_data nmea now raw_data = Return (Some d) ->
  exists line msg la lo,
    nmea line = Return msg /\ msg "latitude" = Return la
    /\ msg "longitude" = Return lo
    /\ d !! "latitude" = Some la /\ d !! "longitude" = Some lo.
Proof.
  intros Hrun. unfold New.parse_gps_data, try_except in Hrun.
  destruct (New.parse_lines nmea now _) as [r|] eqn:Hlines; [|discriminate].
  injection Hrun as ->.
  destruct (new_parse_lines_some _ _ _ _ Hlines) as (raw_line & _ & _ & _ & Hdec).
  destruct (new_decode_line_coordinates _ _ _ _ Hdec) as (msg & la & lo & H).
  exists (Str.strip raw_line), msg, la, lo. exact H.
Qed.

(** C8, as the code has it.  [parse_nmea] builds a Fix only from a
    position-fix line whose latitude and longitude fields are both
    non-empty; its coordinates are degrees plus minutes/60 of those fields,
    negated for S and W, and no range is checked: a coordinate lies within
    the bound (90 or 180) when its degrees are at least one below the bound
    and its minutes below 60.  [parse_gps_data] takes the coordinates as the
    sentence parser reports them. *)
Theorem C8_fix_coordinates :
  (forall now data loc,
      Tracker.parse_nmea now data = Return (Some loc) ->
      exists line,
        In line (Str.split "010" data) /\ Str.startswith line "$GPGGA" = true
        /\ (5 < length (Str.split "," line))%nat
        /\ Tracker.part (Str.split "," line) 2 <> EmptyString
        /\ Tracker.part (Str.split "," line) 4 <> EmptyString
        /\ Tracker.coordinate 2 (Tracker.part (Str.split "," line) 2)
             (Tracker.part (Str.split "," line) 3) "S" = Return (Tracker.lat loc)
        /\ Tracker.coordinate 3 (Tracker.part (Str.split "," line) 4)
             (Tracker.part (Str.split "," line) 5) "W" = Return (Tracker.lon loc))
  /\ (forall n field hemi neg_hemi d m bound v,
      Tracker.py_float (Str.take n field) = Return (Tracker.FFin d) ->
      Tracker.py_float (Str.drop n field) = Return (Tracker.FFin m) ->
      (0 <= d)%Q -> (d + 1 <= bound)%Q -> (0 <= m)%Q -> (m < 60)%Q ->
      Tracker.coordinate n field hemi neg_hemi = Return v ->
      Tracker.in_range (- bound) bound v)
  /\ (forall nmea now raw_data d,
      New.parse_gps_data nmea now raw_data = Return (Some d) ->
      exists line msg la lo,
        nmea line = Return msg /\ msg "latitude" = Return la
        /\ msg "longitude" = Return lo
        /\ d !! "latitude" = Some la /\ d !! "longitude" = Some lo).
Proof.
  split; [|split].
  - intros now data loc H. apply tracker_parse_nmea_lines_some with (now := now).
    unfold Tracker.parse_nmea, try_except in H.
    destruct (Tracker.parse_nmea_lines now _) as [r|]; [|discriminate].
    exact H.
  - apply tracker_coordinate_range.
  - apply new_parse_gps_data_coordinates.
Qed.

Lemma C8_fix_coordinates_witness :
  Tracker.in_range (- (90)) 90 (Tracker.FFin (2887038 # 60000))
  /\ exists line,
       In line (Str.split "010" sample_gga) /\ Str.startswith line "$GPGGA" = true
       /\ (5 < length (Str.split "," line))%nat
       /\ Tracker.part (Str.split "," line) 2 <> EmptyString
       /\ Tracker.part (Str.split "," line) 4 <> EmptyString
       /\ Tracker.coordinate 2 (Tracker.part (Str.split "," line) 2)
            (Tracker.part (Str.split "," line) 3) "S"
          = Return (Tracker.FFin (2887038 # 60000))
       /\ Tracker.coordinate 3 (Tracker.part (Str.split "," line) 4)
            (Tracker.part (Str.split "," line) 5) "W"
          = Return (Tracker.FFin (691000 # 60000)).
Proof.
  destruct C8_fix_coordinates as (Hfix & Hrange & _). split.
  - apply (Hrange 2%nat "4807.038"%string "N"%string "S"%string (48 # 1)%Q (7038 # 1000)%Q 90%Q
             (Tracker.FFin (2887038 # 60000))).
    + reflexivity.
    + reflexivity.
    + discriminate.
    + discriminate.
    + discriminate.
    + reflexivity.
    + reflexivity.
  - apply (Hfix 0%Z sample_gga
             (Tracker.Location (Tracker.FFin (2887038 # 60000))
                               (Tracker.FFin (691000 # 60000)) 0)).
    reflexivity.
Defined.

(** C8 as stated fails: [parse_nmea] turns a position-fix sentence whose
    latitude field reads 9999.99 into a Fix with latitude 99 + 99.99/60,
    outside [-90, 90]; degrees 999 with minutes 99.99 give a longitude
    outside [-180, 180]. *)
Lemma C8_latitude_out_of_range :
  exists loc,
    Tracker.parse_nmea 0 "$GPGGA,123519,9999.99,N,99999.99,E,1,08,0.9,545.4,M,46.9,M,,"
    = Return (Some loc)
    /\ Tracker.lat loc = Tracker.FFin (603999 # 6000)
    /\ ~ Tracker.in_range (- (90)) 90 (Tracker.lat loc)
    /\ ~ Tracker.in_range (- (180)) 180 (Tracker.lon loc).
Proof.
  exists (Tracker.Location (Tracker.FFin (603999 # 6000))
                           (Tracker.FFin (6003999 # 6000)) 0).
  split; [vm_compute; reflexivity|]. split; [reflexivity|].
  cbn [Tracker.lat Tracker.lon Tracker.in_range].
  split; intros [_ H]; revert H; apply Qlt_not_le; reflexivity.
Qed.
End Decoders.

(** ** The last known location across the tracking loop *)

Section LastKnown.
Import Db.

Lemma trigger_alert_current_location now ty msg la lo (t : New.tracker) :
  New.current_location (snd (New.trigger_alert now ty msg la lo t))
  = New.current_location t.
Proof.
  unfold New.trigger_alert, catch, sbind, lift, gets, modify, ret, New.log_system_status.
  destruct (format_f la); [|reflexivity].
  destruct (format_f lo); [|reflexivity].
  destruct t as [pid contacts interval en glat glon grad gsm cur locs als sys sms].
  simpl. destruct gsm; reflexivity.
Qed.

Lemma check_geofence_current_location now d (t : New.tracker) :
  New.current_location (snd (New.check_geofence now d t)) = New.current_location t.
Proof.
  unfold New.check_geofence.
  destruct (New.geofence_enabled t); [|reflexivity]. cbn [negb].
  unfold catch, sbind, lift, ret.
  destruct (getitem d "latitude") as [la|]; [|reflexivity].
  destruct (getitem d "longitude") as [lo|]; [|reflexivity].
  destruct (New.exceeds _ _); [|reflexivity].
  pose proof (trigger_alert_current_location now "GEOFENCE_BREACH"
                (LeftSafeArea (New.calculate_distance la lo (PyFloat (New.geofence_lat t))
                                 (PyFloat (New.geofence_lon t)))) la lo t) as H.
  destruct (New.trigger_alert _ _ _ _ _ t) as [[[]|e] t']; exact H.
Qed.

(** What [get_gps_location] does: nothing, or it records a decoded fix. *)
Lemma get_gps_location_cases nmea now input (t : New.tracker) :
  New.get_gps_location nmea now input t = (Return None, t)
  \/ exists raw_data d,
       input = New.Bytes raw_data
       /\ New.parse_gps_data nmea now raw_data = Return (Some d)
       /\ New.get_gps_location nmea now input t
          = (Return (Some d), New.set_current_location (Some d) t).
Proof.
  unfold New.get_gps_location, catch, sbind, lift, ret, throw, modify.
  destruct input as [|raw_data|]; [left; reflexivity| |left; reflexivity].
  destruct (New.parse_gps_data nmea now raw_data) as [[d|]|e] eqn:Hparse;
    [|left; reflexivity|left; reflexivity].
  destruct (dict_truthy d); [|left; reflexivity].
  right. exists raw_data, d. split; [reflexivity|]. split; [exact Hparse|reflexivity].
Qed.

Lemma parse_gps_data_located nmea now raw_data d :
  numeric_coordinates nmea ->
  New.parse_gps_data nmea now raw_data = Return (Some d) ->
  exists x y, located d x y.
Proof.
  intros Hnum Hrun.
  destruct (new_parse_gps_data_coordinates nmea now raw_data d Hrun)
    as (line & msg & la & lo & Hn & Hla & Hlo & Hdla & Hdlo).
  destruct (Hnum line msg la Hn (or_introl Hla)) as [x Hx].
  destruct (Hnum line msg lo Hn (or_intror Hlo)) as [y Hy].
  exists x, y, la, lo. auto.
Qed.

(** With a sentence parser that reports numeric coordinates, every
    iteration of the tracking loop keeps the last known location absent or
    numeric: the position-lost alert always finds coordinates it can use. *)
Lemma cycle_current_location_ok nmea now input (st : New.loop_state) :
  numeric_coordinates nmea ->
  current_location_ok (New.self st) ->
  current_location_ok (New.self (New.cycle nmea now input st)).
Proof.
  intros Hnum Hok.
  unfold New.cycle, catch, New.cycle_body.
  unfold sbind at 1. unfold modify at 1.
  unfold sbind at 1. unfold New.on_self at 1. simpl New.self.
  destruct (get_gps_location_cases nmea now input (New.self st))
    as [Hnone|(raw_data & d & _ & Hparse & Hsome)].
  - rewrite Hnone.
    unfold sbind at 1. unfold modify at 1.
    unfold sbind at 1. unfold gets at 1. simpl.
    destruct (6 <=? _)%Z; [|exact Hok].
    unfold sbind, gets. simpl.
    destruct (New.last_known (New.self st) "latitude") as [la|]; [|exact Hok].
    destruct (New.last_known (New.self st) "longitude") as [lo|]; [|exact Hok].
    unfold New.on_self. simpl.
    pose proof (trigger_alert_current_location now "GPS_LOST"
                  (GpsLost ((New.consecutive_failures st + 1)
                            * New.update_interval (New.self st))) la lo (New.self st)) as H.
    destruct (New.trigger_alert _ _ _ _ _ (New.self st)) as [[[]|e] t'];
      unfold current_location_ok in *; simpl in *; rewrite H; exact Hok.
  - rewrite Hsome.
    assert (Hd : current_location_ok (New.set_current_location (Some d) (New.self st))).
    { unfold current_location_ok. cbn. intros _.
      exact (parse_gps_data_located _ _ _ _ Hnum Hparse). }
    set (t0 := New.set_current_location (Some d) (New.self st)) in *.
    unfold sbind at 1. unfold modify at 1.
    unfold sbind at 1. unfold lift at 1.
    destruct (New.display d) as [[]|e]; [|exact Hd].
    unfold sbind at 1. unfold New.on_self at 1, New.store_location, modify at 1.
    cbn [New.self New.set_consecutive_failures New.update_count New.consecutive_failures
         New.set_update_count].
    set (t1 := New.set_locations _ t0).
    assert (H1 : current_location_ok t1) by exact Hd.
    unfold sbind at 1, gets at 1. cbn [New.self].
    destruct (New.geofence_enabled t1); [|exact H1].
    unfold sbind at 1. unfold New.on_self at 1. cbn [New.self].
    pose proof (check_geofence_current_location now d t1) as H.
    destruct (New.check_geofence now d t1) as [[b|e] t2]; cbn [snd] in H.
    + assert (H2 : current_location_ok t2).
      { unfold current_location_ok in *. rewrite H. exact H1. }
      destruct b; [|exact H2].
      unfold sbind, lift. destruct (getitem d "latitude"); [|exact H2].
      destruct (getitem d "longitude"); exact H2.
    + unfold current_location_ok in *. simpl. rewrite H. exact H1.
Qed.

End LastKnown.

(** * Further properties of the code *)

(** ** Distances *)

Section DistanceFacts.
Import Db.
Local Open Scope R_scope.

Lemma hav_sym (p1 l1 p2 l2 : R) : Spec.hav p1 l1 p2 l2 = Spec.hav p2 l2 p1 l1.
Proof.
  unfold Spec.hav.
  replace ((p1 - p2) / 2) with (- ((p2 - p1) / 2)) by field.
  replace ((l1 - l2) / 2) with (- ((l2 - l1) / 2)) by field.
  rewrite !sin_neg. ring.
Qed.

Lemma distanceMeters_sym (x y cx cy : R) :
  Spec.distanceMeters x y cx cy = Spec.distanceMeters cx cy x y.
Proof. unfold Spec.distanceMeters. rewrite hav_sym. reflexivity. Qed.

Lemma distanceMeters_range (x y cx cy : R) :
  0 <= Spec.distanceMeters x y cx cy <= Spec.earth_radius * PI.
Proof.
  unfold Spec.distanceMeters.
  set (h := Spec.hav _ _ _ _).
  pose proof (hav_bounds (radians_of x) (radians_of y) (radians_of cx) (radians_of cy))
    as [H0 H1]. fold h in H0, H1.
  pose proof (sqrt_pos h) as Hs0.
  assert (Hs1 : sqrt h <= 1) by (rewrite <- sqrt_1; apply sqrt_le_1_alt; exact H1).
  pose proof (asin_bound (sqrt h)) as [_ Hu].
  assert (Hl : 0 <= asin (sqrt h)).
  { destruct (Rle_or_lt 0 (asin (sqrt h))) as [H|H]; [exact H|].
    pose proof (asin_bound (sqrt h)) as [Hb _]. pose proof PI_RGT_0.
    assert (Hneg : sin (asin (sqrt h)) < 0) by (apply sin_lt_0_var; lra).
    rewrite sin_asin in Hneg by lra. lra. }
  assert (HR : Spec.earth_radius = 6371000) by reflexivity. rewrite HR.
  split; nra.
Qed.

(** X1: the distance [calculate_distance] returns is the same in both
    directions, for all arguments (infinite both ways when one of them is
    not a number), and the distance of a point to itself is 0. *)
Theorem X1_calculate_distance_symmetric :
  (forall lat1 lon1 lat2 lon2 : pyval,
      New.calculate_distance lat1 lon1 lat2 lon2
      = New.calculate_distance lat2 lon2 lat1 lon1)
  /\ (forall la lo x y,
      as_real la = Return x -> as_real lo = Return y ->
      New.calculate_distance la lo la lo = Meters 0).
Proof.
  split.
  - intros lat1 lon1 lat2 lon2. unfold New.calculate_distance, radians.
    destruct (as_real lat1) as [a|]; destruct (as_real lon1) as [b|];
      destruct (as_real lat2) as [c|]; destruct (as_real lon2) as [d|];
      cbn [bind]; try reflexivity.
    rewrite !central_angle_eq. cbn [bind]. rewrite hav_sym. reflexivity.
  - intros la lo x y Hx Hy. unfold New.calculate_distance, radians.
    rewrite Hx, Hy. cbn [bind]. rewrite central_angle_eq. cbn [bind].
    f_equal.
    pose proof (distance_center x y) as H. unfold Spec.distanceMeters, Spec.earth_radius in H.
    lra.
Qed.

Lemma X1_calculate_distance_symmetric_witness :
  New.calculate_distance (PyInt 1) (PyBool true) (PyInt 1) (PyBool true) = Meters 0.
Proof.
  apply (proj2 X1_calculate_distance_symmetric (PyInt 1) (PyBool true) 1 1); reflexivity.
Defined.

(** X2: on numeric coordinates [calculate_distance] is finite, at least 0 and
    at most half the circumference of the Earth (6 371 000 * pi meters); so
    with a radius of at least that, [check_geofence] finds every such fix
    within the fence and creates no alert. *)
Theorem X2_distance_at_most_half_circumference :
  (forall la lo x y cx cy,
      as_real la = Return x -> as_real lo = Return y ->
      exists d,
        New.calculate_distance la lo (PyFloat cx) (PyFloat cy) = Meters d
        /\ 0 <= d <= 6371000 * PI)
  /\ (forall now location x y (t : New.tracker),
      located location x y ->
      6371000 * PI <= New.geofence_radius t ->
      New.check_geofence now location t = (Return true, t)).
Proof.
  split.
  - intros la lo x y cx cy Hx Hy. eexists. split.
    + apply calculate_distance_numbers; eassumption.
    + apply distanceMeters_range.
  - intros now location x y t Hloc Hr.
    destruct (New.geofence_enabled t) eqn:Hen.
    + apply (check_geofence_within now location x y t Hen Hloc).
      pose proof (distanceMeters_range x y (New.geofence_lat t) (New.geofence_lon t)) as [_ H].
      unfold Spec.earth_radius in H. lra.
    + apply new_check_geofence_disabled, Hen.
Qed.

Lemma X2_distance_at_most_half_circumference_witness :
  exists d,
    New.calculate_distance (PyFloat 0) (PyFloat 0) (PyFloat center_lat) (PyFloat center_lon)
    = Meters d
    /\ 0 <= d <= 6371000 * PI.
Proof.
  apply (proj1 X2_distance_at_most_half_circumference (PyFloat 0) (PyFloat 0) 0 0);
    reflexivity.
Defined.

End DistanceFacts.

(** ** [trigger_alert] on every input *)

Section AlertFacts.
Import Db.

Lemma trigger_alert_cases now ty msg la lo (t : New.tracker) :
  New.trigger_alert now ty msg la lo t
  = (Return tt,
     if formattable la && formattable lo then after_alert now ty msg la lo t else t).
Proof.
  unfold New.trigger_alert, catch, sbind, lift, gets, modify, ret, New.log_system_status,
    formattable.
  destruct (format_f la) as [[]|]; [|reflexivity].
  destruct (format_f lo) as [[]|]; [|reflexivity].
  cbn [andb]. unfold after_alert, sms_acknowledged.
  destruct t as [pid contacts interval en glat glon grad gsm cur locs als sys sms].
  simpl. destruct gsm as [m|]; simpl.
  - rewrite update_sms_sent_last. reflexivity.
  - rewrite update_sms_sent_last, app_nil_r. reflexivity.
Qed.

Lemma unformattable_not_number (v : pyval) :
  formattable v = false -> exists e, as_real v = Raise e.
Proof. destruct v; simpl; try discriminate; intros _; eexists; reflexivity. Qed.

Lemma format_f_number_formattable (v : pyval) (x : R) :
  as_real v = Return x -> formattable v = true.
Proof. intros H. unfold formattable. rewrite (format_f_number v x H). reflexivity. Qed.

Lemma next_rowid_fresh (rows : list alert) (a : alert) :
  In a rows -> (rowid a < next_rowid rows)%Z.
Proof. intros H. apply rowid_le_max in H. unfold next_rowid. lia. Qed.



Lemma sent_count_positive (modem : string -> bool) (numbers : list string) :
  (0 <? New.sms_sent_count modem numbers)%nat = existsb modem numbers.
Proof.
  unfold New.sms_sent_count. induction numbers as [|n numbers IH]; [reflexivity|].
  simpl. destruct (modem n); simpl; [reflexivity|exact IH].
Qed.

(** X4: the notifications of an alert that goes through: with a modem, one
    SMS attempt per emergency contact, in the order of the list, and the
    alert's [sms_sent] flag is set exactly when the modem acknowledges at
    least one of them; without a modem, no attempt and the flag stays 0. *)
Theorem X4_sms_one_attempt_per_contact now ty msg la lo (t : New.tracker) :
  formattable la && formattable lo = true ->
  exists a,
    New.alerts (snd (New.trigger_alert now ty msg la lo t)) = New.alerts t ++ [a]
    /\ sms_sent a
       = match New.gsm_serial t with
         | Some modem => existsb modem (New.emergency_contacts t)
         | None => false
         end
    /\ New.sms_attempts (snd (New.trigger_alert now ty msg la lo t))
       = New.sms_attempts t
           ++ match New.gsm_serial t with
              | Some _ => map (fun n => (n, msg)) (New.emergency_contacts t)
              | None => []
              end.
Proof.
  intros H. rewrite trigger_alert_cases, H. cbn [snd].
  eexists. split; [reflexivity|]. split; [|reflexivity].
  cbn [sms_sent]. unfold sms_acknowledged.
  destruct (New.gsm_serial t); [apply sent_count_positive|reflexivity].
Qed.

Lemma X4_sms_one_attempt_per_contact_witness :
  exists a,
    New.alerts (snd (New.trigger_alert 7 "GPS_LOST" (GpsLost 60) (PyInt 0) (PyInt 0)
                       (New.default (Some (String.eqb "+9175929912412")))))
    = [a]
    /\ sms_sent a = true
    /\ New.sms_attempts (snd (New.trigger_alert 7 "GPS_LOST" (GpsLost 60) (PyInt 0) (PyInt 0)
                                (New.default (Some (String.eqb "+9175929912412")))))
       = [("+918848776875"%string, GpsLost 60); ("+9175929912412"%string, GpsLost 60)].
Proof.
  exact (X4_sms_one_attempt_per_contact 7%Z "GPS_LOST" (GpsLost 60) (PyInt 0) (PyInt 0)
           (New.default (Some (String.eqb "+9175929912412"))) eq_refl).
Defined.

(** X5: a fix whose latitude or longitude is present but is [None] or a
    string: [calculate_distance] swallows the error and returns infinity,
    so [check_geofence] of [patient_tracker_new.py] reports the fix as
    outside the fence ([False]); the alert then fails on printing the
    coordinate, so no alert is persisted and nothing is sent. *)
Theorem X5_check_geofence_unprintable_coordinate now location la lo (t : New.tracker) :
  New.geofence_enabled t = true ->
  location !! "latitude" = Some la ->
  location !! "longitude" = Some lo ->
  formattable la && formattable lo = false ->
  New.calculate_distance la lo (PyFloat (New.geofence_lat t)) (PyFloat (New.geofence_lon t))
  = Infinite
  /\ New.check_geofence now location t = (Return false, t).
Proof.
  intros Hen Hla Hlo Hfmt.
  assert (Hd : New.calculate_distance la lo (PyFloat (New.geofence_lat t))
                 (PyFloat (New.geofence_lon t)) = Infinite).
  { unfold New.calculate_distance, radians.
    apply andb_false_iff in Hfmt. destruct Hfmt as [H|H];
      apply unformattable_not_number in H; destruct H as [e He].
    - rewrite He. reflexivity.
    - destruct (as_real la); [|reflexivity]. cbn [bind]. rewrite He. reflexivity. }
  split; [exact Hd|].
  unfold New.check_geofence. rewrite Hen. cbn [negb].
  unfold catch, sbind, lift, getitem. rewrite Hla, Hlo, Hd. cbn [New.exceeds].
  rewrite trigger_alert_cases, Hfmt. reflexivity.
Qed.

Lemma X5_check_geofence_unprintable_coordinate_witness :
  New.calculate_distance PyNone (PyFloat center_lon)
    (PyFloat (New.geofence_lat (New.default None)))
    (PyFloat (New.geofence_lon (New.default None))) = Infinite
  /\ New.check_geofence 3
       (<["latitude" := PyNone]> (<["longitude" := PyFloat center_lon]> ∅))
       (New.default None)
     = (Return false, New.default None).
Proof.
  apply (X5_check_geofence_unprintable_coordinate 3%Z
           (<["latitude" := PyNone]> (<["longitude" := PyFloat center_lon]> ∅))
           PyNone (PyFloat center_lon) (New.default None)); reflexivity.
Defined.

End AlertFacts.

(** ** What an iteration of the tracking loop can do *)

Section LoopFacts.
Import Db.

Lemma check_geofence_cases now d (t : New.tracker) :
  exists b t',
    New.check_geofence now d t = (Return b, t')
    /\ (t' = t
        \/ (b = false /\ New.geofence_enabled t = true
            /\ exists dist la lo,
                 t' = after_alert now "GEOFENCE_BREACH" (LeftSafeArea dist) la lo t)).
Proof.
  unfold New.check_geofence.
  destruct (New.geofence_enabled t) eqn:Hen; cbn [negb].
  2:{ exists true, t. split; [reflexivity|left; reflexivity]. }
  unfold catch, sbind, lift, ret.
  destruct (getitem d "latitude") as [la|].
  2:{ exists true, t. split; [reflexivity|left; reflexivity]. }
  destruct (getitem d "longitude") as [lo|].
  2:{ exists true, t. split; [reflexivity|left; reflexivity]. }
  destruct (New.exceeds _ _).
  2:{ exists true, t. split; [reflexivity|left; reflexivity]. }
  rewrite trigger_alert_cases.
  destruct (formattable la && formattable lo).
  - eexists false, _. split; [reflexivity|]. right. repeat split.
    eexists _, la, lo. reflexivity.
  - exists false, t. split; [reflexivity|left; reflexivity].
Qed.

Ltac step_unchanged :=
  intros ->; split; [split; [repeat split|split; [left; reflexivity|left; reflexivity]]
                    |reflexivity].

(** One iteration, on every input and every state. *)
Lemma cycle_cycle_step nmea now input (st : New.loop_state) :
  cycle_step now (New.self st) (New.self (New.cycle nmea now input st))
  /\ New.update_count (New.cycle nmea now input st) = (New.update_count st + 1)%Z.
Proof.
  remember (New.cycle nmea now input st) as st' eqn:E. revert E.
  unfold New.cycle, catch, New.cycle_body.
  unfold sbind at 1. unfold modify at 1.
  unfold sbind at 1. unfold New.on_self at 1. simpl New.self.
  destruct (get_gps_location_cases nmea now input (New.self st))
    as [Hnone|(raw_data & d & _ & Hparse & Hsome)].
  - rewrite Hnone.
    unfold sbind at 1. unfold modify at 1.
    unfold sbind at 1. unfold gets at 1. simpl.
    destruct (6 <=? _)%Z; [|step_unchanged].
    unfold sbind, gets. simpl.
    destruct (New.last_known (New.self st) "latitude") as [la|]; [|step_unchanged].
    destruct (New.last_known (New.self st) "longitude") as [lo|]; [|step_unchanged].
    unfold New.on_self. simpl. rewrite trigger_alert_cases.
    destruct (formattable la && formattable lo); simpl; [|step_unchanged].
    intros ->. split; [|reflexivity].
    split; [repeat split|]. split; [|left; reflexivity].
    right. eexists. split; [reflexivity|]. repeat split. left. reflexivity.
  - rewrite Hsome.
    unfold sbind at 1. unfold modify at 1.
    unfold sbind at 1. unfold lift at 1.
    destruct (New.display d) as [[]|e]; [|step_unchanged].
    unfold sbind at 1. unfold New.on_self at 1, New.store_location, modify at 1.
    cbn [New.self New.set_consecutive_failures New.update_count New.consecutive_failures
         New.set_update_count].
    change (New.set_locations _ _)
      with (after_store d (New.set_current_location (Some d) (New.self st))).
    set (t1 := after_store d (New.set_current_location (Some d) (New.self st))).
    unfold sbind at 1, gets at 1. cbn [New.self].
    destruct (New.geofence_enabled t1) eqn:Hen.
    2:{ intros ->. split; [|reflexivity]. split; [repeat split|].
        split; [left; reflexivity|right; eexists; reflexivity]. }
    unfold sbind at 1. unfold New.on_self at 1. cbn [New.self].
    destruct (check_geofence_cases now d t1) as (b & t2 & Hrun & Ht2). rewrite Hrun.
    assert (Hstep : cycle_step now (New.self st) t2).
    { destruct Ht2 as [->|(_ & _ & dist & la & lo & ->)].
      - split; [repeat split|]. split; [left; reflexivity|right; eexists; reflexivity].
      - split; [repeat split|]. split; [|right; eexists; reflexivity].
        right. eexists. split; [reflexivity|]. repeat split. right. split; [reflexivity|].
        exact Hen. }
    destruct b; [|intros ->; split; [exact Hstep|reflexivity]].
    unfold sbind, lift. destruct (getitem d "latitude");
      [|intros ->; split; [exact Hstep|reflexivity]].
    destruct (getitem d "longitude"); intros ->; (split; [exact Hstep|reflexivity]).
Qed.

Lemma same_config_trans (t1 t2 t3 : New.tracker) :
  same_config t1 t2 -> same_config t2 t3 -> same_config t1 t3.
Proof.
  unfold same_config. intros H12 H23.
  destruct H12 as (?&?&?&?&?&?&?&?), H23 as (?&?&?&?&?&?&?&?).
  repeat split; congruence.
Qed.

Lemma same_config_refl (t : New.tracker) : same_config t t.
Proof. repeat split. Qed.


(** X6: the tracking loop only ever appends to the tables: after any run of
    polls, whatever they read and whatever the sentence parser does, the
    alert table and the location table are the old tables followed by the
    new rows; no stored row is changed or removed.  Each iteration adds at
    most one alert and at most one location, every new alert is
    unresolved, the configuration is untouched, and the iteration counter
    has advanced by the number of polls. *)
Theorem X6_tracking_loop_appends_only nmea (polls : list (Z * New.gps_input))
    (st : New.loop_state) :
  exists new_alerts new_locations,
    New.alerts (New.self (New.tracking_loop nmea polls st))
    = New.alerts (New.self st) ++ new_alerts
    /\ New.locations (New.self (New.tracking_loop nmea polls st))
       = New.locations (New.self st) ++ new_locations
    /\ (length new_alerts <= length polls)%nat
    /\ (length new_locations <= length polls)%nat
    /\ Forall (fun a => resolved a = false) new_alerts
    /\ same_config (New.self st) (New.self (New.tracking_loop nmea polls st))
    /\ New.update_count (New.tracking_loop nmea polls st)
       = (New.update_count st + Z.of_nat (length polls))%Z.
Proof.
  revert st. induction polls as [|[now input] polls IH]; intros st.
  - exists [], []. cbn [New.tracking_loop fold_left length]. rewrite !app_nil_r.
    repeat split; try constructor. lia.
  - change (New.tracking_loop nmea ((now, input) :: polls) st)
      with (New.tracking_loop nmea polls (New.cycle nmea now input st)).
    destruct (cycle_cycle_step nmea now input st) as ((Hcfg & Hal & Hloc) & Hcount).
    destruct (IH (New.cycle nmea now input st))
      as (als & locs & Ha & Hl & Hna & Hnl & Hres & Hcfg' & Hcount').
    assert (Ha1 : exists a1, New.alerts (New.self (New.cycle nmea now input st))
                             = New.alerts (New.self st) ++ a1
                             /\ (length a1 <= 1)%nat
                             /\ Forall (fun a => resolved a = false) a1).
    { destruct Hal as [->|(a & -> & _ & Hr & _)].
      - exists []. rewrite app_nil_r. repeat split; [simpl; lia|constructor].
      - exists [a]. repeat split; [simpl; lia|]. constructor; [exact Hr|constructor]. }
    assert (Hl1 : exists l1, New.locations (New.self (New.cycle nmea now input st))
                             = New.locations (New.self st) ++ l1
                             /\ (length l1 <= 1)%nat).
    { destruct Hloc as [->|(row & ->)].
      - exists []. rewrite app_nil_r. split; [reflexivity|simpl; lia].
      - exists [row]. split; [reflexivity|simpl; lia]. }
    destruct Ha1 as (a1 & Ea1 & La1 & Ra1). destruct Hl1 as (l1 & El1 & Ll1).
    exists (a1 ++ als), (l1 ++ locs).
    rewrite Ha, Hl, Ea1, El1, <- !app_assoc, !length_app.
    split; [reflexivity|]. split; [reflexivity|].
    split; [simpl; lia|]. split; [simpl; lia|].
    split; [apply Forall_app; split; assumption|].
    split; [eapply same_config_trans; eassumption|].
    rewrite Hcount', Hcount. cbn [length]. lia.
Qed.

Lemma increasing_snoc (ids : list Z) (i : Z) :
  increasing ids -> Forall (fun j => (j < i)%Z) ids -> increasing (ids ++ [i]).
Proof.
  induction ids as [|j ids IH]; simpl; intros Hinc Hall.
  - split; [constructor|exact I].
  - destruct Hinc as [Hj Hinc]. inversion Hall as [|? ? Hji Hrest]; subst.
    split.
    + apply Forall_app. split; [exact Hj|]. constructor; [exact Hji|constructor].
    + apply IH; assumption.
Qed.

Lemma increasing_NoDup (ids : list Z) : increasing ids -> NoDup ids.
Proof.
  induction ids as [|i ids IH]; simpl; intros H; [constructor|].
  destruct H as [Hi Hinc]. constructor.
  - intros Hin. apply list_elem_of_In in Hin.
    rewrite List.Forall_forall in Hi. specialize (Hi i Hin). lia.
  - apply IH, Hinc.
Qed.

Lemma alerts_step_increasing now (t t' : New.tracker) :
  alerts_step now t t' ->
  increasing (map rowid (New.alerts t)) ->
  increasing (map rowid (New.alerts t')).
Proof.
  intros [->|(a & -> & Hid & _)] Hinc; [exact Hinc|].
  rewrite map_app. simpl. apply increasing_snoc; [exact Hinc|].
  apply List.Forall_forall. intros j Hj. apply in_map_iff in Hj.
  destruct Hj as (b & <- & Hb). rewrite Hid. apply next_rowid_fresh, Hb.
Qed.

(** X7: alert ids stay unique and in insertion order: if the ids of the
    alert table increase strictly from row to row (as they do in a table
    that only [trigger_alert] has written), they still do after any run of
    the tracking loop; in particular no two alerts share an id, so
    [mark_alert_resolved] addresses at most one alert. *)
Theorem X7_alert_ids_stay_unique nmea (polls : list (Z * New.gps_input))
    (st : New.loop_state) :
  increasing (map rowid (New.alerts (New.self st))) ->
  increasing (map rowid (New.alerts (New.self (New.tracking_loop nmea polls st))))
  /\ NoDup (map rowid (New.alerts (New.self (New.tracking_loop nmea polls st)))).
Proof.
  intros Hinc.
  assert (H : increasing
                (map rowid (New.alerts (New.self (New.tracking_loop nmea polls st))))).
  { revert st Hinc. induction polls as [|[now input] polls IH]; intros st Hinc.
    - exact Hinc.
    - change (New.tracking_loop nmea ((now, input) :: polls) st)
        with (New.tracking_loop nmea polls (New.cycle nmea now input st)).
      apply IH.
      destruct (cycle_cycle_step nmea now input st) as ((_ & Hal & _) & _).
      eapply alerts_step_increasing; eassumption. }
  split; [exact H|apply increasing_NoDup, H].
Qed.

Lemma X7_alert_ids_stay_unique_witness :
  NoDup (map rowid (New.alerts (New.self (New.tracking_loop sample_nmea
     [(10, New.NoBytes); (20, New.Bytes sample_gga); (30, New.ReadError)]%Z
     (New.start (New.default None)))))).
Proof.
  apply (X7_alert_ids_stay_unique sample_nmea
           [(10, New.NoBytes); (20, New.Bytes sample_gga); (30, New.ReadError)]%Z
           (New.start (New.default None))).
  exact I.
Defined.

Lemma of_type_app ty (l1 l2 : list alert) :
  of_type ty (l1 ++ l2) = of_type ty l1 ++ of_type ty l2.
Proof. unfold of_type. apply List.filter_app. Qed.

(** X8: with the geofence disabled the tracking loop never creates a
    GEOFENCE_BREACH alert, whatever fixes it decodes: after any run of polls
    the breach alerts in the table are those that were there before. *)
Theorem X8_disabled_loop_never_alerts_breach nmea (polls : list (Z * New.gps_input))
    (st : New.loop_state) :
  New.geofence_enabled (New.self st) = false ->
  of_type "GEOFENCE_BREACH" (New.alerts (New.self (New.tracking_loop nmea polls st)))
  = of_type "GEOFENCE_BREACH" (New.alerts (New.self st)).
Proof.
  revert st. induction polls as [|[now input] polls IH]; intros st Hoff; [reflexivity|].
  change (New.tracking_loop nmea ((now, input) :: polls) st)
    with (New.tracking_loop nmea polls (New.cycle nmea now input st)).
  destruct (cycle_cycle_step nmea now input st) as ((Hcfg & Hal & _) & _).
  destruct Hcfg as (_ & _ & _ & Hen & _).
  rewrite IH by (rewrite Hen; exact Hoff).
  destruct Hal as [->|(a & -> & _ & _ & _ & [Hty|[_ Hon]])]; [reflexivity| |congruence].
  rewrite of_type_app. unfold of_type at 2. cbn [List.filter]. rewrite Hty.
  cbn. apply app_nil_r.
Qed.

Lemma X8_disabled_loop_never_alerts_breach_witness :
  of_type "GEOFENCE_BREACH"
    (New.alerts (New.self (New.tracking_loop sample_nmea
       [(10, New.Bytes sample_gga); (20, New.Bytes sample_rmc)]%Z
       (New.start (geofence_off (New.default None))))))
  = [].
Proof.
  apply (X8_disabled_loop_never_alerts_breach sample_nmea
           [(10, New.Bytes sample_gga); (20, New.Bytes sample_rmc)]%Z
           (New.start (geofence_off (New.default None)))).
  reflexivity.
Defined.

End LoopFacts.

(** ** Polls without a fix, polls with a fix *)

Section PollFacts.
Import Db.

Lemma cycle_no_fix_alert nmea now input (st : New.loop_state) la lo :
  no_fix nmea (now, input) ->
  (6 <= New.consecutive_failures st + 1)%Z ->
  New.last_known (New.self st) "latitude" = Return la ->
  New.last_known (New.self st) "longitude" = Return lo ->
  New.cycle nmea now input st
  = New.LoopState
      (if formattable la && formattable lo
       then after_alert now "GPS_LOST"
              (GpsLost ((New.consecutive_failures st + 1) * New.update_interval (New.self st)))
              la lo (New.self st)
       else New.self st)
      (New.update_count st + 1) (New.consecutive_failures st + 1).
Proof.
  intros Hno Hge Hla Hlo.
  unfold New.cycle, catch, New.cycle_body.
  unfold sbind at 1. unfold modify at 1.
  unfold sbind at 1. unfold New.on_self at 1. simpl New.self.
  rewrite (get_gps_location_no_fix _ _ _ _ Hno).
  unfold sbind at 1. unfold modify at 1.
  unfold sbind at 1. unfold gets at 1. simpl.
  destruct (Z.leb_spec 6 (New.consecutive_failures st + 1)); [|lia].
  unfold sbind, gets. simpl. rewrite Hla, Hlo.
  unfold New.on_self. simpl. rewrite trigger_alert_cases. reflexivity.
Qed.

(** Once the threshold is reached the position-lost alert is repeated
    on every poll: from a failure counter of at least 5, each further poll
    without a fix adds one more GPS_LOST alert, and the k-th of them
    reports (counter + k) update intervals. *)
Lemma tracking_loop_no_fix_above nmea (polls : list (Z * New.gps_input))
    (st : New.loop_state) :
  Forall (no_fix nmea) polls ->
  current_location_ok (New.self st) ->
  (5 <= New.consecutive_failures st)%Z ->
  exists added,
    New.alerts (New.self (New.tracking_loop nmea polls st))
    = New.alerts (New.self st) ++ added
    /\ map alert_type added = repeat "GPS_LOST"%string (length polls)
    /\ map message added
       = map (fun k => GpsLost ((New.consecutive_failures st + Z.of_nat k)
                                * New.update_interval (New.self st)))
             (seq 1 (length polls)).
Proof.
  revert st. induction polls as [|[now input] polls IH]; intros st Hall Hok Hcf.
  - exists []. simpl. rewrite app_nil_r. repeat split.
  - inversion Hall as [|? ? Hp Hps]; subst.
    change (New.tracking_loop nmea ((now, input) :: polls) st)
      with (New.tracking_loop nmea polls (New.cycle nmea now input st)).
    destruct (cycle_no_fix_threshold nmea now input st Hp) as (la & lo & Hcycle);
      [lia|exact Hok|].
    rewrite Hcycle. set (st1 := New.LoopState _ _ _).
    destruct (IH st1 Hps) as (added & Ha & Hty & Hmsg); [exact Hok|simpl; lia|].
    rewrite Ha. subst st1. cbn [New.self New.alerts after_alert].
    rewrite <- app_assoc. eexists. split; [reflexivity|].
    cbn [app map length repeat seq alert_type message].
    split; [f_equal; exact Hty|].
    f_equal.
    rewrite Hmsg. cbn [New.consecutive_failures New.self New.update_interval after_alert].
    rewrite <- (seq_shift (length polls) 1), map_map. apply map_ext. intros k. do 2 f_equal. lia.
Qed.

(** X9: the position-lost alert is level-triggered too: in a run of n
    consecutive polls without a fix from the start of [tracking_loop], the
    first five add nothing and each later one adds a GPS_LOST alert, n - 5
    in all; the k-th reports (5 + k) update intervals. *)
Theorem X9_gps_lost_repeats_every_poll nmea (t : New.tracker)
    (polls : list (Z * New.gps_input)) :
  current_location_ok t ->
  Forall (no_fix nmea) polls ->
  exists added,
    New.alerts (New.self (New.tracking_loop nmea polls (New.start t)))
    = New.alerts t ++ added
    /\ length added = (length polls - 5)%nat
    /\ map alert_type added = repeat "GPS_LOST"%string (length polls - 5)
    /\ map message added
       = map (fun k => GpsLost ((5 + Z.of_nat k) * New.update_interval t))
             (seq 1 (length polls - 5)).
Proof.
  intros Hok Hall.
  assert (Hrun : New.tracking_loop nmea polls (New.start t)
                 = New.tracking_loop nmea (skipn 5 polls)
                     (New.tracking_loop nmea (firstn 5 polls) (New.start t))).
  { rewrite <- (firstn_skipn 5 polls) at 1. unfold New.tracking_loop.
    apply fold_left_app. }
  assert (Hfirst : Forall (no_fix nmea) (firstn 5 polls)).
  { rewrite <- (firstn_skipn 5 polls) in Hall. apply Forall_app in Hall. apply Hall. }
  assert (Hrest : Forall (no_fix nmea) (skipn 5 polls)).
  { rewrite <- (firstn_skipn 5 polls) in Hall. apply Forall_app in Hall. apply Hall. }
  rewrite Hrun.
  destruct (Nat.le_gt_cases 5 (length polls)) as [Hlen|Hlen].
  - assert (Hl5 : length (firstn 5 polls) = 5%nat)
      by (rewrite length_firstn; apply Nat.min_l; exact Hlen).
    rewrite (tracking_loop_no_fix_below nmea (firstn 5 polls) (New.start t) Hfirst)
      by (rewrite Hl5; cbn; lia).
    rewrite Hl5.
    change (New.LoopState (New.self (New.start t))
              (New.update_count (New.start t) + Z.of_nat 5)
              (New.consecutive_failures (New.start t) + Z.of_nat 5))
      with (New.LoopState t 5 5).
    destruct (tracking_loop_no_fix_above nmea (skipn 5 polls) (New.LoopState t 5 5)
                Hrest Hok) as (added & Ha & Hty & Hmsg); [simpl; lia|].
    rewrite length_skipn in Hty, Hmsg.
    exists added. split; [exact Ha|]. split; [|split; [exact Hty|exact Hmsg]].
    rewrite <- (length_map alert_type), Hty. apply repeat_length.
  - assert (Hskip : skipn 5 polls = []) by (apply skipn_all2; lia).
    rewrite Hskip. cbn [New.tracking_loop fold_left].
    assert (Hl : length (firstn 5 polls) = length polls)
      by (rewrite length_firstn; apply Nat.min_r; lia).
    rewrite (tracking_loop_no_fix_below nmea (firstn 5 polls) (New.start t) Hfirst)
      by (rewrite Hl; cbn; lia).
    replace (length polls - 5)%nat with 0%nat by lia.
    exists []. cbn. rewrite app_nil_r. repeat split.
Qed.

Lemma X9_gps_lost_repeats_every_poll_witness :
  exists added,
    New.alerts (New.self (New.tracking_loop sample_nmea
       [(10, New.NoBytes); (20, New.NoBytes); (30, New.NoBytes); (40, New.NoBytes);
        (50, New.NoBytes); (60, New.NoBytes); (70, New.NoBytes); (80, New.ReadError)]%Z
       (New.start (New.default None))))
    = New.alerts (New.default None) ++ added
    /\ length added = 3%nat
    /\ map alert_type added = ["GPS_LOST"; "GPS_LOST"; "GPS_LOST"]%string
    /\ map message added = [GpsLost 60; GpsLost 70; GpsLost 80].
Proof.
  exact (X9_gps_lost_repeats_every_poll sample_nmea (New.default None)
           [(10, New.NoBytes); (20, New.NoBytes); (30, New.NoBytes); (40, New.NoBytes);
            (50, New.NoBytes); (60, New.NoBytes); (70, New.NoBytes); (80, New.ReadError)]%Z
           I ltac:(repeat constructor)).
Defined.

(** X10: the position-lost alert carries the last known coordinates: with no
    fix ever decoded (or an empty last location) it is raised at (0, 0);
    otherwise at the latitude and longitude of the last decoded fix. *)
Theorem X10_gps_lost_uses_last_known nmea now input (st : New.loop_state) :
  no_fix nmea (now, input) ->
  (6 <= New.consecutive_failures st + 1)%Z ->
  (New.current_location (New.self st) = None ->
   exists sent,
     New.alerts (New.self (New.cycle nmea now input st))
     = New.alerts (New.self st)
         ++ [Alert (next_rowid (New.alerts (New.self st))) (New.patient_id (New.self st))
               "GPS_LOST"
               (GpsLost ((New.consecutive_failures st + 1)
                         * New.update_interval (New.self st)))
               (PyInt 0) (PyInt 0) now sent false])
  /\ (forall d la lo x y,
      New.current_location (New.self st) = Some d ->
      d !! "latitude" = Some la -> d !! "longitude" = Some lo ->
      as_real la = Return x -> as_real lo = Return y ->
      exists sent,
        New.alerts (New.self (New.cycle nmea now input st))
        = New.alerts (New.self st)
            ++ [Alert (next_rowid (New.alerts (New.self st)))
                  (New.patient_id (New.self st)) "GPS_LOST"
                  (GpsLost ((New.consecutive_failures st + 1)
                            * New.update_interval (New.self st)))
                  la lo now sent false]).
Proof.
  intros Hno Hge. split.
  - intros Hnone.
    rewrite (cycle_no_fix_alert nmea now input st (PyInt 0) (PyInt 0) Hno Hge)
      by (unfold New.last_known; rewrite Hnone; reflexivity).
    eexists. reflexivity.
  - intros d la lo x y Hd Hla Hlo Hx Hy.
    assert (Htr : dict_truthy d = true).
    { apply (located_truthy d x y). exists la, lo. auto. }
    rewrite (cycle_no_fix_alert nmea now input st la lo Hno Hge)
      by (unfold New.last_known, getitem; rewrite Hd, Htr; first [rewrite Hla|rewrite Hlo];
          reflexivity).
    rewrite (format_f_number_formattable la x Hx), (format_f_number_formattable lo y Hy).
    eexists. reflexivity.
Qed.

Lemma X10_gps_lost_uses_last_known_witness :
  exists sent,
    New.alerts (New.self (New.cycle sample_nmea 60 New.NoBytes
                            (New.LoopState (New.default None) 5 5)))
    = [Alert 1 "PATIENT001" "GPS_LOST" (GpsLost 60) (PyInt 0) (PyInt 0) 60 sent false].
Proof.
  apply (proj1 (X10_gps_lost_uses_last_known sample_nmea 60%Z New.NoBytes
                  (New.LoopState (New.default None) 5 5) I ltac:(cbn; lia))).
  reflexivity.
Defined.

(** What [get_gps_location] does with text that decodes. *)
Lemma get_gps_location_decoded nmea now raw_data d (t : New.tracker) :
  New.parse_gps_data nmea now raw_data = Return (Some d) ->
  dict_truthy d = true ->
  New.get_gps_location nmea now (New.Bytes raw_data) t
  = (Return (Some d), New.set_current_location (Some d) t).
Proof.
  intros Hparse Htr. unfold New.get_gps_location, catch, sbind, lift.
  rewrite Hparse, Htr. reflexivity.
Qed.

(** X11: a decoded fix that cannot be printed is dropped: when a print of the
    fix raises (an altitude or speed that is text, a fix quality that does
    not compare with 1), the iteration ends before [store_location]; the fix
    is neither stored nor checked against the geofence and no alert is
    created, although it has already become the last known location and
    has reset the failure counter. *)
Theorem X11_unprintable_fix_is_dropped nmea now raw_data d e (st : New.loop_state) :
  New.parse_gps_data nmea now raw_data = Return (Some d) ->
  dict_truthy d = true ->
  New.display d = Raise e ->
  New.cycle nmea now (New.Bytes raw_data) st
  = New.LoopState (New.set_current_location (Some d) (New.self st))
                  (New.update_count st + 1) 0.
Proof.
  intros Hparse Htr Hdisp.
  unfold New.cycle, catch, New.cycle_body.
  unfold sbind at 1. unfold modify at 1.
  unfold sbind at 1. unfold New.on_self at 1. simpl New.self.
  rewrite (get_gps_location_decoded _ _ _ _ _ Hparse Htr).
  unfold sbind at 1. unfold modify at 1.
  unfold sbind at 1. unfold lift at 1. rewrite Hdisp. reflexivity.
Qed.

Lemma bad_altitude_decodes :
  exists d,
    New.parse_gps_data bad_altitude_nmea 20 bad_altitude_gga = Return (Some d)
    /\ dict_truthy d = true
    /\ New.display d = Raise ValueError.
Proof.
  exists (<["latitude" := PyFloat (48 + 7038 / 1000 / 60)]>
            (<["longitude" := PyFloat (11 + 31 / 60)]>
            (<["altitude" := PyStr "54x.4"]>
            (<["timestamp" := PyDatetime 20]>
            (<["satellites" := PyStr "08"]>
            (<["fix_quality" := PyInt 1]>
            (<["hdop" := PyNone]> ∅))))))).
  split; [vm_compute; reflexivity|]. split; [vm_compute; reflexivity|].
  vm_compute. reflexivity.
Qed.

Lemma X11_unprintable_fix_is_dropped_witness :
  New.locations (New.self (New.cycle bad_altitude_nmea 20 (New.Bytes bad_altitude_gga)
                             (New.start (New.default None)))) = []
  /\ New.alerts (New.self (New.cycle bad_altitude_nmea 20 (New.Bytes bad_altitude_gga)
                             (New.start (New.default None)))) = [].
Proof.
  destruct bad_altitude_decodes as (d & Hparse & Htr & Hdisp).
  rewrite (X11_unprintable_fix_is_dropped bad_altitude_nmea 20%Z bad_altitude_gga d
             ValueError (New.start (New.default None)) Hparse Htr Hdisp).
  split; reflexivity.
Defined.

(** X12: a decoded fix that prints is stored once, with its own values: the
    iteration appends exactly one row to [locations] holding the
    coordinates (and the other fields) of the fix as decoded, the fix
    becomes the last known location and the failure counter is 0, whether
    the fix is inside or outside the fence and whether or not the geofence
    is enabled. *)
Theorem X12_decoded_fix_is_stored nmea now input d x y (st : New.loop_state) :
  poll_decodes nmea (now, input) d x y ->
  New.locations (New.self (New.cycle nmea now input st))
  = New.locations (New.self st)
      ++ [LocationRow (New.patient_id (New.self st)) (get d "latitude")
            (get d "longitude") (get d "altitude") (get d "speed") (get d "timestamp")
            (get d "satellites") (get d "hdop")]
  /\ (exists la lo, get d "latitude" = la /\ get d "longitude" = lo
                    /\ as_real la = Return x /\ as_real lo = Return y)
  /\ New.current_location (New.self (New.cycle nmea now input st)) = Some d
  /\ New.consecutive_failures (New.cycle nmea now input st) = 0%Z.
Proof.
  intros (raw & Hin & Hparse & Hdisp & Hloc). simpl in Hin, Hparse. subst input.
  assert (Hcoord : exists la lo, get d "latitude" = la /\ get d "longitude" = lo
                                 /\ as_real la = Return x /\ as_real lo = Return y).
  { destruct Hloc as (la & lo & Hla & Hlo & Hx & Hy). exists la, lo.
    unfold get. rewrite Hla, Hlo. auto. }
  remember (New.cycle nmea now (New.Bytes raw) st) as st' eqn:E. revert E.
  unfold New.cycle, catch, New.cycle_body.
  unfold sbind at 1. unfold modify at 1.
  unfold sbind at 1. unfold New.on_self at 1. simpl New.self.
  rewrite (get_gps_location_fix _ _ _ _ _ _ _ Hparse Hloc).
  unfold sbind at 1. unfold modify at 1.
  unfold sbind at 1. unfold lift at 1. rewrite Hdisp.
  unfold sbind at 1. unfold New.on_self at 1, New.store_location, modify at 1.
  cbn [New.self New.set_consecutive_failures New.update_count New.consecutive_failures
       New.set_update_count].
  change (New.set_locations _ _)
    with (after_store d (New.set_current_location (Some d) (New.self st))).
  set (t1 := after_store d (New.set_current_location (Some d) (New.self st))).
  unfold sbind at 1, gets at 1. cbn [New.self].
  destruct (New.geofence_enabled t1) eqn:Hen.
  2:{ intros ->. repeat split; try reflexivity. exact Hcoord. }
  unfold sbind at 1. unfold New.on_self at 1. cbn [New.self].
  destruct (check_geofence_cases now d t1) as (b & t2 & Hrun & Ht2). rewrite Hrun.
  assert (Hfacts : New.locations t2 = New.locations t1
                   /\ New.current_location t2 = Some d).
  { destruct Ht2 as [->|(_ & _ & dist & la & lo & ->)]; split; reflexivity. }
  destruct Hfacts as [Hl2 Hc2].
  destruct b.
  - unfold sbind, lift. destruct Hloc as (la & lo & Hla & Hlo & _).
    unfold getitem. rewrite Hla, Hlo. intros ->. cbn.
    rewrite Hl2, Hc2. repeat split; try reflexivity. exact Hcoord.
  - intros ->. cbn. rewrite Hl2, Hc2. repeat split; try reflexivity. exact Hcoord.
Qed.

Lemma sample_gga_poll_decodes :
  poll_decodes sample_nmea (20%Z, New.Bytes sample_gga)
    (<["latitude" := PyFloat (48 + 7038 / 1000 / 60)]>
       (<["longitude" := PyFloat (11 + 31 / 60)]>
       (<["altitude" := PyFloat (5454 / 10)]>
       (<["timestamp" := PyDatetime 20]>
       (<["satellites" := PyStr "08"]>
       (<["fix_quality" := PyInt 1]>
       (<["hdop" := PyNone]> ∅)))))))
    (48 + 7038 / 1000 / 60) (11 + 31 / 60).
Proof.
  exists sample_gga. split; [reflexivity|]. split; [vm_compute; reflexivity|]. split.
  - unfold New.display, getitem, get.
    repeat (rewrite ?lookup_insert_eq, ?lookup_insert_ne by discriminate; cbn [bind format_f]).
    assert (Ht : truthy (PyFloat (5454 / 10)) = true).
    { simpl. destruct (Req_dec_T (5454 / 10) 0); [lra|reflexivity]. }
    rewrite Ht. cbn [bind format_f].
    rewrite ?lookup_insert_eq, ?lookup_insert_ne, ?lookup_empty by discriminate.
    cbn [truthy bind format_f negb Z.eqb ge_one as_real].
    reflexivity.
  - eexists _, _. repeat split; reflexivity.
Qed.

Lemma X12_decoded_fix_is_stored_witness :
  exists row,
    New.locations (New.self (New.cycle sample_nmea 20 (New.Bytes sample_gga)
                               (New.start (New.default None)))) = [row]
    /\ loc_latitude row = PyFloat (48 + 7038 / 1000 / 60)
    /\ loc_longitude row = PyFloat (11 + 31 / 60).
Proof.
  destruct (X12_decoded_fix_is_stored sample_nmea 20%Z (New.Bytes sample_gga) _ _ _
              (New.start (New.default None)) sample_gga_poll_decodes) as (Hl & _).
  rewrite Hl. eexists. split; [reflexivity|]. split; reflexivity.
Defined.

End PollFacts.

(** ** The dashboard *)

Section DashboardFacts.
Import Db.
Local Open Scope R_scope.





End DashboardFacts.

Section DashboardStatus.
Import Db.
Local Open Scope R_scope.





(** X15: the answers of [get_geofence_status] that need no distance, and its
    failure.  With the geofence disabled the answer is [{'enabled': False}]
    whatever the table holds; enabled and with an empty table it is
    ['unknown']; enabled and with a latest row whose latitude or longitude
    is not a number (a NULL column, say) the request raises. *)
Theorem X15_dashboard_status_edges (g : Old.geofence) :
  (Old.enabled g = false ->
   forall location, DashboardApi.get_geofence_status g location
                    = Return DashboardApi.StatusDisabled)
  /\ (Old.enabled g = true ->
      DashboardApi.get_geofence_status g None = Return DashboardApi.StatusUnknown
      /\ forall row,
           formattable (OldLoop.loc_latitude row)
           && formattable (OldLoop.loc_longitude row) = false ->
           exists e, DashboardApi.get_geofence_status g (Some row) = Raise e).
Proof.
  split; [|split].
  - intros Hen location. unfold DashboardApi.get_geofence_status. rewrite Hen. reflexivity.
  - unfold DashboardApi.get_geofence_status. rewrite H. reflexivity.
  - intros row Hrow. unfold DashboardApi.get_geofence_status. rewrite H. cbn [negb].
    destruct (DashboardApi.calculate_distance (OldLoop.loc_latitude row)
                (OldLoop.loc_longitude row) (Old.latitude g) (Old.longitude g))
      as [dist|e] eqn:Hd; [|exists e; reflexivity].
    exfalso. revert Hd.
    unfold DashboardApi.calculate_distance, DashboardApi.sub, radians.
    destruct (as_real (OldLoop.loc_latitude row)) as [x|] eqn:Hx; [|discriminate].
    destruct (as_real (Old.latitude g)) as [cx|]; [|discriminate].
    destruct (as_real (Old.longitude g)) as [cy|]; [|discriminate].
    destruct (as_real (OldLoop.loc_longitude row)) as [y|] eqn:Hy; [|discriminate].
    rewrite (format_f_number_formattable _ x Hx), (format_f_number_formattable _ y Hy) in Hrow.
    discriminate.
Qed.

Lemma X15_dashboard_status_edges_witness :
  DashboardApi.get_geofence_status (Old.config_geofence Old.default) None
  = Return DashboardApi.StatusUnknown
  /\ exists e,
       DashboardApi.get_geofence_status (Old.config_geofence Old.default)
         (Some (OldLoop.LocationRow "PATIENT001" PyNone (PyFloat 0) PyNone PyNone
                  (PyDatetime 0) (PyFloat 10)))
       = Raise e.
Proof.
  destruct (proj2 (X15_dashboard_status_edges (Old.config_geofence Old.default)) eq_refl)
    as [Hnone Hrow].
  split; [exact Hnone|]. apply Hrow. reflexivity.
Defined.

End DashboardStatus.

(** ** Resolving alerts *)

Section Resolving.
Import Db.

Lemma set_resolved_resolved a : resolved a = true -> set_resolved true a = a.
Proof. destruct a as [i p ty m la lo ts s r]. simpl. intros ->. reflexivity. Qed.

Lemma mark_alert_resolved_unchanged i rows :
  (forall a, In a rows -> rowid a = i -> resolved a = true) ->
  Dashboard.mark_alert_resolved (Some i) rows = rows.
Proof.
  intros H. unfold Dashboard.mark_alert_resolved.
  induction rows as [|b rows IH]; [reflexivity|].
  cbn [map]. rewrite IH by (intros a Ha; apply H; right; exact Ha). f_equal.
  destruct (Z.eqb_spec (rowid b) i) as [Hi|_]; [|reflexivity].
  apply set_resolved_resolved. apply H; [left; reflexivity|exact Hi].
Qed.

Lemma mark_alert_resolved_app alert_id rows rows' :
  Dashboard.mark_alert_resolved alert_id (rows ++ rows')
  = Dashboard.mark_alert_resolved alert_id rows
    ++ Dashboard.mark_alert_resolved alert_id rows'.
Proof. destruct alert_id as [i|]; [apply map_app|reflexivity]. Qed.

(** X16: resolving an alert changes nothing but the [resolved] flag of the rows
    with that id: the table keeps its length, every row keeps its other
    columns, a row is resolved afterwards exactly when it was resolved
    before or has the given id (no alert is reopened), and resolving twice
    is the same as resolving once.  A request without [alert_id] changes
    nothing. *)
Theorem X16_mark_alert_resolved_only_sets_flag (alert_id : option Z) (rows : list alert) :
  let rows' := Dashboard.mark_alert_resolved alert_id rows in
  length rows' = length rows
  /\ (forall k a, nth_error rows k = Some a ->
        exists a',
          nth_error rows' k = Some a'
          /\ set_resolved (resolved a') a = a'
          /\ (resolved a' = true <-> resolved a = true \/ alert_id = Some (rowid a)))
  /\ Dashboard.mark_alert_resolved alert_id rows' = rows'
  /\ (alert_id = None -> rows' = rows).
Proof.
  destruct alert_id as [i|]; cbn zeta.
  - split; [apply length_map|]. split; [|split; [|discriminate]].
    + intros k a Hk. unfold Dashboard.mark_alert_resolved.
      rewrite nth_error_map, Hk. cbn [option_map].
      eexists. split; [reflexivity|].
      destruct (Z.eqb_spec (rowid a) i) as [Hi|Hi].
      * split; [destruct a; reflexivity|].
        split; [intros _; right; congruence|reflexivity].
      * split; [destruct a; reflexivity|].
        split; [intros H; left; exact H|].
        intros [H|H]; [exact H|]. exfalso. apply Hi. congruence.
    + unfold Dashboard.mark_alert_resolved. rewrite map_map. apply map_ext.
      intros a. destruct (Z.eqb (rowid a) i) eqn:Hi; [|rewrite Hi; reflexivity].
      destruct a as [i0 p ty m la lo ts sm r]. cbn in Hi |- *. rewrite Hi. reflexivity.
  - split; [reflexivity|]. split; [|split; reflexivity].
    intros k a Hk. exists a. split; [exact Hk|]. split; [destruct a; reflexivity|].
    split; [intros H; left; exact H|]. intros [H|H]; [exact H|discriminate].
Qed.

Lemma X16_mark_alert_resolved_only_sets_flag_witness :
  Dashboard.mark_alert_resolved None (New.alerts (after_alert 0 "GEOFENCE_BREACH" (GpsLost 0) (PyFloat 0) (PyFloat 0) (New.default None)))
  = New.alerts (after_alert 0 "GEOFENCE_BREACH" (GpsLost 0) (PyFloat 0) (PyFloat 0) (New.default None)).
Proof.
  apply (X16_mark_alert_resolved_only_sets_flag None (New.alerts (after_alert 0 "GEOFENCE_BREACH" (GpsLost 0) (PyFloat 0) (PyFloat 0) (New.default None)))).
  reflexivity.
Defined.

Lemma open_alerts_app rows rows' :
  open_alerts (rows ++ rows') = open_alerts rows ++ open_alerts rows'.
Proof. apply List.filter_app. Qed.

Lemma mark_alert_resolved_absent i rows :
  ~ In i (map rowid rows) -> Dashboard.mark_alert_resolved (Some i) rows = rows.
Proof.
  intros H. apply mark_alert_resolved_unchanged. intros a Ha Hi.
  exfalso. apply H. apply in_map_iff. exists a. split; assumption.
Qed.



(** X18: an alert the tracker raises can be resolved without touching any other
    row: after [trigger_alert] with printable coordinates, resolving the id
    of the new row leaves every earlier row as it was and the open alerts
    are those that were open before the alert. *)
Theorem X18_resolving_the_new_alert (now : Z) (ty : string) (msg : alert_message)
    (la lo : pyval) (t : New.tracker) :
  formattable la && formattable lo = true ->
  let t' := snd (New.trigger_alert now ty msg la lo t) in
  let rows' := Dashboard.mark_alert_resolved (Some (next_rowid (New.alerts t)))
                 (New.alerts t') in
  exists a,
    rows' = New.alerts t ++ [a]
    /\ rowid a = next_rowid (New.alerts t) /\ alert_type a = ty /\ resolved a = true
    /\ open_alerts rows' = open_alerts (New.alerts t).
Proof.
  intros Hf t' rows'. subst rows' t'.
  rewrite trigger_alert_cases, Hf. cbn [snd].
  change (New.alerts (after_alert now ty msg la lo t))
    with (New.alerts t
          ++ [Alert (next_rowid (New.alerts t)) (New.patient_id t) ty msg la lo now
                (sms_acknowledged t) false]).
  rewrite mark_alert_resolved_app.
  rewrite mark_alert_resolved_absent.
  2:{ intros Hin. apply in_map_iff in Hin. destruct Hin as (b & Hb & Hin).
      apply next_rowid_fresh in Hin. lia. }
  cbn [Dashboard.mark_alert_resolved map rowid]. rewrite Z.eqb_refl.
  eexists. split; [reflexivity|]. cbn [set_resolved rowid alert_type resolved].
  split; [reflexivity|]. split; [reflexivity|]. split; [reflexivity|].
  rewrite open_alerts_app. apply app_nil_r.
Qed.

Lemma X18_resolving_the_new_alert_witness :
  exists a,
    Dashboard.mark_alert_resolved (Some (next_rowid (New.alerts (New.default None))))
      (New.alerts (snd (New.trigger_alert 0 "GPS_LOST" (GpsLost 60) (PyFloat 0) (PyFloat 0)
                          (New.default None))))
    = New.alerts (New.default None) ++ [a]
    /\ rowid a = next_rowid (New.alerts (New.default None))
    /\ alert_type a = "GPS_LOST"%string /\ resolved a = true
    /\ open_alerts
         (Dashboard.mark_alert_resolved (Some (next_rowid (New.alerts (New.default None))))
            (New.alerts (snd (New.trigger_alert 0 "GPS_LOST" (GpsLost 60) (PyFloat 0)
                                (PyFloat 0) (New.default None)))))
       = open_alerts (New.alerts (New.default None)).
Proof.
  apply (X18_resolving_the_new_alert 0 "GPS_LOST" (GpsLost 60) (PyFloat 0) (PyFloat 0)
           (New.default None)).
  reflexivity.
Defined.

End Resolving.

(** ** The loop of [patient_tracker.py] *)

Section OldLoopFacts.
Import Db.

Lemma old_get_gps_location_cases nmea now input st :
  OldLoop.get_gps_location nmea now input st = (Return None, st)
  \/ exists d data,
       input = New.Bytes data
       /\ Old.parse_gps_data nmea now data = Return (Some d)
       /\ OldLoop.get_gps_location nmea now input st
          = (Return (Some d),
             OldLoop.State (OldLoop.self st) (Some d) (OldLoop.locations st)).
Proof.
  unfold OldLoop.get_gps_location, catch.
  destruct input as [|data|]; [left; reflexivity| |left; reflexivity].
  unfold sbind, lift.
  destruct (Old.parse_gps_data nmea now data) as [[d|]|e] eqn:Hp;
    [|left; reflexivity|left; reflexivity].
  destruct (dict_truthy d); [|left; reflexivity].
  right. exists d, data. split; [reflexivity|]. split; [exact Hp|reflexivity].
Qed.

Lemma old_check_geofence_cases now d (t : Old.tracker) :
  Old.check_geofence now d t = (Return true, t)
  \/ (Old.enabled (Old.config_geofence t) = true
      /\ exists dist la lo,
           Old.check_geofence now d t
           = (Return false,
              snd (Old.trigger_alert now "GEOFENCE_BREACH" (LeftSafeArea (Meters dist))
                     la lo t))).
Proof.
  unfold Old.check_geofence.
  destruct (Old.enabled (Old.config_geofence t)) eqn:Hen; [|left; reflexivity].
  cbn [negb]. unfold catch, Old.check_geofence_try, sbind, gets, lift, ret.
  destruct (Old.distance_to_center d (Old.config_geofence t)) as [dist|]; [|left; reflexivity].
  destruct (float_gt dist (Old.radius (Old.config_geofence t))) as [[|]|];
    [|left; reflexivity|left; reflexivity].
  destruct (getitem d "latitude") as [la|]; [|left; reflexivity].
  destruct (getitem d "longitude") as [lo|]; [|left; reflexivity].
  right. split; [reflexivity|]. exists dist, la, lo. reflexivity.
Qed.

(** One iteration: nothing without a fix; with a fix the row is stored and
    the geofence checked, whatever the logger does afterwards. *)
Lemma old_cycle_cases nmea now input st :
  (fst (OldLoop.get_gps_location nmea now input st) = Return None
   /\ OldLoop.cycle nmea now input st = st)
  \/ exists d data,
       input = New.Bytes data
       /\ Old.parse_gps_data nmea now data = Return (Some d)
       /\ OldLoop.cycle nmea now input st
          = OldLoop.State (snd (Old.check_geofence now d (OldLoop.self st))) (Some d)
              (OldLoop.locations st
               ++ [OldLoop.LocationRow (Old.patient_id (OldLoop.self st)) (get d "latitude")
                     (get d "longitude") (get d "altitude") (get d "speed")
                     (get d "timestamp") (OldLoop.get_default d "accuracy" (PyFloat 10))]).
Proof.
  destruct (old_get_gps_location_cases nmea now input st) as [Hg|(d & data & Hin & Hp & Hg)].
  - left. split; [rewrite Hg; reflexivity|].
    unfold OldLoop.cycle, catch, OldLoop.cycle_body, sbind. rewrite Hg. destruct st; reflexivity.
  - right. exists d, data. split; [exact Hin|]. split; [exact Hp|].
    unfold OldLoop.cycle, catch, OldLoop.cycle_body, sbind. rewrite Hg.
    unfold OldLoop.store_location, modify, OldLoop.on_self.
    cbn [OldLoop.self OldLoop.current_location OldLoop.locations].
    destruct (Old.check_geofence now d (OldLoop.self st)) as [[b|e] t']; cbn [snd];
      [|reflexivity].
    unfold lift, ret.
    destruct (getitem d "latitude") as [la|]; [|reflexivity].
    destruct (format_f la) as [[]|]; [|reflexivity].
    destruct (getitem d "longitude") as [lo|]; [|reflexivity].
    destruct (format_f lo) as [[]|]; reflexivity.
Qed.

Lemma old_decode_line_keys nmea now line d :
  Old.decode_line nmea now line = Return (Some d) ->
  d !! "accuracy" = None /\ (d !! "altitude" = None \/ d !! "speed" = None).
Proof.
  unfold Old.decode_line.
  destruct (Str.startswith line "$GPGGA").
  - unfold Old.gga_location.
    destruct (nmea line) as [msg|]; [cbn [bind]|discriminate].
    destruct (msg "latitude"); [cbn [bind]|discriminate].
    destruct (msg "longitude"); [cbn [bind]|discriminate].
    destruct (msg "altitude"); [cbn [bind]|discriminate].
    destruct (msg "gps_qual"); [cbn [bind]|discriminate].
    destruct (msg "num_sats"); [cbn [bind]|discriminate].
    intros [= <-]. split; [reflexivity|right; reflexivity].
  - destruct (Str.startswith line "$GPRMC"); [|discriminate].
    unfold Old.rmc_location.
    destruct (nmea line) as [msg|]; [cbn [bind]|discriminate].
    destruct (msg "latitude"); [cbn [bind]|discriminate].
    destruct (msg "longitude"); [cbn [bind]|discriminate].
    destruct (msg "spd_over_grnd"); [cbn [bind]|discriminate].
    destruct (msg "is_valid"); [cbn [bind]|discriminate].
    intros [= <-]. split; [reflexivity|left; reflexivity].
Qed.

Lemma old_parse_gps_data_keys nmea now data d :
  Old.parse_gps_data nmea now data = Return (Some d) ->
  d !! "accuracy" = None /\ (d !! "altitude" = None \/ d !! "speed" = None).
Proof.
  unfold Old.parse_gps_data, try_except.
  destruct (Old.parse_lines nmea now (Str.split "010" data)) as [r|] eqn:Hp; [|discriminate].
  intros [= ->]. apply old_parse_lines_some in Hp. destruct Hp as (line & _ & Hd).
  exact (old_decode_line_keys nmea now line d Hd).
Qed.

Lemma old_grows_refl st : old_grows st st.
Proof.
  unfold old_grows. cbn zeta. split; [reflexivity|]. split; [reflexivity|].
  split; [reflexivity|]. exists [], []. cbn [flat_map length].
  rewrite !app_nil_r. repeat split; try reflexivity; constructor.
Qed.

Lemma old_grows_trans st1 st2 st3 : old_grows st1 st2 -> old_grows st2 st3 -> old_grows st1 st3.
Proof.
  unfold old_grows. cbn zeta.
  intros (Hp1 & Hn1 & Hg1 & ad1 & rs1 & Ha1 & Hf1 & Hs1 & Hd1 & Hl1 & Hr1 & Hc1)
         (Hp2 & Hn2 & Hg2 & ad2 & rs2 & Ha2 & Hf2 & Hs2 & Hd2 & Hl2 & Hr2 & Hc2).
  split; [congruence|]. split; [congruence|]. split; [congruence|].
  exists (ad1 ++ ad2), (rs1 ++ rs2).
  split; [rewrite Ha2, Ha1, app_assoc; reflexivity|].
  split; [apply Forall_app; split; assumption|].
  split; [rewrite Hs2, Hs1, Hn1, flat_map_app, app_assoc; reflexivity|].
  split; [intros Hen; rewrite Hd1 by exact Hen; rewrite Hd2 by congruence; reflexivity|].
  split; [rewrite Hl2, Hl1, app_assoc; reflexivity|].
  split.
  - apply Forall_app. split; [exact Hr1|].
    eapply Forall_impl; [exact Hr2|]. unfold old_stored_row. intros r. rewrite Hp1. tauto.
  - rewrite !length_app. lia.
Qed.

Lemma old_cycle_grows nmea now input st : old_grows st (OldLoop.cycle nmea now input st).
Proof.
  destruct (old_cycle_cases nmea now input st) as [[_ ->]|(d & data & _ & Hp & ->)];
    [apply old_grows_refl|].
  destruct (old_parse_gps_data_keys nmea now data d Hp) as [Hacc Hkeys].
  assert (Hrow : old_stored_row (OldLoop.self st)
                   (OldLoop.LocationRow (Old.patient_id (OldLoop.self st)) (get d "latitude")
                      (get d "longitude") (get d "altitude") (get d "speed")
                      (get d "timestamp") (OldLoop.get_default d "accuracy" (PyFloat 10)))).
  { unfold old_stored_row, OldLoop.get_default, get.
    cbn [OldLoop.loc_patient_id OldLoop.loc_accuracy OldLoop.loc_altitude OldLoop.loc_speed].
    rewrite Hacc. split; [reflexivity|]. split; [reflexivity|].
    destruct Hkeys as [-> | ->]; [left|right]; reflexivity. }
  unfold old_grows. cbn zeta. cbn [OldLoop.self OldLoop.locations].
  destruct (old_check_geofence_cases now d (OldLoop.self st))
    as [->|(Hen & dist & la & lo & ->)]; cbn [snd].
  - split; [reflexivity|]. split; [reflexivity|]. split; [reflexivity|].
    exists [], [OldLoop.LocationRow (Old.patient_id (OldLoop.self st)) (get d "latitude")
                  (get d "longitude") (get d "altitude") (get d "speed")
                  (get d "timestamp") (OldLoop.get_default d "accuracy" (PyFloat 10))].
    cbn [flat_map length]. rewrite !app_nil_r.
    split; [reflexivity|]. split; [constructor|]. split; [reflexivity|].
    split; [reflexivity|]. split; [reflexivity|].
    split; [constructor; [exact Hrow|constructor]|lia].
  - unfold Old.trigger_alert, modify. cbn [snd Old.patient_id Old.emergency_numbers
      Old.config_geofence Old.alerts Old.sms_attempts].
    split; [reflexivity|]. split; [reflexivity|]. split; [reflexivity|].
    eexists [_], [_]. split; [reflexivity|].
    split.
    { constructor; [|constructor]. unfold old_breach_alert.
      cbn [alert_type sms_sent resolved message]. repeat split. exists dist. reflexivity. }
    cbn [flat_map message length]. rewrite app_nil_r.
    split; [reflexivity|]. split; [congruence|]. split; [reflexivity|].
    split; [constructor; [exact Hrow|constructor]|lia].
Qed.

Lemma old_tracking_loop_grows nmea polls st :
  old_grows st (OldLoop.tracking_loop nmea polls st).
Proof.
  unfold OldLoop.tracking_loop. revert st.
  induction polls as [|p polls IH]; intros st; [apply old_grows_refl|].
  cbn [fold_left]. eapply old_grows_trans; [apply old_cycle_grows|apply IH].
Qed.

(** X19: the loop of [patient_tracker.py] raises breach alerts only.  Over any
    run, from any state, the alerts table grows at its end by rows of type
    [GEOFENCE_BREACH] (never [GPS_LOST]), unresolved and with [sms_sent]
    left at 0; one SMS is attempted for every new alert and emergency
    number, alert by alert in the order of the configured numbers; with
    the geofence disabled no alert is added; no existing alert row and no
    configuration is changed. *)
Theorem X19_old_loop_raises_breach_alerts_only
    (nmea : Pynmea2.lib) (polls : list (Z * New.gps_input)) (st : OldLoop.state) :
  let t := OldLoop.self st in
  let t' := OldLoop.self (OldLoop.tracking_loop nmea polls st) in
  Old.emergency_numbers t' = Old.emergency_numbers t
  /\ Old.config_geofence t' = Old.config_geofence t
  /\ exists added,
       Old.alerts t' = Old.alerts t ++ added
       /\ Forall old_breach_alert added
       /\ of_type "GPS_LOST" (Old.alerts t') = of_type "GPS_LOST" (Old.alerts t)
       /\ Old.sms_attempts t'
          = Old.sms_attempts t
            ++ flat_map (fun a => map (fun n => (n, message a)) (Old.emergency_numbers t))
                 added
       /\ (Old.enabled (Old.config_geofence t) = false -> added = [])
       /\ (length added <= length polls)%nat.
Proof.
  cbn zeta.
  assert (Hlen : forall polls st,
             (length (OldLoop.locations (OldLoop.tracking_loop nmea polls st))
              <= length (OldLoop.locations st) + length polls)%nat).
  { clear. unfold OldLoop.tracking_loop.
    induction polls as [|p polls IH]; intros st; cbn [fold_left length]; [lia|].
    specialize (IH (OldLoop.cycle nmea (fst p) (snd p) st)).
    destruct (old_cycle_cases nmea (fst p) (snd p) st) as [[_ Hc]|(d & data & _ & _ & Hc)];
      rewrite Hc in IH |- *; cbn [OldLoop.locations] in IH; [lia|].
    rewrite length_app in IH. cbn [length] in IH. lia. }
  destruct (old_tracking_loop_grows nmea polls st)
    as (_ & Hn & Hg & added & rows & Ha & Hf & Hs & Hd & Hl & _ & Hc).
  split; [exact Hn|]. split; [exact Hg|]. exists added.
  split; [exact Ha|]. split; [exact Hf|]. split.
  - rewrite Ha, of_type_app.
    assert (Hnone : of_type "GPS_LOST" added = []).
    { clear -Hf. induction Hf as [|a added (Hty & _) _ IH]; [reflexivity|].
      unfold of_type in *. cbn [List.filter]. rewrite Hty. exact IH. }
    rewrite Hnone. apply app_nil_r.
  - split; [exact Hs|]. split; [exact Hd|].
    specialize (Hlen polls st). rewrite Hl, length_app in Hlen. lia.
Qed.

(** X20: without a fix the loop of [patient_tracker.py] does nothing: polls on
    which [get_gps_location] returns [None] (no bytes waiting, a failing
    read, text without a sentence it decodes) leave the tracker, its
    tables and its last position as they are, however many there are; no
    position-lost alert is ever raised. *)
Theorem X20_old_loop_silent_without_fix
    (nmea : Pynmea2.lib) (polls : list (Z * New.gps_input)) (st : OldLoop.state) :
  (forall p s, In p polls ->
     fst (OldLoop.get_gps_location nmea (fst p) (snd p) s) = Return None) ->
  OldLoop.tracking_loop nmea polls st = st.
Proof.
  unfold OldLoop.tracking_loop. revert st.
  induction polls as [|p polls IH]; intros st H; [reflexivity|].
  cbn [fold_left].
  destruct (old_cycle_cases nmea (fst p) (snd p) st) as [[_ ->]|(d & data & Hin & Hp & _)].
  - apply IH. intros q s Hq. apply H. right. exact Hq.
  - exfalso. specialize (H p st (or_introl eq_refl)).
    destruct (old_get_gps_location_cases nmea (fst p) (snd p) st)
      as [Hg|(d' & data' & _ & _ & Hg)]; rewrite Hg in H; [|discriminate].
    revert Hg. unfold OldLoop.get_gps_location, catch, sbind, lift. rewrite Hin, Hp.
    destruct (dict_truthy d) eqn:Ht; [discriminate|].
    revert Hp Ht. clear. intros Hp Ht _.
    unfold Old.parse_gps_data, try_except in Hp.
    destruct (Old.parse_lines nmea _ _) as [r|] eqn:Hl; [|discriminate].
    injection Hp as ->. apply old_parse_lines_some in Hl. destruct Hl as (line & _ & Hd).
    unfold Old.decode_line in Hd.
    assert (Hlat : d !! "latitude" <> None).
    { destruct (Str.startswith line "$GPGGA").
      - unfold Old.gga_location in Hd.
        destruct (nmea line) as [msg|]; [cbn [bind] in Hd|discriminate].
        destruct (msg "latitude"); [cbn [bind] in Hd|discriminate].
        destruct (msg "longitude"); [cbn [bind] in Hd|discriminate].
        destruct (msg "altitude"); [cbn [bind] in Hd|discriminate].
        destruct (msg "gps_qual"); [cbn [bind] in Hd|discriminate].
        destruct (msg "num_sats"); [cbn [bind] in Hd|discriminate].
        injection Hd as <-. rewrite lookup_insert_eq. discriminate.
      - destruct (Str.startswith line "$GPRMC"); [|discriminate].
        unfold Old.rmc_location in Hd.
        destruct (nmea line) as [msg|]; [cbn [bind] in Hd|discriminate].
        destruct (msg "latitude"); [cbn [bind] in Hd|discriminate].
        destruct (msg "longitude"); [cbn [bind] in Hd|discriminate].
        destruct (msg "spd_over_grnd"); [cbn [bind] in Hd|discriminate].
        destruct (msg "is_valid"); [cbn [bind] in Hd|discriminate].
        injection Hd as <-. rewrite lookup_insert_eq. discriminate. }
    apply Hlat. unfold dict_truthy in Ht. apply negb_false_iff, Nat.eqb_eq in Ht.
    apply map_size_empty_iff in Ht. rewrite Ht. apply lookup_empty.
Qed.

Lemma X20_old_loop_silent_without_fix_witness :
  OldLoop.tracking_loop sample_nmea
    [(0%Z, New.NoBytes); (10%Z, New.ReadError); (20%Z, New.Bytes "no sentence here");
     (30%Z, New.Bytes corrupt_gga)]
    (OldLoop.State Old.default None [])
  = OldLoop.State Old.default None [].
Proof.
  apply X20_old_loop_silent_without_fix.
  intros p s [<-|[<-|[<-|[<-|[]]]]]; reflexivity.
Defined.

(** X21: every row the loop of [patient_tracker.py] stores carries the default
    accuracy 10.0 and lacks the altitude or the speed: the decoder never
    sets an accuracy, a position-fix sentence gives no speed and a
    minimum-data sentence no altitude.  At most one row is stored per poll
    and at least one per alert; no existing row is changed. *)
Theorem X21_old_loop_stored_rows
    (nmea : Pynmea2.lib) (polls : list (Z * New.gps_input)) (st : OldLoop.state) :
  let st' := OldLoop.tracking_loop nmea polls st in
  exists rows,
    OldLoop.locations st' = OldLoop.locations st ++ rows
    /\ Forall (old_stored_row (OldLoop.self st)) rows
    /\ (length (Old.alerts (OldLoop.self st')) - length (Old.alerts (OldLoop.self st))
        <= length rows)%nat.
Proof.
  cbn zeta.
  destruct (old_tracking_loop_grows nmea polls st)
    as (_ & _ & _ & added & rows & Ha & _ & _ & _ & Hl & Hr & Hc).
  exists rows. split; [exact Hl|]. split; [exact Hr|].
  rewrite Ha, length_app. lia.
Qed.

Lemma old_check_geofence_state now d x y (t : Old.tracker) cx cy r :
  Old.enabled (Old.config_geofence t) = true ->
  located d x y ->
  as_real (Old.latitude (Old.config_geofence t)) = Return cx ->
  as_real (Old.longitude (Old.config_geofence t)) = Return cy ->
  as_real (Old.radius (Old.config_geofence t)) = Return r ->
  snd (Old.check_geofence now d t)
  = if Rgt_dec (Spec.distanceMeters x y cx cy) r
    then snd (Old.trigger_alert now "GEOFENCE_BREACH"
                (LeftSafeArea (Meters (Spec.distanceMeters x y cx cy)))
                (get d "latitude") (get d "longitude") t)
    else t.
Proof.
  intros Hen Hloc Hcx Hcy Hr.
  unfold Old.check_geofence. rewrite Hen. cbn [negb].
  unfold catch, Old.check_geofence_try, sbind, gets, lift.
  rewrite (old_distance_to_center _ _ _ _ _ _ Hloc Hcx Hcy).
  unfold float_gt. rewrite Hr. cbn [bind].
  destruct Hloc as (la & lo & Hla & Hlo & _ & _).
  destruct (Rgt_dec _ r); [|reflexivity].
  unfold getitem, get. rewrite Hla, Hlo. reflexivity.
Qed.

(** X22: a poll of [patient_tracker.py] with a fix.  When the bytes decode to a
    fix with numeric coordinates, the fix becomes the current location and
    one row is stored.  With the geofence enabled and a numeric
    configuration, a fix farther from the centre than the radius adds one
    [GEOFENCE_BREACH] alert with the distance, the coordinates of the fix
    and a fresh id, and one SMS attempt per emergency number, on every such
    poll; a fix within the radius leaves the tracker as it is. *)
Theorem X22_old_poll_with_fix
    (nmea : Pynmea2.lib) (now : Z) (data : string) (d : dict) (x y cx cy r : R)
    (st : OldLoop.state) :
  let t := OldLoop.self st in
  let st' := OldLoop.cycle nmea now (New.Bytes data) st in
  let dist := Spec.distanceMeters x y cx cy in
  Old.parse_gps_data nmea now data = Return (Some d) ->
  located d x y ->
  Old.enabled (Old.config_geofence t) = true ->
  as_real (Old.latitude (Old.config_geofence t)) = Return cx ->
  as_real (Old.longitude (Old.config_geofence t)) = Return cy ->
  as_real (Old.radius (Old.config_geofence t)) = Return r ->
  OldLoop.current_location st' = Some d
  /\ OldLoop.locations st'
     = OldLoop.locations st
       ++ [OldLoop.LocationRow (Old.patient_id t) (get d "latitude") (get d "longitude")
             (get d "altitude") (get d "speed") (get d "timestamp") (PyFloat 10)]
  /\ ((dist > r)%R ->
      Old.alerts (OldLoop.self st')
      = Old.alerts t
        ++ [Alert (next_rowid (Old.alerts t)) (Old.patient_id t) "GEOFENCE_BREACH"
              (LeftSafeArea (Meters dist)) (get d "latitude") (get d "longitude") now
              false false]
      /\ Old.sms_attempts (OldLoop.self st')
         = Old.sms_attempts t
           ++ map (fun n => (n, LeftSafeArea (Meters dist))) (Old.emergency_numbers t))
  /\ ((dist <= r)%R -> OldLoop.self st' = t).
Proof.
  cbn zeta. intros Hp Hloc Hen Hcx Hcy Hr.
  destruct (old_cycle_cases nmea now (New.Bytes data) st)
    as [[Hnone _]|(d' & data' & Hin & Hp' & Hc)].
  - exfalso. revert Hnone.
    unfold OldLoop.get_gps_location, catch, sbind, lift. rewrite Hp.
    rewrite (located_truthy d x y Hloc). discriminate.
  - injection Hin as <-. rewrite Hp in Hp'. injection Hp' as <-.
    rewrite Hc. cbn [OldLoop.current_location OldLoop.locations OldLoop.self].
    split; [reflexivity|]. split.
    { unfold OldLoop.get_default.
      rewrite (proj1 (old_parse_gps_data_keys nmea now data d Hp)). reflexivity. }
    rewrite (old_check_geofence_state now d x y (OldLoop.self st) cx cy r Hen Hloc Hcx Hcy Hr).
    destruct (Rgt_dec (Spec.distanceMeters x y cx cy) r) as [Hgt|Hngt].
    + split; [|intros Hle; exfalso; lra].
      intros _. split; reflexivity.
    + split; [intros Hgt; exfalso; lra|]. intros _. reflexivity.
Qed.

Lemma X22_old_poll_with_fix_witness :
  let t := Old.Tracker "PATIENT001" ["+918848776875"]
             (Old.Geofence true (PyFloat (48 + 7038 / 1000 / 60)) (PyFloat (11 + 31 / 60))
                (PyInt 100)) [] [] in
  let st' := OldLoop.cycle sample_nmea 20 (New.Bytes sample_gga) (OldLoop.State t None []) in
  OldLoop.locations st'
  = [OldLoop.LocationRow "PATIENT001" (PyFloat (48 + 7038 / 1000 / 60))
       (PyFloat (11 + 31 / 60)) (PyFloat (5454 / 10)) PyNone (PyDatetime 20) (PyFloat 10)]
  /\ OldLoop.self st' = t.
Proof.
  cbn zeta.
  destruct (X22_old_poll_with_fix sample_nmea 20%Z sample_gga
              (<["latitude" := PyFloat (48 + 7038 / 1000 / 60)]>
                 (<["longitude" := PyFloat (11 + 31 / 60)]>
                 (<["altitude" := PyFloat (5454 / 10)]>
                 (<["timestamp" := PyDatetime 20]>
                 (<["fix_quality" := PyInt 1]>
                 (<["satellites" := PyStr "08"]> ∅))))))
              (48 + 7038 / 1000 / 60)%R (11 + 31 / 60)%R
              (48 + 7038 / 1000 / 60)%R (11 + 31 / 60)%R 100%R
              (OldLoop.State
                 (Old.Tracker "PATIENT001" ["+918848776875"]
                    (Old.Geofence true (PyFloat (48 + 7038 / 1000 / 60))
                       (PyFloat (11 + 31 / 60)) (PyInt 100)) [] [])
                 None []))
    as (_ & Hrows & _ & Hwithin).
  - vm_compute. reflexivity.
  - eexists _, _. repeat split; reflexivity.
  - reflexivity.
  - reflexivity.
  - reflexivity.
  - reflexivity.
  - split.
    + rewrite Hrows. reflexivity.
    + apply Hwithin. rewrite distance_center. lra.
Defined.

End OldLoopFacts.

(** ** The decoder of [tracker.py] *)

Section TrackerDecoder.

Lemma tracker_parse_nmea_lines_skip now line rest :
  has_position line = false ->
  Tracker.parse_nmea_lines now (line :: rest) = Tracker.parse_nmea_lines now rest.
Proof.
  unfold has_position. cbn zeta. intros H. cbn [Tracker.parse_nmea_lines].
  destruct (Str.startswith line "$GPGGA"); [|reflexivity].
  cbn [andb] in H. rewrite H. reflexivity.
Qed.

Lemma tracker_parse_nmea_lines_first now line rest :
  has_position line = true ->
  Tracker.parse_nmea_lines now (line :: rest) = Tracker.parse_nmea_lines now [line]
  /\ Tracker.parse_nmea_lines now [line] <> Return None.
Proof.
  unfold has_position. cbn zeta. intros H. cbn [Tracker.parse_nmea_lines].
  apply andb_true_iff in H. destruct H as [-> ->]. split; [reflexivity|].
  destruct (Tracker.coordinate 2 _ _ _); cbn [bind]; [|discriminate].
  destruct (Tracker.coordinate 3 _ _ _); cbn [bind]; discriminate.
Qed.

(** X23: in [tracker.py] the first sentence with a position decides the decode.
    Lines that are not a [$GPGGA] sentence of more than five fields with
    non-empty latitude and longitude fields are skipped, and a text with
    such lines only gives [None].  The first line that passes the test is
    converted and nothing after it is read: the result is the position of
    that sentence, or [None] when one of its fields does not convert, even
    if a later sentence is valid. *)
Theorem X23_tracker_first_position_decides
    (now : Z) (data : string) (before : list string) (line : string) (rest : list string) :
  Forall (fun l => has_position l = false) before ->
  (Str.split "010" data = before ->
   Tracker.parse_nmea now data = Return None)
  /\ (Str.split "010" data = before ++ line :: rest ->
      has_position line = true ->
      Tracker.parse_nmea_lines now [line] <> Return None
      /\ Tracker.parse_nmea now data
         = match Tracker.parse_nmea_lines now [line] with
           | Return r => Return r
           | Raise _ => Return None
           end).
Proof.
  intros Hbefore.
  assert (Hskip : forall lines,
             Tracker.parse_nmea_lines now (before ++ lines)
             = Tracker.parse_nmea_lines now lines).
  { intros lines. induction Hbefore as [|l before Hl _ IH]; [reflexivity|].
    cbn [app]. rewrite tracker_parse_nmea_lines_skip by exact Hl. exact IH. }
  split.
  - intros Hs. unfold Tracker.parse_nmea. rewrite Hs.
    rewrite <- (app_nil_r before), Hskip. reflexivity.
  - intros Hs Hline.
    destruct (tracker_parse_nmea_lines_first now line rest Hline) as [Hfirst Hsome].
    split; [exact Hsome|].
    unfold Tracker.parse_nmea, try_except. rewrite Hs, Hskip, Hfirst. reflexivity.
Qed.

Lemma X23_tracker_first_position_decides_witness :
  Tracker.parse_nmea_lines 0 [badfield_gga] <> Return None
  /\ Tracker.parse_nmea 0
       (searching_gga ++ newline ++ sample_rmc ++ newline ++ badfield_gga
        ++ newline ++ sample_gga)%string
     = Return None
  /\ exists loc, Tracker.parse_nmea 0 sample_gga = Return (Some loc).
Proof.
  destruct (X23_tracker_first_position_decides 0%Z
              (searching_gga ++ newline ++ sample_rmc ++ newline ++ badfield_gga
               ++ newline ++ sample_gga)%string
              [searching_gga; sample_rmc] badfield_gga [sample_gga]) as [_ H].
  - constructor; [reflexivity|]. constructor; [reflexivity|constructor].
  - destruct (H eq_refl eq_refl) as [Hsome Heq].
    split; [exact Hsome|]. split.
    + rewrite Heq. reflexivity.
    + eexists (Tracker.Location (Tracker.FFin (2887038 # 60000))
                 (Tracker.FFin (691000 # 60000)) 0).
      vm_compute. reflexivity.
Defined.

End TrackerDecoder.
